(** * awd-cli: registry client, runtime manager and command line driver

    A shallow embedding of the parts of [awd_cli] that resolve servers,
    runtimes and scripts, and the properties of them that the design
    document states.

    - [Py]: the Python values and string operations the code relies on.
    - [Eff]: a state-and-exception monad for code that talks to the outside.
    - [Runtime]: [runtime/manager.py].
    - [Registry]: [registry/client.py].
    - [Cli]: the [install], [run] and [preview] commands of [cli.py]. *)

From Stdlib Require Import ZArith Ascii String.
From stdpp Require Import strings list.

Set Warnings "-register-all".

(* ===================================================================== *)
(** * Python values *)
(* ===================================================================== *)

Module Py.

(** A [str] is modelled as a [string]: a sequence of characters, one [ascii]
    per character (code points 0..255). *)

(** [x in s] for two strings. *)
Fixpoint str_in (x s : string) : bool :=
  String.prefix x s ||
  match s with
  | EmptyString => false
  | String _ s' => str_in x s'
  end.

(** [s.count(c)] for a one-character [c]. *)
Fixpoint count (c : ascii) (s : string) : nat :=
  match s with
  | EmptyString => 0
  | String a s' => (if Ascii.eqb a c then 1 else 0) + count c s'
  end.

(** [s.split(c, 1)] for a one-character separator: at most one split, at
    the first occurrence of [c]. *)
Fixpoint split1 (c : ascii) (s : string) : list string :=
  match s with
  | EmptyString => [EmptyString]
  | String a s' =>
      if Ascii.eqb a c then [EmptyString; s']
      else match split1 c s' with
           | h :: t => String a h :: t
           | [] => [String a EmptyString]
           end
  end.

(** [c.lower()] on one character: A-Z, and the upper-case letters of the
    Latin-1 block (all of U+00C0..U+00DE but the multiplication sign). *)
Definition lower_char (c : ascii) : ascii :=
  let n := N_of_ascii c in
  if ((65 <=? n)%N && (n <=? 90)%N)
     || ((192 <=? n)%N && (n <=? 222)%N && negb (n =? 215)%N)
  then ascii_of_N (n + 32) else c.

Fixpoint lower (s : string) : string :=
  match s with
  | EmptyString => EmptyString
  | String a s' => String (lower_char a) (lower s')
  end.

(** [c.isspace()] on one character. *)
Definition is_space (c : ascii) : bool :=
  let n := N_of_ascii c in
  ((9 <=? n)%N && (n <=? 13)%N) || ((28 <=? n)%N && (n <=? 32)%N)
  || (n =? 133)%N || (n =? 160)%N.

Fixpoint lstrip (s : string) : string :=
  match s with
  | EmptyString => EmptyString
  | String a s' => if is_space a then lstrip s' else s
  end.

Fixpoint rstrip (s : string) : string :=
  match s with
  | EmptyString => EmptyString
  | String a s' =>
      match rstrip s' with
      | EmptyString => if is_space a then EmptyString else String a EmptyString
      | r => String a r
      end
  end.

(** [s.strip()] *)
Definition strip (s : string) : string := rstrip (lstrip s).

(** What [json.loads] and [yaml.safe_load] produce (numbers are integers
    here; mapping keys are strings).  A [dict] keeps insertion order. *)
Inductive pyval :=
  | PNone
  | PBool (b : bool)
  | PInt (n : Z)
  | PStr (s : string)
  | PList (l : list pyval)
  | PDict (d : list (string * pyval)).

Definition dict (V : Type) := list (string * V).

(** [d.get(k)] *)
Fixpoint dict_get {V} (k : string) (d : dict V) : option V :=
  match d with
  | [] => None
  | (k', v) :: d' => if String.eqb k' k then Some v else dict_get k d'
  end.

(** [k in d] *)
Definition dict_mem {V} (k : string) (d : dict V) : bool :=
  match dict_get k d with Some _ => true | None => false end.

(** [d[k] = v]: an existing key keeps its position. *)
Fixpoint dict_set {V} (k : string) (v : V) (d : dict V) : dict V :=
  match d with
  | [] => [(k, v)]
  | (k', v') :: d' =>
      if String.eqb k' k then (k, v) :: d' else (k', v') :: dict_set k v d'
  end.

(** The characters of a string, as iterating over it gives them. *)
Fixpoint chars (s : string) : list pyval :=
  match s with
  | EmptyString => []
  | String a s' => PStr (String a EmptyString) :: chars s'
  end.

(** [bool(v)] *)
Definition truthy (v : pyval) : bool :=
  match v with
  | PNone => false
  | PBool b => b
  | PInt n => negb (n =? 0)%Z
  | PStr s => negb (String.eqb s EmptyString)
  | PList l => match l with [] => false | _ => true end
  | PDict d => match d with [] => false | _ => true end
  end.

(** [v == s] for a string [s]. *)
Definition eq_str (v : pyval) (s : string) : bool :=
  match v with
  | PStr t => String.eqb t s
  | _ => false
  end.

(** The exceptions the code meets; all of them are instances of
    [Exception].  [SystemExit] is not: see [Eff.Exit]. *)
Inductive exn :=
  | ValueError (msg : string)
  | TypeError
  | KeyError (key : string)
  | AttributeError
  | ImportError
  | RequestException
  | OtherException (msg : string).

End Py.

(* ===================================================================== *)
(** * Effects: outside state, a log, exceptions and process exit *)
(* ===================================================================== *)

Module Eff.
Import Py.

(** How a call ends: it returns, it raises an [Exception], or it leaves
    through [sys.exit(code)], which no [except Exception] handler stops. *)
Inductive outcome (A : Type) :=
  | Ret (a : A)
  | Raise (e : exn)
  | Exit (code : Z).
Arguments Ret {A} a.
Arguments Raise {A} e.
Arguments Exit {A} code.

(** What a collaborator outside the modelled code answers. *)
Inductive answer (A : Type) :=
  | Ok (a : A)
  | Failed (e : exn).
Arguments Ok {A} a.
Arguments Failed {A} e.

Definition of_answer {A} (a : answer A) : outcome A :=
  match a with
  | Ok x => Ret x
  | Failed e => Raise e
  end.

(** A computation over the outside world [W] that logs events [E]. *)
Definition M (W E A : Type) := W -> outcome A * W * list E.

Section Ops.
Context {W E : Type}.

Definition ret {A} (a : A) : M W E A := fun w => (Ret a, w, []).
Definition raise {A} (e : exn) : M W E A := fun w => (Raise e, w, []).
Definition sys_exit {A} (code : Z) : M W E A := fun w => (Exit code, w, []).
Definition tell (e : E) : M W E unit := fun w => (Ret tt, w, [e]).
Definition tell_all (l : list E) : M W E unit := fun w => (Ret tt, w, l).

Definition bind {A B} (m : M W E A) (k : A -> M W E B) : M W E B :=
  fun w =>
    match m w with
    | (Ret a, w1, l1) =>
        match k a w1 with
        | (o, w2, l2) => (o, w2, l1 ++ l2)
        end
    | (Raise e, w1, l1) => (Raise e, w1, l1)
    | (Exit c, w1, l1) => (Exit c, w1, l1)
    end.

(** [try: m  except Exception as e: h e] *)
Definition try_except {A} (m : M W E A) (h : exn -> M W E A) : M W E A :=
  fun w =>
    match m w with
    | (Raise e, w1, l1) =>
        match h e w1 with
        | (o, w2, l2) => (o, w2, l1 ++ l2)
        end
    | r => r
    end.

(** [try: m  except ImportError: h] *)
Definition try_except_import {A} (m : M W E A) (h : M W E A) : M W E A :=
  fun w =>
    match m w with
    | (Raise ImportError, w1, l1) =>
        match h w1 with
        | (o, w2, l2) => (o, w2, l1 ++ l2)
        end
    | r => r
    end.

(** A call to a collaborator, logged with its answer. *)
Definition call {A} (e : answer A -> E) (f : W -> answer A * W) : M W E A :=
  fun w =>
    match f w with
    | (a, w1) => (of_answer a, w1, [e a])
    end.

End Ops.

Definition result {W E A} (r : outcome A * W * list E) : outcome A := r.1.1.
Definition world {W E A} (r : outcome A * W * list E) : W := r.1.2.
Definition log {W E A} (r : outcome A * W * list E) : list E := r.2.

(** The exit status of the process when a command ends this way: click
    turns a normal return into status 0, and [main] an exception that
    reaches it into status 1. *)
Definition exit_status {A} (o : outcome A) : Z :=
  match o with
  | Ret _ => 0%Z
  | Raise _ => 1%Z
  | Exit c => c
  end.

End Eff.

Declare Scope eff_scope.
Delimit Scope eff_scope with eff.
Notation "x <- m ;; k" := (Eff.bind m (fun x => k))
  (at level 100, m at next level, right associativity) : eff_scope.
Notation "m ;;; k" := (Eff.bind m (fun _ => k))
  (at level 100, right associativity) : eff_scope.

(* ===================================================================== *)
(** * runtime/manager.py *)
(* ===================================================================== *)

Module Runtime.
Import Py Eff.
Local Open Scope eff_scope.

(** What a path resolves to, symbolic links followed. *)
Inductive entry :=
  | Absent
  | RegularFile (executable : bool)
  | Directory
  | OtherEntry.

(** What [subprocess.run([path, "--version"], capture_output=True,
    text=True, timeout=5)] does. *)
Inductive proc_result :=
  | Completed (returncode : Z) (stdout : string)
  | ProcRaised.

(** The machine the manager looks at. *)
Record host := {
  home : string;                      (* Path.home() *)
  fs : string -> entry;               (* the file system *)
  which : string -> option string;    (* shutil.which *)
  run_version : string -> proc_result
}.

(** What the manager asks the machine, in the order it asks. *)
Inductive probe :=
  | PExists (path : string)
  | PIsFile (path : string)
  | PWhich (name : string)
  | PRunVersion (path : string).

Record runtime_info := {
  script : string;
  description : string;
  binary : string
}.

Record runtime_status := {
  st_description : string;
  installed : bool;
  path : option string;
  version : option string   (* the key is absent when [None] *)
}.

(** [a / b] on paths, for a relative [b]. *)
Definition path_join (a b : string) : string := a +:+ "/" +:+ b.

Definition Q := M unit probe.

Section Manager.
Variable h : host.

Definition runtime_dir : string :=
  path_join (path_join (home h) ".awd") "runtimes".

Definition supported_runtimes : dict runtime_info :=
  [ ("codex", {| script := "setup-codex.sh";
                 description := "OpenAI Codex CLI with GitHub Models support";
                 binary := "codex" |});
    ("llm", {| script := "setup-llm.sh";
               description := "Simon Willison's LLM library with multiple providers";
               binary := "llm" |}) ].

Definition path_exists (p : string) : Q bool :=
  tell (PExists p) ;;;
  ret (match fs h p with Absent => false | _ => true end).

Definition path_is_file (p : string) : Q bool :=
  tell (PIsFile p) ;;;
  ret (match fs h p with RegularFile _ => true | _ => false end).

Definition shutil_which (name : string) : Q (option string) :=
  tell (PWhich name) ;;; ret (which h name).

(** The version entry of [list_runtimes]: set from the output on return
    code 0, left out on another return code, ["unknown"] on an exception. *)
Definition query_version (p : string) : Q (option string) :=
  tell (PRunVersion p) ;;;
  match run_version h p with
  | Completed rc out => ret (if (rc =? 0)%Z then Some (strip out) else None)
  | ProcRaised => ret (Some "unknown")
  end.

Definition runtime_record (info : runtime_info) : Q runtime_status :=
  let binary_path := path_join runtime_dir (binary info) in
  e1 <- path_exists binary_path ;;
  e2 <- path_exists binary_path ;;
  v <- (if e1 then query_version binary_path else ret None) ;;
  ret {| st_description := description info;
         installed := e1;
         path := if e2 then Some binary_path else None;
         version := v |}.

Fixpoint list_runtimes_from (rs : dict runtime_info)
  : Q (dict runtime_status) :=
  match rs with
  | [] => ret []
  | (name, info) :: rs' =>
      st <- runtime_record info ;;
      rest <- list_runtimes_from rs' ;;
      ret ((name, st) :: rest)
  end.

Definition list_runtimes : Q (dict runtime_status) :=
  list_runtimes_from supported_runtimes.

Definition is_runtime_available (runtime_name : string) : Q bool :=
  match dict_get runtime_name supported_runtimes with
  | None => ret false
  | Some info =>
      let binary_name := binary info in
      let awd_binary := path_join runtime_dir binary_name in
      e <- path_exists awd_binary ;;
      f <- (if e then path_is_file awd_binary else ret false) ;;
      if f then ret true
      else w <- shutil_which binary_name ;;
           ret (match w with Some _ => true | None => false end)
  end.

Definition get_runtime_preference : list string := ["codex"; "llm"].

Fixpoint first_available (names : list string) : Q (option string) :=
  match names with
  | [] => ret None
  | runtime :: names' =>
      a <- is_runtime_available runtime ;;
      if a then ret (Some runtime) else first_available names'
  end.

Definition get_available_runtime : Q (option string) :=
  first_available get_runtime_preference.

End Manager.

(** Running a query: its value and what it asked of the machine. *)
Definition value {A} (m : Q A) : outcome A := result (m tt).
Definition asked {A} (m : Q A) : list probe := log (m tt).

End Runtime.

(* ===================================================================== *)
(** * registry/client.py *)
(* ===================================================================== *)

Module Registry.
Import Py Eff.
Local Open Scope eff_scope.

(** The HTTP requests the client sends, each with what came back: the
    body that [response.json()] gives, or the exception of the request, of
    [raise_for_status()] or of [json()]. *)
Inductive exchange :=
  | GetServers (limit : option Z) (cursor : option string)
               (reply : answer pyval)
  | GetServer (server_id : pyval) (reply : answer pyval).

Section Client.
Variable W : Type.
(** [session.get(url, params)], [raise_for_status()] and [json()] of the two
    end points. *)
Variable http_servers : option Z -> option string -> W -> answer pyval * W.
Variable http_server : pyval -> W -> answer pyval * W.

Definition R := M W exchange.

(** [v.get(k, dflt)] *)
Definition py_get (k : string) (dflt v : pyval) : R pyval :=
  match v with
  | PDict d => ret (default dflt (dict_get k d))
  | _ => raise AttributeError
  end.

(** [v[k]] for a string [k] *)
Definition py_getitem (k : string) (v : pyval) : R pyval :=
  match v with
  | PDict d =>
      match dict_get k d with
      | Some x => ret x
      | None => raise (KeyError k)
      end
  | _ => raise TypeError
  end.

(** [for x in v] *)
Definition py_iter (v : pyval) : R (list pyval) :=
  match v with
  | PList l => ret l
  | PStr s => ret (chars s)
  | PDict d => ret (map (fun kv => PStr kv.1) d)
  | _ => raise TypeError
  end.

Definition list_servers (limit : option Z) (cursor : option string)
  : R (pyval * pyval) :=
  data <- call (GetServers limit cursor) (http_servers limit cursor) ;;
  servers <- py_get "servers" (PList []) data ;;
  metadata <- py_get "metadata" (PDict []) data ;;
  next_cursor <- py_get "next_cursor" PNone metadata ;;
  ret (servers, next_cursor).

(** [v.lower()] of a value taken from a server entry. *)
Definition py_lower (v : pyval) : R string :=
  match v with
  | PStr s => ret (lower s)
  | _ => raise AttributeError
  end.

(** The condition of the comprehension of [search_servers]. *)
Definition query_matches (query : string) (server : pyval) : R bool :=
  n <- py_get "name" (PStr "") server ;;
  name <- py_lower n ;;
  if str_in (lower query) name then ret true
  else
    d <- py_get "description" (PStr "") server ;;
    descr <- py_lower d ;;
    ret (str_in (lower query) descr).

Fixpoint keep_matching (query : string) (l : list pyval) : R (list pyval) :=
  match l with
  | [] => ret []
  | server :: l' =>
      b <- query_matches query server ;;
      rest <- keep_matching query l' ;;
      ret (if b then server :: rest else rest)
  end.

Definition search_servers (query : string) : R (list pyval) :=
  page <- list_servers (Some 100%Z) None ;;
  let '(servers, _) := page in
  l <- py_iter servers ;;
  keep_matching query l.

Definition get_server_info (server_id : pyval) : R pyval :=
  server_info <- call (GetServer server_id) (http_server server_id) ;;
  if truthy server_info then ret server_info
  else raise (ValueError "not found in registry").

(** [server.get("name") == name] *)
Definition name_is (name : string) (server : pyval) : R bool :=
  n <- py_get "name" PNone server ;;
  ret (eq_str n name).

(** [self.get_server_info(server["id"])] *)
Definition details_of (server : pyval) : R pyval :=
  i <- py_getitem "id" server ;;
  get_server_info i.

Fixpoint first_named (name : string) (l : list pyval) : R (option pyval) :=
  match l with
  | [] => ret None
  | server :: l' =>
      b <- name_is name server ;;
      if b then
        info <- details_of server ;;
        ret (Some info)
      else first_named name l'
  end.

Definition get_server_by_name (name : string) : R (option pyval) :=
  page <- list_servers (Some 100%Z) None ;;
  let '(servers, _) := page in
  l <- py_iter servers ;;
  first_named name l.

(** The test of strategy 1: 36 characters, four hyphens. *)
Definition looks_like_id (reference : string) : bool :=
  (String.length reference =? 36) && (count "-" reference =? 4).

(** The loop of strategy 2: a server whose details cannot be fetched is
    skipped. *)
Fixpoint scan_by_name (reference : string) (l : list pyval)
  : R (option pyval) :=
  match l with
  | [] => ret None
  | server :: l' =>
      b <- name_is reference server ;;
      if b then
        r <- try_except
               (info <- details_of server ;;
                ret (Some info))
               (fun _ => ret None) ;;
        match r with
        | Some info => ret (Some info)
        | None => scan_by_name reference l'
        end
      else scan_by_name reference l'
  end.

(** Strategy 1: [Some] is a [return] out of the function. *)
Definition try_as_id (reference : string) : R (option pyval) :=
  try_except
    (if looks_like_id reference then
       info <- get_server_info (PStr reference) ;;
       ret (Some info)
     else ret None)
    (fun _ => ret None).

(** Strategy 2. *)
Definition exact_name_match (reference : string) : R (option pyval) :=
  page <- list_servers (Some 100%Z) None ;;
  let '(servers, _) := page in
  l <- py_iter servers ;;
  scan_by_name reference l.

Definition find_server_by_reference (reference : string)
  : R (option pyval) :=
  r <- try_as_id reference ;;
  match r with
  | Some info => ret (Some info)
  | None => exact_name_match reference
  end.

End Client.

End Registry.

(* ===================================================================== *)
(** * cli.py: install, run and the parameter loop of run and preview *)
(* ===================================================================== *)

Module Cli.
Import Py Eff.
Local Open Scope eff_scope.

(** [awd.yml] in the working directory: absent, not loadable, or loaded. *)
Inductive manifest_file :=
  | NoFile
  | Unparsable (e : exn)
  | Loaded (config : pyval).

(** Whether [_get_console()] gives a Rich console, and whether building
    and printing a Rich table then works. *)
Inductive rich_mode :=
  | NoRich
  | Rich (tables_ok : bool).

(** The pieces of an f-string. *)
Inductive fragment :=
  | Lit (s : string)
  | Val (v : pyval)
  | Err (e : exn)
  | Num (n : nat)
  | Joined (sep : string) (l : list string)
  | Params (d : dict string).

Inductive style := Info | Success | Warning | Error | Muted.

(** What a command does that can be seen from outside. *)
Inductive event :=
  | Echo (st : style) (symbol : option string) (msg : list fragment)
  | Table (rows : list (list fragment))
  | Line (msg : list fragment)
  | Blank
  | CreatePackageManager (reply : answer unit)
  | InstallPackage (client : string) (dep : pyval) (reply : answer pyval)
  | RunScript (script_name : string) (params : dict string)
              (reply : answer bool).

Section Commands.
Variable W : Type.
Variable awd_yml : manifest_file.
Variable rich : rich_mode.
(** Whether [factory] and [core.operations] can be imported, and what they
    do. *)
Variable mcp_importable : bool.
Variable create_package_manager : W -> answer unit * W.
Variable install_package : string -> pyval -> W -> answer pyval * W.
(** Whether [core.script_runner] can be imported, and what
    [ScriptRunner().run_script] does. *)
Variable runner_importable : bool.
Variable run_script : string -> dict string -> W -> answer bool * W.

Definition C := M W event.

Definition rich_echo (st : style) (symbol : option string)
  (msg : list fragment) : C unit := tell (Echo st symbol msg).
Definition rich_success (msg : list fragment) (symbol : string) : C unit :=
  rich_echo Success (Some symbol) msg.
Definition rich_error (msg : list fragment) : C unit :=
  rich_echo Error (Some "error") msg.
Definition rich_info (msg : list fragment) (symbol : string) : C unit :=
  rich_echo Info (Some symbol) msg.
Definition rich_warning (msg : list fragment) : C unit :=
  rich_echo Warning (Some "warning") msg.
Definition rich_blank_line : C unit := tell Blank.

Definition manifest_exists : bool :=
  match awd_yml with
  | NoFile => false
  | _ => true
  end.

(** [open('awd.yml')] and [yaml.safe_load] *)
Definition load_yaml : C pyval :=
  match awd_yml with
  | NoFile => raise (OtherException "FileNotFoundError")
  | Unparsable e => raise e
  | Loaded config => ret config
  end.

(** [v.get(k, dflt)] *)
Definition py_get (k : string) (dflt v : pyval) : C pyval :=
  match v with
  | PDict d => ret (default dflt (dict_get k d))
  | _ => raise AttributeError
  end.

(** [len(v)] *)
Definition py_len (v : pyval) : C nat :=
  match v with
  | PList l => ret (length l)
  | PStr s => ret (String.length s)
  | PDict d => ret (length d)
  | _ => raise TypeError
  end.

(** [for x in v] *)
Definition py_iter (v : pyval) : C (list pyval) :=
  match v with
  | PList l => ret l
  | PStr s => ret (chars s)
  | PDict d => ret (map (fun kv => PStr kv.1) d)
  | _ => raise TypeError
  end.

(** [k in v] *)
Definition py_contains (k : string) (v : pyval) : C bool :=
  match v with
  | PDict d => ret (dict_mem k d)
  | PList l => ret (existsb (fun x => eq_str x k) l)
  | PStr s => ret (str_in k s)
  | _ => raise TypeError
  end.

(** [v[k]] *)
Definition py_getitem (k : string) (v : pyval) : C pyval :=
  match v with
  | PDict d =>
      match dict_get k d with
      | Some x => ret x
      | None => raise (KeyError k)
      end
  | _ => raise TypeError
  end.

(** [v.items()] *)
Definition py_items (v : pyval) : C (dict pyval) :=
  match v with
  | PDict d => ret d
  | _ => raise AttributeError
  end.

(** The strings [sep.join(v)] joins. *)
Fixpoint all_strings (l : list pyval) : option (list string) :=
  match l with
  | [] => Some []
  | PStr s :: l' =>
      match all_strings l' with
      | Some r => Some (s :: r)
      | None => None
      end
  | _ => None
  end.

(** ** install *)

Definition show_dependencies (deps : list pyval) : C unit :=
  match rich with
  | Rich true => tell (Table (map (fun dep => [Lit "gear"; Val dep]) deps))
  | _ => tell_all (map (fun dep => Line [Lit "  - "; Val dep]) deps)
  end.

(** [result and result.get('success')] as a condition *)
Definition reports_success (result : pyval) : C bool :=
  if truthy result then
    match result with
    | PDict d =>
        ret (match dict_get "success" d with
             | Some v => truthy v
             | None => false
             end)
    | _ => raise AttributeError
    end
  else ret false.

Definition install_one (dep : pyval) : C unit :=
  rich_info [Lit "Installing "; Val dep; Lit "..."] "building" ;;;
  try_except
    (result <- call (InstallPackage "vscode" dep)
                    (install_package "vscode" dep) ;;
     ok <- reports_success result ;;
     if ok then rich_success [Val dep; Lit " installed"] "check"
     else rich_warning [Val dep; Lit " installation may have issues"])
    (fun install_error =>
       rich_warning [Lit "Failed to install "; Val dep; Lit ": ";
                     Err install_error]).

Fixpoint install_each (deps : list pyval) : C unit :=
  match deps with
  | [] => ret tt
  | dep :: rest => install_one dep ;;; install_each rest
  end.

Definition install : C unit :=
  try_except
    (if negb manifest_exists then
       rich_error [Lit "No awd.yml found. Run 'awd init' first."] ;;;
       sys_exit 1
     else
       rich_info [Lit "Installing dependencies from awd.yml..."] "gear" ;;;
       config <- load_yaml ;;
       dependencies <- py_get "dependencies" (PDict []) config ;;
       mcp_deps <- py_get "mcp" (PList []) dependencies ;;
       if negb (truthy mcp_deps) then
         rich_warning [Lit "No MCP dependencies found in awd.yml"]
       else
         n <- py_len mcp_deps ;;
         rich_info [Lit "Found "; Num n; Lit " MCP dependencies:"] "info" ;;;
         deps <- py_iter mcp_deps ;;
         show_dependencies deps ;;;
         try_except_import
           ((if mcp_importable then ret tt else raise ImportError) ;;;
            call CreatePackageManager create_package_manager ;;;
            install_each deps)
           (rich_warning
              [Lit "MCP installation functionality not available yet"] ;;;
            match all_strings deps with
            | Some names =>
                rich_info [Lit "Dependencies listed in awd.yml: ";
                           Joined ", " names] "info"
            | None => raise TypeError
            end) ;;;
         rich_blank_line ;;;
         rich_success [Lit "Dependencies installation complete!"] "sparkles")
    (fun e =>
       rich_error [Lit "Error installing dependencies: "; Err e] ;;;
       sys_exit 1).

(** ** run *)

Definition load_awd_config : C pyval :=
  if manifest_exists then load_yaml else ret PNone.

Definition get_default_script : C (option string) :=
  config <- load_awd_config ;;
  if truthy config then
    has_scripts <- py_contains "scripts" config ;;
    if has_scripts then
      scripts <- py_getitem "scripts" config ;;
      has_start <- py_contains "start" scripts ;;
      ret (if has_start then Some "start" else None)
    else ret None
  else ret None.

Definition list_available_scripts : C pyval :=
  config <- load_awd_config ;;
  if truthy config then
    has_scripts <- py_contains "scripts" config ;;
    if has_scripts then py_getitem "scripts" config else ret (PDict [])
  else ret (PDict []).

Definition script_line (kv : string * pyval) : event :=
  Line [Lit "  - "; Lit kv.1; Lit ": "; Val kv.2].

Definition script_row (kv : string * pyval) : list fragment :=
  [Lit "  "; Lit kv.1; Val kv.2].

Definition echo_scripts (scripts : pyval) : C unit :=
  items <- py_items scripts ;;
  tell_all (map script_line items).

Definition show_scripts (scripts : pyval) : C unit :=
  match rich with
  | NoRich => echo_scripts scripts
  | Rich tables_ok =>
      try_except
        (items <- py_items scripts ;;
         if tables_ok then tell (Table (map script_row items))
         else raise (OtherException "rich"))
        (fun _ => echo_scripts scripts)
  end.

(** The parameter loop of [run] (lines 514-520) and of [preview]
    (lines 565-571), the same text in both. *)
Fixpoint parse_params (param : list string) (params : dict string)
  : C (dict string) :=
  match param with
  | [] => ret params
  | p :: rest =>
      if str_in "=" p then
        match split1 "=" p with
        | [param_name; value] =>
            rich_echo Muted None
              [Lit "  - "; Lit param_name; Lit ": "; Lit value] ;;;
            parse_params rest (dict_set param_name value params)
        | _ => raise (ValueError "unpack")
        end
      else parse_params rest params
  end.

(** [not script_name] *)
Definition no_name (script_name : option string) : bool :=
  match script_name with
  | None => true
  | Some s => String.eqb s EmptyString
  end.

Definition resolve_name (script_name : option string) : C string :=
  if no_name script_name then
    d <- get_default_script ;;
    match d with
    | Some name => ret name
    | None =>
        rich_error
          [Lit "No script specified and no 'start' script defined in awd.yml"] ;;;
        rich_info [Lit "Available scripts:"] "info" ;;;
        scripts <- list_available_scripts ;;
        show_scripts scripts ;;;
        sys_exit 1
    end
  else ret (default EmptyString script_name).

Definition run (script_name : option string) (param : list string) : C unit :=
  try_except
    (name <- resolve_name script_name ;;
     rich_info [Lit "Running script: "; Lit name] "running" ;;;
     params <- parse_params param [] ;;
     try_except
       ((if runner_importable then ret tt else raise ImportError) ;;;
        success <- call (RunScript name params) (run_script name params) ;;
        if negb success then
          rich_error [Lit "Script execution failed"] ;;;
          sys_exit 1
        else
          rich_blank_line ;;;
          rich_success [Lit "Script executed successfully!"] "sparkles")
       (fun ee =>
          match ee with
          | ImportError =>
              rich_warning [Lit "Script runner not available yet"] ;;;
              rich_info [Lit "Import error: "; Err ee] "info" ;;;
              rich_info [Lit "Would run script: "; Lit name;
                         Lit " with params "; Params params] "info"
          | _ =>
              rich_error [Lit "Script execution error: "; Err ee] ;;;
              sys_exit 1
          end))
    (fun e =>
       rich_error [Lit "Error running script: "; Err e] ;;;
       sys_exit 1).

End Commands.

End Cli.

(* ===================================================================== *)
(** * Notions the statements use, and concrete machines and registries *)
(* ===================================================================== *)

Module Spec.
Import Py Eff.

(** ** Runtime manager *)

(** The path of a runtime's binary in the managed directory. *)
Definition managed_path (h : Runtime.host) (info : Runtime.runtime_info)
  : string :=
  Runtime.path_join (Runtime.runtime_dir h) (Runtime.binary info).

(** [is_runtime_available] as a plain answer. *)
Definition available (h : Runtime.host) (name : string) : bool :=
  match Runtime.value (Runtime.is_runtime_available h name) with
  | Ret b => b
  | _ => false
  end.

(** The record [list_runtimes] gives for a name, if any. *)
Definition listed (h : Runtime.host) (name : string)
  : option Runtime.runtime_status :=
  match Runtime.value (Runtime.list_runtimes h) with
  | Ret l => dict_get name l
  | _ => None
  end.

(** The record invariant as the design document words it: an installed
    runtime's path is an existing executable file under the managed
    directory, and a runtime that is not installed has no path. *)
Definition record_invariant_as_documented (h : Runtime.host) : Prop :=
  forall name st info,
    listed h name = Some st ->
    dict_get name Runtime.supported_runtimes = Some info ->
    (Runtime.installed st = true ->
       Runtime.path st = Some (managed_path h info) /\
       Runtime.fs h (managed_path h info) = Runtime.RegularFile true) /\
    (Runtime.installed st = false -> Runtime.path st = None).

(** Installed according to [list_runtimes] implies available. *)
Definition installed_implies_available (h : Runtime.host) : Prop :=
  forall name st,
    listed h name = Some st ->
    Runtime.installed st = true ->
    available h name = true.

(** ** Registry client *)

(** [x] occurs in [s]. *)
Definition substring (x s : string) : Prop :=
  exists pre post, s = pre +:+ x +:+ post.

(** [q] occurs in [s] when case is ignored. *)
Definition contains_ci (q s : string) : Prop :=
  substring (lower q) (lower s).

(** What [for server in servers] goes through, when the value can be
    iterated over: the elements of a list, the characters of a text, the
    keys of an object. *)
Definition items (servers : pyval) : option (list pyval) :=
  match servers with
  | PList l => Some l
  | PStr s => Some (chars s)
  | PDict d => Some (map (fun kv => PStr kv.1) d)
  | _ => None
  end.

(** The entries of the body of a listing, as the loops of the client meet
    them, or the exception that reading the body raises: the body has to
    be an object, [metadata] an object when it is there, and [servers],
    the empty list when it is not there, something to iterate over. *)
Definition entries (data : pyval) : answer (list pyval) :=
  match data with
  | PDict d =>
      match default (PDict []) (dict_get "metadata" d) with
      | PDict _ =>
          match items (default (PList []) (dict_get "servers" d)) with
          | Some l => Ok l
          | None => Failed TypeError
          end
      | _ => Failed AttributeError
      end
  | _ => Failed AttributeError
  end.

(** An entry that is a JSON object. *)
Definition is_object (srv : pyval) : bool :=
  match srv with
  | PDict _ => true
  | _ => false
  end.

(** The value under a key of an entry that is an object and has the
    key. *)
Definition field (key : string) (srv : pyval) : option pyval :=
  match srv with
  | PDict d => dict_get key d
  | _ => None
  end.

(** The text of a field of a server entry: the empty string when the entry
    is an object without the key, nothing when the value is not a string
    or the entry is not an object. *)
Definition field_text (key : string) (srv : pyval) : option string :=
  match srv with
  | PDict d =>
      match dict_get key d with
      | None => Some EmptyString
      | Some (PStr s) => Some s
      | Some _ => None
      end
  | _ => None
  end.

(** An entry that is an object whose name and description, when present,
    are strings. *)
Definition well_formed (srv : pyval) : Prop :=
  is_Some (field_text "name" srv) /\ is_Some (field_text "description" srv).

Definition name_of (srv : pyval) : string :=
  default EmptyString (field_text "name" srv).
Definition description_of (srv : pyval) : string :=
  default EmptyString (field_text "description" srv).

(** The filter of [search_servers] on well-formed entries. *)
Definition matches (query : string) (srv : pyval) : bool :=
  str_in (lower query) (lower (name_of srv))
  || str_in (lower query) (lower (description_of srv)).


(** What a detail lookup is worth to the caller: a non-empty record, or
    nothing (the request failed or the record was empty). *)
Definition usable (a : answer pyval) : option pyval :=
  match a with
  | Ok v => if truthy v then Some v else None
  | Failed _ => None
  end.

(** The detail lookups of a log, in order. *)
Definition lookups (l : list Registry.exchange)
  : list (pyval * answer pyval) :=
  omap (fun e => match e with
                 | Registry.GetServer i a => Some (i, a)
                 | _ => None
                 end) l.

(** An entry named [reference]: an object whose [name] is that text. *)
Definition is_named (reference : string) (srv : pyval) : bool :=
  match field "name" srv with
  | Some (PStr t) => String.eqb t reference
  | _ => false
  end.

(** The entries before the first one that is not an object. *)
Fixpoint leading_objects (l : list pyval) : list pyval :=
  match l with
  | [] => []
  | srv :: l' => if is_object srv then srv :: leading_objects l' else []
  end.

(** The identifiers of the entries named [reference], in listing order. *)
Definition named_ids (reference : string) (l : list pyval)
  : list pyval :=
  omap (fun srv => if is_named reference srv then field "id" srv else None) l.

(** An exchange that gave the caller nothing to return: a listing, or a
    detail lookup that failed or came back empty. *)
Definition fruitless (e : Registry.exchange) : Prop :=
  match e with
  | Registry.GetServer _ a => usable a = None
  | Registry.GetServers _ _ _ => True
  end.

Definition is_lookup (e : Registry.exchange) : Prop :=
  exists i a, e = Registry.GetServer i a.


(** A run with [evs] logged before it. *)
Definition after {W E A} (evs : list E) (r : outcome A * W * list E)
  : outcome A * W * list E :=
  (result r, world r, evs ++ log r).

Section Replay.
Variable W : Type.
Variable http_servers : option Z -> option string -> W -> answer pyval * W.
Variable http_server : pyval -> W -> answer pyval * W.

(** A log is what the registry said: sent one after the other from [w],
    the requests of the log get the replies of the log and leave [w']. *)
Fixpoint replays (w : W) (l : list Registry.exchange) (w' : W) : Prop :=
  match l with
  | [] => w' = w
  | Registry.GetServers limit cursor a :: l' =>
      (http_servers limit cursor w).1 = a /\
      replays (http_servers limit cursor w).2 l' w'
  | Registry.GetServer i a :: l' =>
      (http_server i w).1 = a /\ replays (http_server i w).2 l' w'
  end.

(** The exact-name scan as a function: the outcome, the world it leaves
    and the lookups it makes. *)
Fixpoint scan_model (reference : string) (l : list pyval) (w : W)
  : outcome (option pyval) * W * list Registry.exchange :=
  match l with
  | [] => (Ret None, w, [])
  | srv :: l' =>
      if is_object srv then
        if is_named reference srv then
          match field "id" srv with
          | None => scan_model reference l' w
          | Some i =>
              match usable (http_server i w).1 with
              | Some v =>
                  (Ret (Some v), (http_server i w).2,
                   [Registry.GetServer i (http_server i w).1])
              | None =>
                  after [Registry.GetServer i (http_server i w).1]
                    (scan_model reference l' (http_server i w).2)
              end
          end
        else scan_model reference l' w
      else (Raise AttributeError, w, [])
  end.

End Replay.

(** The last clause of the description of [search_servers] as the design
    document words it: the empty query returns the whole of the page that
    the listing call returned. *)
Definition empty_query_returns_listing (W : Type)
  (http_servers : option Z -> option string -> W -> answer pyval * W)
  (w : W) : Prop :=
  forall servers cursor page,
    result (Registry.list_servers W http_servers (Some 100%Z) None w)
      = Ret (servers, cursor) ->
    items servers = Some page ->
    result (Registry.search_servers W http_servers "" w) = Ret page.

(** What escapes from [find_server_by_reference] as the design document
    words it: an exception that reaches the caller is the listing call's
    own. *)
Definition only_listing_failure_escapes (W : Type)
  (http_servers : option Z -> option string -> W -> answer pyval * W)
  (http_server : pyval -> W -> answer pyval * W)
  (reference : string) (w : W) : Prop :=
  let w0 := if Registry.looks_like_id reference
            then (http_server (PStr reference) w).2 else w in
  forall e,
    result (Registry.find_server_by_reference W http_servers http_server
              reference w) = Raise e ->
    result (Registry.list_servers W http_servers (Some 100%Z) None w0)
      = Raise e.

(** ** Command line *)

(** [p] is [name], an equals sign, and [value], the sign being the first
    one of [p]. *)
Definition splits_at (p name value : string) : Prop :=
  p = name +:+ String "="%char value /\ count "=" name = 0.

(** The name and value a token stands for, if it has an equals sign. *)
Definition token_pair (p : string) : option (string * string) :=
  if str_in "=" p then
    match split1 "=" p with
    | [name; value] => Some (name, value)
    | _ => None
    end
  else None.

(** The map the parameter loop builds, as a fold over the tokens. *)
Definition collect (param : list string) (params : dict string)
  : dict string :=
  fold_left (fun acc p => match token_pair p with
                          | Some (name, value) => dict_set name value acc
                          | None => acc
                          end) param params.

(** The line [run] and [preview] print for a parameter. *)
Definition param_echo (nv : string * string) : Cli.event :=
  Cli.Echo Cli.Muted None
    [Cli.Lit "  - "; Cli.Lit nv.1; Cli.Lit ": "; Cli.Lit nv.2].




(** A script runner call in a log. *)
Definition is_run_script (e : Cli.event) : bool :=
  match e with
  | Cli.RunScript _ _ _ => true
  | _ => false
  end.



(** The manifest declares the non-empty batch [deps] under
    [dependencies.mcp]. *)
Definition declares (m : Cli.manifest_file) (deps : list pyval) : Prop :=
  exists config dd,
    m = Cli.Loaded (PDict config) /\
    dict_get "dependencies" config = Some (PDict dd) /\
    dict_get "mcp" dd = Some (PList deps) /\
    deps <> [].

(** An installation that reported success. *)
Definition succeeded (a : answer pyval) : bool :=
  match a with
  | Ok (PDict d) =>
      match dict_get "success" d with
      | Some v => truthy v
      | None => false
      end
  | _ => false
  end.

Definition failed_line (dep : pyval) (e : exn) : Cli.event :=
  Cli.Echo Cli.Warning (Some "warning")
    [Cli.Lit "Failed to install "; Cli.Val dep; Cli.Lit ": "; Cli.Err e].

Definition issues_line (dep : pyval) : Cli.event :=
  Cli.Echo Cli.Warning (Some "warning")
    [Cli.Val dep; Cli.Lit " installation may have issues"].

Definition installed_line (dep : pyval) : Cli.event :=
  Cli.Echo Cli.Success (Some "check") [Cli.Val dep; Cli.Lit " installed"].

(** The line of the report for one dependency, given what the installer
    answered. *)
Definition report (dep : pyval) (a : answer pyval) : Cli.event :=
  match a with
  | Failed e => failed_line dep e
  | Ok (PDict d) => if succeeded a then installed_line dep else issues_line dep
  | Ok r => if truthy r then failed_line dep AttributeError
            else issues_line dep
  end.

(** What [install] logs for one dependency. *)
Definition attempt (dep : pyval) (a : answer pyval) : list Cli.event :=
  [Cli.Echo Cli.Info (Some "building")
     [Cli.Lit "Installing "; Cli.Val dep; Cli.Lit "..."];
   Cli.InstallPackage "vscode" dep a;
   report dep a].

(** The installer calls of a log, in order. *)
Definition installs (l : list Cli.event) : list (pyval * answer pyval) :=
  omap (fun e => match e with
                 | Cli.InstallPackage _ dep a => Some (dep, a)
                 | _ => None
                 end) l.

(** The dependencies a log reports as installed, and as not installed. *)
Definition reported_installed (l : list Cli.event) : list pyval :=
  omap (fun e => match e with
                 | Cli.Echo Cli.Success (Some "check") [Cli.Val dep; _] =>
                     Some dep
                 | _ => None
                 end) l.
Definition reported_failed (l : list Cli.event) : list pyval :=
  omap (fun e => match e with
                 | Cli.Echo Cli.Warning _ [Cli.Lit "Failed to install ";
                                           Cli.Val dep; _; _] => Some dep
                 | _ => None
                 end) l.

Definition install_header (rich : Cli.rich_mode) (deps : list pyval)
  : list Cli.event :=
  [Cli.Echo Cli.Info (Some "gear")
     [Cli.Lit "Installing dependencies from awd.yml..."];
   Cli.Echo Cli.Info (Some "info")
     [Cli.Lit "Found "; Cli.Num (length deps); Cli.Lit " MCP dependencies:"]]
  ++ match rich with
     | Cli.Rich true =>
         [Cli.Table ((fun dep => [Cli.Lit "gear"; Cli.Val dep]) <$> deps)]
     | _ => (fun dep => Cli.Line [Cli.Lit "  - "; Cli.Val dep]) <$> deps
     end.

Definition install_footer : list Cli.event :=
  [Cli.Blank;
   Cli.Echo Cli.Success (Some "sparkles")
     [Cli.Lit "Dependencies installation complete!"]].

Section Installer.
Variable W : Type.
Variable install_package : string -> pyval -> W -> answer pyval * W.

(** The installer's answers to a batch, each call starting from the
    world the one before left. *)
Fixpoint replies (deps : list pyval) (w : W) : list (answer pyval) * W :=
  match deps with
  | [] => ([], w)
  | dep :: rest =>
      match install_package "vscode" dep w with
      | (a, w1) =>
          match replies rest w1 with
          | (l, w2) => (a :: l, w2)
          end
      end
  end.

End Installer.

(** The exit status as the design document words it: nonzero whenever an
    installation of the batch failed. *)
Definition exit_reflects_failures {W}
  (r : outcome unit * W * list Cli.event) : Prop :=
  (exists dep e, Cli.InstallPackage "vscode" dep (Failed e) ∈ log r) ->
  exit_status (result r) <> 0%Z.

End Spec.

Module Examples.
Import Py Eff.

(** A machine whose managed directory holds a directory named [codex]
    and nothing else, with no runtime on the search path. *)
Definition codex_is_a_directory : Runtime.host :=
  {| Runtime.home := "/home/u";
     Runtime.fs := fun p =>
       if String.eqb p "/home/u/.awd/runtimes/codex" then Runtime.Directory
       else Runtime.Absent;
     Runtime.which := fun _ => None;
     Runtime.run_version := fun _ => Runtime.ProcRaised |}.

(** A machine with an empty managed directory and the given names on the
    search path. *)
Definition only_on_path (names : list string) : Runtime.host :=
  {| Runtime.home := "/home/u";
     Runtime.fs := fun _ => Runtime.Absent;
     Runtime.which := fun n =>
       if existsb (String.eqb n) names then Some ("/usr/bin/" +:+ n)
       else None;
     Runtime.run_version := fun _ => Runtime.ProcRaised |}.

(** A machine with both runtimes installed in the managed directory. *)
Definition both_managed : Runtime.host :=
  {| Runtime.home := "/home/u";
     Runtime.fs := fun p =>
       if String.eqb p "/home/u/.awd/runtimes/codex"
          || String.eqb p "/home/u/.awd/runtimes/llm"
       then Runtime.RegularFile true else Runtime.Absent;
     Runtime.which := fun _ => None;
     Runtime.run_version := fun _ => Runtime.Completed 0 "1.0
" |}.

(** A registry that never changes: a listing of two servers, and details
    for the first only. *)
Definition alpha : pyval :=
  PDict [("id", PStr "1"); ("name", PStr "Alpha");
         ("description", PStr "First")].
Definition beta : pyval :=
  PDict [("id", PStr "2"); ("name", PStr "beta");
         ("description", PStr "Second ALPHA")].

Definition page : pyval :=
  PDict [("servers", PList [alpha; beta]);
         ("metadata", PDict [("next_cursor", PStr "c2")])].

Definition static_servers (limit : option Z) (cursor : option string)
  (w : unit) : answer pyval * unit :=
  (Ok page, w).

Definition static_server (i : pyval) (w : unit) : answer pyval * unit :=
  (match i with
   | PStr "1" => Ok alpha
   | _ => Failed RequestException
   end, w).

(** A registry whose listing cannot be fetched. *)
Definition broken_servers (limit : option Z) (cursor : option string)
  (w : unit) : answer pyval * unit :=
  (Failed RequestException, w).

(** A registry whose listing has nothing under [servers], and one whose
    listing holds an entry that is not an object. *)
Definition null_servers (limit : option Z) (cursor : option string)
  (w : unit) : answer pyval * unit :=
  (Ok (PDict [("servers", PNone)]), w).

Definition odd_servers (limit : option Z) (cursor : option string)
  (w : unit) : answer pyval * unit :=
  (Ok (PDict [("servers", PList [alpha; PStr "beta"])]), w).

(** A listing with an entry whose name is null. *)
Definition nameless : pyval :=
  PDict [("id", PStr "3"); ("name", PNone); ("description", PStr "broken")].

Definition bad_page : pyval :=
  PDict [("servers", PList [alpha; nameless])].

Definition bad_servers (limit : option Z) (cursor : option string)
  (w : unit) : answer pyval * unit :=
  (Ok bad_page, w).

(** A reference that has the shape of an identifier. *)
Definition id_like : string := "123e4567-e89b-12d3-a456-426614174000".

(** A project whose manifest declares three dependencies, and an
    installer that fails on the second. *)
Definition abc_manifest : Cli.manifest_file :=
  Cli.Loaded
    (PDict [("name", PStr "demo");
            ("dependencies",
             PDict [("mcp", PList [PStr "a"; PStr "b"; PStr "c"])])]).

Definition create_ok (w : unit) : answer unit * unit := (Ok tt, w).

Definition b_fails (client : string) (dep : pyval) (w : unit)
  : answer pyval * unit :=
  (if eq_str dep "b" then Failed (OtherException "boom")
   else Ok (PDict [("success", PBool true)]), w).

Definition abc_install : outcome unit * unit * list Cli.event :=
  Cli.install unit abc_manifest Cli.NoRich true create_ok b_fails tt.








End Examples.

(* ===================================================================== *)
(** * Further notions for the registry client *)
(* ===================================================================== *)

Module RegistrySpec.
Import Py Eff.

(** An entry on which the filter of [search_servers] raises: it is not an
    object, or its name is present and not a string, or its name does not
    hold the query and its description is present and not a string. *)
Definition raises_on (query : string) (srv : pyval) : Prop :=
  match Spec.field_text "name" srv with
  | None => True
  | Some n =>
      str_in (lower query) (lower n) = false /\
      Spec.field_text "description" srv = None
  end.

(** The same as a test. *)
Definition raises_on_b (query : string) (srv : pyval) : bool :=
  match Spec.field_text "name" srv with
  | None => true
  | Some n =>
      negb (str_in (lower query) (lower n)) &&
      match Spec.field_text "description" srv with
      | None => true
      | Some _ => false
      end
  end.

(** An entry that is an object and does not bear the name. *)
Definition other_name (name : string) (srv : pyval) : Prop :=
  Spec.is_object srv = true /\ Spec.is_named name srv = false.

End RegistrySpec.

Module RegistryExamples.
Import Py Eff.

(** A registry of two pages: the second is reached with the cursor of the
    first, and holds the only entry named [gamma]. *)
Definition gamma : pyval :=
  PDict [("id", PStr "9"); ("name", PStr "gamma")].

Definition paged_servers (limit : option Z) (cursor : option string)
  (w : unit) : answer pyval * unit :=
  (match cursor with
   | None => Ok Examples.page
   | Some _ => Ok (PDict [("servers", PList [gamma])])
   end, w).

End RegistryExamples.

(* ===================================================================== *)
(** * runtime/manager.py: setting up and removing runtimes *)
(* ===================================================================== *)

Module RuntimeOps.
Import Py Eff Runtime.
Local Open Scope eff_scope.

(** The colour of a [click.echo] line. *)
Inductive colour := Red | Blue | Yellow | Green.

(** What the manager does that can be seen from outside: what it asks of
    the machine, what it changes there, and what it prints. *)
Inductive event :=
  | Asked (p : probe)
  | IsDir (path : string)
  | Unlink (path : string) (reply : answer unit)
  | Rmtree (path : string) (reply : answer unit)
  | ReadText (path : string) (reply : answer string)
  | MkTemp (reply : answer string)
  | WriteText (path content : string) (reply : answer unit)
  | Chmod (path : string) (mode : Z) (reply : answer unit)
  | RunBash (cmd : list string) (cwd : string) (reply : answer Z)
  | Cleanup (dir : string) (reply : answer unit)
  | Echo (err : bool) (c : colour) (symbol : string)
         (msg : list Cli.fragment).

(** The manager works on the machine itself. *)
Definition T := M host event.

(** A question of the read-only part of the manager, put to the machine as
    it is now. *)
Definition ask {A} (q : host -> Q A) : T A :=
  fun h => (result (q h tt), h, map Asked (log (q h tt))).

(** [p.is_dir()] *)
Definition path_is_dir (p : string) : T bool :=
  fun h => (Ret (match fs h p with Directory => true | _ => false end),
            h, [IsDir p]).

(** [base / "scripts" / "runtime" / script_name] *)
Definition scripts_path (base script_name : string) : string :=
  path_join (path_join (path_join base "scripts") "runtime") script_name.

Section Manager.
(** [self.runtime_dir], set when the manager is made. *)
Variable runtime_dir : string.
(** [Path.unlink] and [shutil.rmtree]. *)
Variable unlink : string -> host -> answer unit * host.
Variable rmtree : string -> host -> answer unit * host.
(** [sys.frozen] as a condition, [sys._MEIPASS] when the attribute is
    there, and the fourth parent of the module's file. *)
Variable frozen : bool.
Variable meipass : option string.
Variable repo_root : string.
(** [Path.read_text], [tempfile.TemporaryDirectory] on entry and on exit,
    [Path.write_text], [Path.chmod], and [subprocess.run] of the command in
    the directory, which answers the return code. *)
Variable read_text : string -> host -> answer string * host.
Variable mkdtemp : host -> answer string * host.
Variable cleanup : string -> host -> answer unit * host.
Variable write_text : string -> string -> host -> answer unit * host.
Variable chmod : string -> Z -> host -> answer unit * host.
Variable run_bash : list string -> string -> host -> answer Z * host.

(** The bundled copy of a script: [Some] is a [return] out of
    [get_embedded_script]. *)
Definition bundled_script (script_name : string) : T (option string) :=
  if frozen then
    match meipass with
    | None => raise AttributeError
    | Some bundle_dir =>
        let script_path := scripts_path bundle_dir script_name in
        e <- ask (fun h => path_exists h script_path) ;;
        if e then
          t <- call (ReadText script_path) (read_text script_path) ;;
          ret (Some t)
        else ret None
    end
  else ret None.

Definition get_embedded_script (script_name : string) : T string :=
  try_except
    (r <- bundled_script script_name ;;
     match r with
     | Some t => ret t
     | None =>
         let script_path := scripts_path repo_root script_name in
         e <- ask (fun h => path_exists h script_path) ;;
         if e then call (ReadText script_path) (read_text script_path)
         else raise (OtherException "FileNotFoundError")
     end)
    (fun e =>
       tell (Echo true Red "cross"
               [Cli.Lit "Failed to load embedded script ";
                Cli.Lit script_name; Cli.Lit ": "; Cli.Err e]) ;;;
       raise (OtherException "RuntimeError")).

Definition get_common_script : T string :=
  get_embedded_script "setup-common.sh".

(** [with tempfile.TemporaryDirectory() as temp_dir: body]: the directory
    is cleaned up however the body ends, and a failure of the clean-up
    takes the place of the body's outcome. *)
Definition with_tempdir {A} (body : string -> T A) : T A :=
  temp_dir <- call MkTemp mkdtemp ;;
  fun h =>
    match body temp_dir h with
    | (o, h1, l1) =>
        match cleanup temp_dir h1 with
        | (Ok _, h2) => (o, h2, l1 ++ [Cleanup temp_dir (Ok tt)])
        | (Failed e, h2) =>
            (Raise e, h2, l1 ++ [Cleanup temp_dir (Failed e)])
        end
    end.

(** [script_args or []] is the list itself when one is given. *)
Definition run_embedded_script (script_content common_content : string)
  (script_args : option (list string)) : T bool :=
  let script_args := default [] script_args in
  with_tempdir (fun temp_dir =>
    let common_script := path_join temp_dir "setup-common.sh" in
    call (WriteText common_script common_content)
         (write_text common_script common_content) ;;;
    call (Chmod common_script 493) (chmod common_script 493) ;;;
    let main_script := path_join temp_dir "setup-script.sh" in
    call (WriteText main_script script_content)
         (write_text main_script script_content) ;;;
    call (Chmod main_script 493) (chmod main_script 493) ;;;
    try_except
      (let cmd := "bash" :: main_script :: script_args in
       rc <- call (RunBash cmd temp_dir) (run_bash cmd temp_dir) ;;
       ret (rc =? 0)%Z)
      (fun e =>
         tell (Echo true Red "cross"
                 [Cli.Lit "Failed to execute setup script: "; Cli.Err e]) ;;;
         ret false)).

(** The arguments [setup_runtime] hands to the script. *)
Definition setup_args (version : option string) (vanilla : bool)
  : list string :=
  match version with
  | Some v => if truthy (PStr v) then [v] else []
  | None => []
  end ++ (if vanilla then ["--vanilla"] else []).

Definition setup_runtime (runtime_name : string) (version : option string)
  (vanilla : bool) : T bool :=
  match dict_get runtime_name supported_runtimes with
  | None =>
      tell (Echo true Red "cross"
              [Cli.Lit "Unsupported runtime: "; Cli.Lit runtime_name]) ;;;
      tell (Echo false Blue "info"
              [Cli.Lit "Supported runtimes: ";
               Cli.Joined ", " (map fst supported_runtimes)]) ;;;
      ret false
  | Some runtime_info =>
      let script_name := script runtime_info in
      let description := description runtime_info in
      tell (Echo false Blue "wrench"
              [Cli.Lit "Setting up "; Cli.Lit runtime_name;
               Cli.Lit " runtime: "; Cli.Lit description]) ;;;
      tell (if vanilla
            then Echo false Yellow "warning"
                   [Cli.Lit "Installing in vanilla mode - no AWD configuration will be applied"]
            else Echo false Blue "info"
                   [Cli.Lit "Installing with AWD defaults (GitHub Models for free access)"]) ;;;
      try_except
        (script_content <- get_embedded_script script_name ;;
         common_content <- get_common_script ;;
         let script_args := setup_args version vanilla in
         success <- run_embedded_script script_content common_content
                      (Some script_args) ;;
         if success then
           tell (Echo false Green "check"
                   [Cli.Lit "Successfully set up "; Cli.Lit runtime_name;
                    Cli.Lit " runtime"]) ;;;
           ret true
         else
           tell (Echo true Red "cross"
                   [Cli.Lit "Failed to set up "; Cli.Lit runtime_name;
                    Cli.Lit " runtime"]) ;;;
           ret false)
        (fun e =>
           tell (Echo true Red "cross"
                   [Cli.Lit "Error setting up "; Cli.Lit runtime_name;
                    Cli.Lit ": "; Cli.Err e]) ;;;
           ret false)
  end.

(** The deletion of the binary: a file is unlinked, a directory removed
    with what it holds, anything else left alone. *)
Definition remove_binary (binary_path : string) : T unit :=
  f <- ask (fun h => path_is_file h binary_path) ;;
  if f then call (Unlink binary_path) (unlink binary_path)
  else
    d <- path_is_dir binary_path ;;
    if d then call (Rmtree binary_path) (rmtree binary_path)
    else ret tt.

(** The virtual environment that goes with [llm]. *)
Definition remove_venv (runtime_name : string) : T unit :=
  if String.eqb runtime_name "llm" then
    let venv_path := path_join runtime_dir "llm-venv" in
    v <- ask (fun h => path_exists h venv_path) ;;
    if v then call (Rmtree venv_path) (rmtree venv_path) else ret tt
  else ret tt.

Definition remove_runtime (runtime_name : string) : T bool :=
  match dict_get runtime_name supported_runtimes with
  | None =>
      tell (Echo true Red "cross"
              [Cli.Lit "Unknown runtime: "; Cli.Lit runtime_name]) ;;;
      ret false
  | Some info =>
      let binary_name := binary info in
      let binary_path := path_join runtime_dir binary_name in
      e <- ask (fun h => path_exists h binary_path) ;;
      if negb e then
        tell (Echo false Yellow "warning"
                [Cli.Lit "Runtime "; Cli.Lit runtime_name;
                 Cli.Lit " is not installed in AWD runtime directory"]) ;;;
        ret false
      else
        try_except
          (remove_binary binary_path ;;;
           remove_venv runtime_name ;;;
           tell (Echo false Green "check"
                   [Cli.Lit "Successfully removed "; Cli.Lit runtime_name;
                    Cli.Lit " runtime"]) ;;;
           ret true)
          (fun e =>
             tell (Echo true Red "cross"
                     [Cli.Lit "Failed to remove "; Cli.Lit runtime_name;
                      Cli.Lit ": "; Cli.Err e]) ;;;
             ret false)
  end.

End Manager.

End RuntimeOps.

(* ===================================================================== *)
(** * Further notions for the runtime manager *)
(* ===================================================================== *)

Module ManagerSpec.
Import Py Eff Runtime RuntimeOps.

(** [p.exists()] on a machine. *)
Definition present (h : host) (p : string) : bool :=
  match fs h p with
  | Absent => false
  | _ => true
  end.

(** The deletions of a log, in order: the path and how it went. *)
Fixpoint deletions (l : list event) : list (string * answer unit) :=
  match l with
  | [] => []
  | Unlink p a :: l' => (p, a) :: deletions l'
  | Rmtree p a :: l' => (p, a) :: deletions l'
  | _ :: l' => deletions l'
  end.

(** Deletion as the operating system does it: a deletion that succeeds
    leaves nothing at its path, removing a tree changes nothing outside the
    tree, and no deletion moves the home directory. *)
Record well_behaved
  (unlink rmtree : string -> host -> answer unit * host) : Prop := {
  unlink_removes : forall p h u h',
    unlink p h = (Ok u, h') -> fs h' p = Absent;
  rmtree_removes : forall p h u h',
    rmtree p h = (Ok u, h') -> fs h' p = Absent;
  rmtree_local : forall p h a h' q,
    rmtree p h = (a, h') -> String.prefix p q = false -> fs h' q = fs h q;
  unlink_home : forall p h a h', unlink p h = (a, h') -> home h' = home h;
  rmtree_home : forall p h a h', rmtree p h = (a, h') -> home h' = home h
}.

(** The file [get_embedded_script] settles on, if any: the bundled copy
    when the program is frozen and the copy is there, the copy of the
    repository otherwise. *)
Definition script_location (frozen : bool) (meipass : option string)
  (repo_root : string) (h : host) (script_name : string) : option string :=
  let repo := scripts_path repo_root script_name in
  let from_repo := if present h repo then Some repo else None in
  if frozen then
    match meipass with
    | None => None
    | Some bundle_dir =>
        if present h (scripts_path bundle_dir script_name)
        then Some (scripts_path bundle_dir script_name)
        else from_repo
    end
  else from_repo.

(** The files read, in order. *)
Fixpoint reads (l : list event) : list (string * answer string) :=
  match l with
  | [] => []
  | ReadText p a :: l' => (p, a) :: reads l'
  | _ :: l' => reads l'
  end.

(** The commands run, in order. *)
Fixpoint bash_runs (l : list event)
  : list (list string * string * answer Z) :=
  match l with
  | [] => []
  | RunBash cmd cwd a :: l' => (cmd, cwd, a) :: bash_runs l'
  | _ :: l' => bash_runs l'
  end.

(** The files written, in order. *)
Fixpoint writes (l : list event) : list (string * string * answer unit) :=
  match l with
  | [] => []
  | WriteText p c a :: l' => (p, c, a) :: writes l'
  | _ :: l' => writes l'
  end.

(** The temporary directories cleaned up, in order. *)
Fixpoint cleanups (l : list event) : list (string * answer unit) :=
  match l with
  | [] => []
  | Cleanup d a :: l' => (d, a) :: cleanups l'
  | _ :: l' => cleanups l'
  end.

(** What went wrong around the command, in order: the failures of making
    the directory, of writing the scripts, of making them executable and of
    cleaning up.  A failure of the command itself is not among them. *)
Fixpoint prep_failures (l : list event) : list exn :=
  match l with
  | [] => []
  | MkTemp (Failed e) :: l' => e :: prep_failures l'
  | WriteText _ _ (Failed e) :: l' => e :: prep_failures l'
  | Chmod _ _ (Failed e) :: l' => e :: prep_failures l'
  | Cleanup _ (Failed e) :: l' => e :: prep_failures l'
  | _ :: l' => prep_failures l'
  end.

(** An event that only prints. *)
Definition is_echo (e : event) : bool :=
  match e with
  | Echo _ _ _ _ => true
  | _ => false
  end.

(** An event that reads the machine or prints, and changes nothing. *)
Definition is_quiet (e : event) : bool :=
  match e with
  | Asked _ | IsDir _ | ReadText _ _ | Echo _ _ _ _ => true
  | _ => false
  end.

End ManagerSpec.

Module ManagerExamples.
Import Py Eff Runtime RuntimeOps.

(** The machine without the paths that [gone] picks. *)
Definition without (gone : string -> bool) (h : host) : host :=
  {| home := home h;
     fs := fun q => if gone q then Absent else fs h q;
     which := which h;
     run_version := run_version h |}.

(** [q] is [p] or lies under it. *)
Definition within (p q : string) : bool :=
  String.eqb p q || String.prefix (p +:+ "/") q.

(** Deletions that always work: of one path, and of a path with all that
    lies under it. *)
Definition plain_unlink (p : string) (h : host) : answer unit * host :=
  (Ok tt, without (String.eqb p) h).
Definition plain_rmtree (p : string) (h : host) : answer unit * host :=
  (Ok tt, without (within p) h).

(** A machine where the place of [codex] is taken by a special file, and
    [codex] is on the search path. *)
Definition codex_is_special : host :=
  {| home := "/home/u";
     fs := fun p =>
       if String.eqb p "/home/u/.awd/runtimes/codex" then OtherEntry
       else Absent;
     which := fun n =>
       if String.eqb n "codex" then Some "/usr/bin/codex" else None;
     run_version := fun _ => ProcRaised |}.

(** A development checkout with both setup scripts in place. *)
Definition checkout : host :=
  {| home := "/home/u";
     fs := fun p =>
       if String.eqb p "/repo/scripts/runtime/setup-codex.sh"
          || String.eqb p "/repo/scripts/runtime/setup-common.sh"
       then RegularFile false else Absent;
     which := fun _ => None;
     run_version := fun _ => ProcRaised |}.

Definition read_ok (p : string) (h : host) : answer string * host :=
  (Ok ("# " +:+ p), h).
Definition mkdtemp_ok (h : host) : answer string * host := (Ok "/tmp/t", h).
Definition cleanup_ok (d : string) (h : host) : answer unit * host :=
  (Ok tt, h).
Definition write_ok (p content : string) (h : host) : answer unit * host :=
  (Ok tt, h).
Definition chmod_ok (p : string) (mode : Z) (h : host)
  : answer unit * host := (Ok tt, h).
Definition bash_ok (cmd : list string) (cwd : string) (h : host)
  : answer Z * host := (Ok 0%Z, h).
Definition bash_fails (cmd : list string) (cwd : string) (h : host)
  : answer Z * host := (Ok 2%Z, h).

End ManagerExamples.

(* ===================================================================== *)
(** * cli.py: the runtime commands and the project configuration *)
(* ===================================================================== *)

Module CliMore.
Import Py Eff.
Local Open Scope eff_scope.

(** What a runtime command does that can be seen from outside: what the
    command prints itself, what the manager does, and what click does
    before the body of the command runs: a usage error, the question of a
    confirmation option with its answer, and the line [Aborted!]. *)
Inductive event :=
  | Shell (e : Cli.event)
  | Manager (e : RuntimeOps.event)
  | UsageError (argument : string) (given : option string)
  | Confirm (prompt : string) (reply : bool)
  | Aborted.

Definition K := M Runtime.host event.

Definition shell {A} (m : M Runtime.host Cli.event A) : K A :=
  fun h => (result (m h), world (m h), map Shell (log (m h))).

Definition manager {A} (m : RuntimeOps.T A) : K A :=
  fun h => (result (m h), world (m h), map Manager (log (m h))).

(** The values [click.Choice(['codex', 'llm'])] lets through. *)
Definition runtime_choices : list string := ["codex"; "llm"].

(** A required argument of type [click.Choice]: when it is missing or is
    not one of the choices, click prints a usage error for the argument and
    the process exits with status 2; the body of the command does not
    run. *)
Definition choice_argument (argument : string) (choices : list string)
  (value : option string) : K string :=
  match value with
  | None => tell (UsageError argument None) ;;; sys_exit 2
  | Some v =>
      if existsb (String.eqb v) choices then ret v
      else tell (UsageError argument (Some v)) ;;; sys_exit 2
  end.

Definition remove_prompt : string :=
  "Are you sure you want to remove this runtime?".

Section RuntimeCommands.
(** Whether [awd_cli.runtime.manager] can be imported, and what the manager
    works with. *)
Variable manager_importable : bool.
(** Whether the user, asked by click, says yes; no, an empty line and the
    end of the input are all [false]. *)
Variable user_confirms : string -> bool.
Variable unlink : string -> Runtime.host -> answer unit * Runtime.host.
Variable rmtree : string -> Runtime.host -> answer unit * Runtime.host.
Variable frozen : bool.
Variable meipass : option string.
Variable repo_root : string.
Variable read_text : string -> Runtime.host -> answer string * Runtime.host.
Variable mkdtemp : Runtime.host -> answer string * Runtime.host.
Variable cleanup : string -> Runtime.host -> answer unit * Runtime.host.
Variable write_text : string -> string -> Runtime.host
                      -> answer unit * Runtime.host.
Variable chmod : string -> Z -> Runtime.host -> answer unit * Runtime.host.
Variable run_bash : list string -> string -> Runtime.host
                    -> answer Z * Runtime.host.

(** [from awd_cli.runtime.manager import RuntimeManager] *)
Definition import_manager : K unit :=
  if manager_importable then ret tt else raise ImportError.

(** [click.confirmation_option(prompt=...)]: with [--yes] nothing is
    asked; otherwise the user is asked, and unless the answer is yes click
    prints [Aborted!] and the process exits with status 1. *)
Definition confirmation_option (prompt : string) (yes : bool) : K unit :=
  if yes then ret tt
  else
    tell (Confirm prompt (user_confirms prompt)) ;;;
    if user_confirms prompt then ret tt
    else tell Aborted ;;; sys_exit 1.

(** The body of [runtime setup]. *)
Definition setup_body (runtime_name : string) (version : option string)
  (vanilla : bool) : K unit :=
  try_except
    (shell (Cli.rich_info Runtime.host
              [Cli.Lit "Setting up "; Cli.Lit runtime_name;
               Cli.Lit " runtime..."] "gear") ;;;
     import_manager ;;;
     success <- manager
                  (RuntimeOps.setup_runtime frozen meipass repo_root
                     read_text mkdtemp cleanup write_text chmod run_bash
                     runtime_name version vanilla) ;;
     if negb success then sys_exit 1
     else
       shell (Cli.rich_success Runtime.host
                [Cli.Lit runtime_name; Cli.Lit " runtime setup complete!"]
                "sparkles"))
    (fun e =>
       shell (Cli.rich_error Runtime.host
                [Cli.Lit "Error setting up runtime: "; Cli.Err e]) ;;;
       sys_exit 1).

(** [runtime setup] as click runs it: the argument is checked against the
    choices, then the body runs. *)
Definition setup (runtime_name : option string) (version : option string)
  (vanilla : bool) : K unit :=
  name <- choice_argument "runtime_name" runtime_choices runtime_name ;;
  setup_body name version vanilla.

(** The body of [runtime remove]: the manager is made on the spot, so its
    directory is that of the home directory of the moment. *)
Definition remove_body (runtime_name : string) : K unit :=
  try_except
    (shell (Cli.rich_info Runtime.host
              [Cli.Lit "Removing "; Cli.Lit runtime_name;
               Cli.Lit " runtime..."] "gear") ;;;
     import_manager ;;;
     success <- (fun h =>
                   manager
                     (RuntimeOps.remove_runtime (Runtime.runtime_dir h)
                        unlink rmtree runtime_name) h) ;;
     if negb success then sys_exit 1
     else
       shell (Cli.rich_success Runtime.host
                [Cli.Lit runtime_name;
                 Cli.Lit " runtime removed successfully!"] "sparkles"))
    (fun e =>
       shell (Cli.rich_error Runtime.host
                [Cli.Lit "Error removing runtime: "; Cli.Err e]) ;;;
       sys_exit 1).

(** [runtime remove] as click runs it: the argument is checked against the
    choices, the confirmation is asked for unless [--yes] was given, then
    the body runs. *)
Definition remove (runtime_name : option string) (yes : bool) : K unit :=
  name <- choice_argument "runtime_name" runtime_choices runtime_name ;;
  confirmation_option remove_prompt yes ;;;
  remove_body name.

End RuntimeCommands.

Section ProjectConfig.
Variable W : Type.
Variable awd_yml : Cli.manifest_file.

Definition default_description (name : string) : string :=
  "A " +:+ name +:+ " AWD application".

(** [_get_default_config] *)
Definition get_default_config (project_name : string) : pyval :=
  PDict [("name", PStr project_name);
         ("version", PStr "1.0.0");
         ("description", PStr (default_description project_name));
         ("author", PStr "Your Name")].

(** [yaml.safe_load(f) or {}], and [{}] when anything goes wrong. *)
Definition existing_or_empty : Cli.C W pyval :=
  try_except
    (c <- Cli.load_yaml W awd_yml ;;
     ret (if truthy c then c else PDict []))
    (fun _ => ret (PDict [])).

(** [_merge_existing_config] *)
Definition merge_existing_config (default_name : string) : Cli.C W pyval :=
  existing_config <- existing_or_empty ;;
  name <- Cli.py_get W "name" (PStr default_name) existing_config ;;
  version <- Cli.py_get W "version" (PStr "1.0.0") existing_config ;;
  description <- Cli.py_get W "description"
                   (PStr (default_description default_name))
                   existing_config ;;
  author <- Cli.py_get W "author" (PStr "Your Name") existing_config ;;
  Cli.rich_info W
    [Cli.Lit "Preserving existing configuration where possible"] "info" ;;;
  ret (PDict [("name", name); ("version", version);
              ("description", description); ("author", author)]).

End ProjectConfig.

End CliMore.

(* ===================================================================== *)
(** * cli.py: init *)
(* ===================================================================== *)

Module CliInit.
Import Py Eff.
Local Open Scope eff_scope.

(** A line break and a double quote, for the texts that hold them. *)
Definition nl : string := String (ascii_of_nat 10) EmptyString.
Definition dquote : string := String (ascii_of_nat 34) EmptyString.

(** What [init] does that can be seen from outside. *)
Inductive event :=
  | Out (e : Cli.event)
  | Panel (title : string) (content : list (list Cli.fragment))
  | Mkdir (path : string) (reply : answer unit)
  | Chdir (path : string) (reply : answer unit)
  | CwdName (reply : answer string)
  | RichConfirm (text : string) (reply : answer bool)
  | ClickConfirm (text : string) (reply : answer bool)
  | ClickPrompt (text default : string) (reply : answer string)
  | LoadTemplate (template_name filename : string)
                 (variables : dict (list Cli.fragment))
                 (reply : answer string)
  | WriteFile (filename content : string) (reply : answer unit).

Section Init.
Variable W : Type.
Variable rich : Cli.rich_mode.
(** [Path(d).mkdir(exist_ok=True)], [os.chdir(d)], [Path.cwd().name]. *)
Variable mkdir : string -> W -> answer unit * W.
Variable chdir : string -> W -> answer unit * W.
Variable cwd_name : W -> answer string * W.
(** [Path(f).exists()] in the working directory, and its [awd.yml]. *)
Variable file_exists : string -> W -> bool.
Variable manifest : W -> Cli.manifest_file.
(** Whether [rich.prompt] can be imported; [Confirm.ask], [click.confirm]
    and [click.prompt]. *)
Variable rich_prompt_importable : bool.
Variable confirm_ask : string -> W -> answer bool * W.
Variable click_confirm : string -> W -> answer bool * W.
Variable click_prompt : string -> string -> W -> answer string * W.
(** [_load_template_file], with the values of the variables as the pieces
    [str] is applied to, and [open(f, 'w').write(content)]. *)
Variable load_template_file :
  string -> string -> dict (list Cli.fragment) -> W -> answer string * W.
Variable write_file : string -> string -> W -> answer unit * W.

Definition I := M W event.

Definition out {A} (m : M W Cli.event A) : I A :=
  fun w => (result (m w), world (m w), map Out (log (m w))).

(** A look at the world. *)
Definition look {A} (f : W -> A) : I A := fun w => (Ret (f w), w, []).

(** [if project_name == '.': project_name = None] *)
Definition normalise (project_name : option string) : option string :=
  match project_name with
  | Some d => if String.eqb d "." then None else Some d
  | None => None
  end.

(** The project directory is made and entered when a name is given. *)
Definition enter_project (project_name : option string) : I string :=
  match project_name with
  | Some d =>
      if truthy (PStr d) then
        call (Mkdir d) (mkdir d) ;;;
        call (Chdir d) (chdir d) ;;;
        out (Cli.rich_info W
               [Cli.Lit "Created project directory: "; Cli.Lit d]
               "folder") ;;;
        ret d
      else call CwdName cwd_name
  | None => call CwdName cwd_name
  end.

Definition project_files : list string :=
  ["awd.yml"; "hello-world.prompt.md"; "README.md"].

Definition existing_files (w : W) : list string :=
  List.filter (fun f => file_exists f w) project_files.

Definition overwrite_text : string :=
  "Continue and overwrite existing files?".

(** The question before overwriting: Rich's when it can be imported, with
    click's in its place when Rich's fails. *)
Definition ask_overwrite : I bool :=
  if rich_prompt_importable then
    try_except
      (call (RichConfirm overwrite_text) (confirm_ask overwrite_text))
      (fun _ => call (ClickConfirm overwrite_text)
                     (click_confirm overwrite_text))
  else call (ClickConfirm overwrite_text) (click_confirm overwrite_text).

(** The handling of an existing project: [false] is the [return] out of
    [init]. *)
Definition handle_existing (existing : list string) (force yes : bool)
  : I bool :=
  if truthy (PList (map PStr existing)) && negb force then
    out (Cli.rich_warning W [Cli.Lit "Existing AWD project detected:"]) ;;;
    out (tell_all
           (map (fun file =>
                   Cli.Echo Cli.Muted None [Cli.Lit "  - "; Cli.Lit file])
                existing)) ;;;
    out (Cli.rich_blank_line W) ;;;
    if negb yes then
      confirm <- ask_overwrite ;;
      if negb confirm then
        out (Cli.rich_info W [Cli.Lit "Initialization cancelled."] "info") ;;;
        ret false
      else ret true
    else
      out (Cli.rich_info W
             [Cli.Lit "--yes specified, continuing with overwrite..."]
             "info") ;;;
      ret true
  else ret true.

(** [click.prompt(text, default=d).strip()] *)
Definition prompt (text dflt : string) : I string :=
  answer <- call (ClickPrompt text dflt) (click_prompt text dflt) ;;
  ret (strip answer).

(** [_interactive_project_setup]: [console] is not a name of the module,
    so the first statement of the [try] block raises [NameError] and the
    handler, with click's prompts, does the work. *)
Definition interactive_project_setup (default_name : string) : I pyval :=
  out (Cli.rich_info W [Cli.Lit "Setting up your AWD project..."] "info") ;;;
  out (Cli.rich_info W [Cli.Lit "Press ^C at any time to quit."] "info") ;;;
  name <- prompt "Project name" default_name ;;
  version <- prompt "Version" "1.0.0" ;;
  description <- prompt "Description" (CliMore.default_description name) ;;
  author <- prompt "Author" "Your Name" ;;
  out (tell_all
         [Cli.Line [Cli.Lit nl; Cli.Lit "About to create:"];
          Cli.Line [Cli.Lit "  name: "; Cli.Lit name];
          Cli.Line [Cli.Lit "  version: "; Cli.Lit version];
          Cli.Line [Cli.Lit "  description: "; Cli.Lit description];
          Cli.Line [Cli.Lit "  author: "; Cli.Lit author]]) ;;;
  ok <- call (ClickConfirm (nl +:+ "Is this OK?"))
             (click_confirm (nl +:+ "Is this OK?")) ;;
  if negb ok then
    out (Cli.rich_info W [Cli.Lit "Aborted."] "info") ;;;
    sys_exit 0
  else
    ret (PDict [("name", PStr name); ("version", PStr version);
                ("description", PStr description);
                ("author", PStr author)]).

(** Where the configuration comes from. *)
Definition choose_config (final_project_name : string)
  (awd_yml_exists force yes : bool) : I pyval :=
  if negb yes && negb awd_yml_exists then
    interactive_project_setup final_project_name
  else if awd_yml_exists && negb force then
    fun w =>
      out (CliMore.merge_existing_config W (manifest w) final_project_name) w
  else ret (CliMore.get_default_config final_project_name).

(** [config.get(k, dflt)] as a value for a template, [dflt] being a text
    that is already made. *)
Definition template_value (k : string) (dflt : list Cli.fragment)
  (config : pyval) : I (list Cli.fragment) :=
  match config with
  | PDict d =>
      ret match dict_get k d with
          | Some v => [Cli.Val v]
          | None => dflt
          end
  | _ => raise AttributeError
  end.

Definition create_file (filename : string)
  (variables : dict (list Cli.fragment)) : I unit :=
  content <- call (LoadTemplate "hello-world" filename variables)
                  (load_template_file "hello-world" filename variables) ;;
  call (WriteFile filename content) (write_file filename content).

(** [_create_project_files] *)
Definition create_project_files (config : pyval) : I unit :=
  name <- out (Cli.py_getitem W "name" config) ;;
  version <- template_value "version" [Cli.Lit "1.0.0"] config ;;
  name' <- out (Cli.py_getitem W "name" config) ;;
  description <- template_value "description"
                   [Cli.Lit "A "; Cli.Val name'; Cli.Lit " AWD application"]
                   config ;;
  author <- template_value "author" [Cli.Lit "Your Name"] config ;;
  create_file "awd.yml"
    [("project_name", [Cli.Val name]); ("version", version);
     ("description", description); ("author", author)] ;;;
  name <- out (Cli.py_getitem W "name" config) ;;
  create_file "hello-world.prompt.md" [("project_name", [Cli.Val name])] ;;;
  name <- out (Cli.py_getitem W "name" config) ;;
  create_file "README.md" [("project_name", [Cli.Val name])].

(** The listing of the files made: a Rich table when one can be built and
    printed, the plain listing otherwise. *)
Definition show_created : I unit :=
  out (Cli.rich_info W [Cli.Lit "Created files:"] "info") ;;;
  match rich with
  | Cli.Rich true =>
      out (tell (Cli.Table
                   (map (fun f => [Cli.Lit "file"; Cli.Lit f])
                      project_files)))
  | _ =>
      out (tell (Cli.Line
                   [Cli.Joined nl
                      (map (fun f => "  - " +:+ f) project_files)]))
  end.

Definition next_steps : list (list Cli.fragment) :=
  [[Cli.Lit "1. "; Cli.Lit "gear"; Cli.Lit " awd install - Install dependencies"];
   [Cli.Lit "2. "; Cli.Lit "running";
    Cli.Lit " awd run start --param name="; Cli.Lit dquote;
    Cli.Lit "Your Name"; Cli.Lit dquote;
    Cli.Lit " - Run the start script"];
   [Cli.Lit "3. "; Cli.Lit "info";
    Cli.Lit " awd list - See all available scripts"]].

Definition init (project_name : option string) (force yes : bool) : I unit :=
  try_except
    (final_project_name <- enter_project (normalise project_name) ;;
     awd_yml_exists <- look (file_exists "awd.yml") ;;
     existing <- look existing_files ;;
     go_on <- handle_existing existing force yes ;;
     if negb go_on then ret tt
     else
       config <- choose_config final_project_name awd_yml_exists force
                   yes ;;
       name <- out (Cli.py_getitem W "name" config) ;;
       out (Cli.rich_success W
              [Cli.Lit "Initializing AWD project: "; Cli.Val name]
              "rocket") ;;;
       create_project_files config ;;;
       show_created ;;;
       out (Cli.rich_blank_line W) ;;;
       out (Cli.rich_success W
              [Cli.Lit "AWD project initialized successfully!"]
              "sparkles") ;;;
       tell (Panel "Next Steps" next_steps))
    (fun e =>
       out (Cli.rich_error W
              [Cli.Lit "Error initializing project: "; Cli.Err e]) ;;;
       sys_exit 1).

End Init.

End CliInit.

(* ===================================================================== *)
(** * Further notions for the commands *)
(* ===================================================================== *)

Module CliSpec.
Import Py Eff.

(** What the manager did during a command, in order. *)
Fixpoint manager_events (l : list CliMore.event) : list RuntimeOps.event :=
  match l with
  | [] => []
  | CliMore.Manager e :: l' => e :: manager_events l'
  | _ :: l' => manager_events l'
  end.

(** The questions click put to the user during a command, each with its
    answer. *)
Fixpoint confirmations (l : list CliMore.event) : list (string * bool) :=
  match l with
  | [] => []
  | CliMore.Confirm p a :: l' => (p, a) :: confirmations l'
  | _ :: l' => confirmations l'
  end.

(** The argument is one of the runtimes the commands accept. *)
Definition accepted (arg : option string) (name : string) : Prop :=
  arg = Some name /\ (name = "codex" \/ name = "llm").

(** The four keys of a project configuration. *)
Definition config_keys : list string :=
  ["name"; "version"; "description"; "author"].

(** The entries of a mapping. *)
Definition entries (v : pyval) : dict pyval :=
  match v with
  | PDict d => d
  | _ => []
  end.

End CliSpec.

Module InitSpec.
Import Py Eff CliInit.

(** The files written, in order: the name, the content and how it went. *)
Fixpoint writes (l : list event) : list (string * string * answer unit) :=
  match l with
  | [] => []
  | WriteFile f c a :: l' => (f, c, a) :: writes l'
  | _ :: l' => writes l'
  end.

(** The templates loaded, in order: the file and the variables. *)
Fixpoint loads (l : list event)
  : list (string * dict (list Cli.fragment)) :=
  match l with
  | [] => []
  | LoadTemplate _ f vars _ :: l' => (f, vars) :: loads l'
  | _ :: l' => loads l'
  end.

(** The questions put to the user, in order. *)
Fixpoint questions (l : list event) : list event :=
  match l with
  | [] => []
  | RichConfirm t a :: l' => RichConfirm t a :: questions l'
  | ClickConfirm t a :: l' => ClickConfirm t a :: questions l'
  | ClickPrompt t d a :: l' => ClickPrompt t d a :: questions l'
  | _ :: l' => questions l'
  end.

(** The answers to the question before overwriting, in order. *)
Fixpoint consents (l : list event) : list (answer bool) :=
  match l with
  | [] => []
  | RichConfirm t a :: l' =>
      if String.eqb t overwrite_text then a :: consents l' else consents l'
  | ClickConfirm t a :: l' =>
      if String.eqb t overwrite_text then a :: consents l' else consents l'
  | _ :: l' => consents l'
  end.

(** The question that closes the interactive setup. *)
Definition summary_text : string := nl +:+ "Is this OK?".

(** The answers to that question, in order. *)
Fixpoint summaries (l : list event) : list (answer bool) :=
  match l with
  | [] => []
  | RichConfirm t a :: l' =>
      if String.eqb t summary_text then a :: summaries l' else summaries l'
  | ClickConfirm t a :: l' =>
      if String.eqb t summary_text then a :: summaries l' else summaries l'
  | _ :: l' => summaries l'
  end.

(** The name of a written file. *)
Definition written_name (x : string * string * answer unit) : string :=
  x.1.1.

(** An event that only prints. *)
Definition prints (e : event) : bool :=
  match e with
  | Out _ | Panel _ _ => true
  | _ => false
  end.

(** What [init] prints once the files are made. *)
Definition closing (rich : Cli.rich_mode) : list event :=
  [Out (Cli.Echo Cli.Info (Some "info") [Cli.Lit "Created files:"]);
   Out match rich with
       | Cli.Rich true =>
           Cli.Table (map (fun f => [Cli.Lit "file"; Cli.Lit f])
                        project_files)
       | _ =>
           Cli.Line [Cli.Joined nl
                       (map (fun f => "  - " +:+ f) project_files)]
       end;
   Out Cli.Blank;
   Out (Cli.Echo Cli.Success (Some "sparkles")
          [Cli.Lit "AWD project initialized successfully!"]);
   Panel "Next Steps" next_steps].

End InitSpec.

Module InitExamples.
Import Py Eff.

(** A world that is a list of the files of the working directory. *)
Definition has (f : string) (w : list string) : bool :=
  existsb (String.eqb f) w.

Definition mkdir_ok (d : string) (w : list string)
  : answer unit * list string := (Ok tt, w).
Definition chdir_ok (d : string) (w : list string)
  : answer unit * list string := (Ok tt, w).
Definition cwd_demo (w : list string) : answer string * list string :=
  (Ok "demo", w).
Definition no_manifest (w : list string) : Cli.manifest_file := Cli.NoFile.
Definition some_manifest (w : list string) : Cli.manifest_file :=
  Cli.Loaded (PDict [("name", PStr "kept")]).
Definition say (b : bool) (text : string) (w : list string)
  : answer bool * list string := (Ok b, w).
Definition take_default (text dflt : string) (w : list string)
  : answer string * list string := (Ok dflt, w).
Definition template_ok (t f : string) (vars : dict (list Cli.fragment))
  (w : list string) : answer string * list string := (Ok f, w).
Definition write_ok (f content : string) (w : list string)
  : answer unit * list string :=
  (Ok tt, if has f w then w else f :: w).
End InitExamples.

(* ===================================================================== *)
(** * Properties of the runtime manager *)
(* ===================================================================== *)

Import Py Eff.

Section RuntimeFacts.
Import Runtime Spec.
Variable h : host.

Lemma supported_cases name info :
  dict_get name supported_runtimes = Some info ->
  (name = "codex" /\ binary info = "codex") \/
  (name = "llm" /\ binary info = "llm").
Proof.
  unfold supported_runtimes. cbn [dict_get].
  destruct (String.eqb_spec "codex" name) as [<-|_].
  - intros [= <-]. left. split; reflexivity.
  - destruct (String.eqb_spec "llm" name) as [<-|_].
    + intros [= <-]. right. split; reflexivity.
    + intros [=].
Qed.

(** What [is_runtime_available] answers and asks for a supported name. *)
Lemma is_runtime_available_run name info :
  dict_get name supported_runtimes = Some info ->
  is_runtime_available h name tt =
    match fs h (managed_path h info) with
    | RegularFile _ =>
        (Ret true, tt,
         [PExists (managed_path h info); PIsFile (managed_path h info)])
    | Absent =>
        (Ret (match which h (binary info) with Some _ => true | None => false end),
         tt, [PExists (managed_path h info); PWhich (binary info)])
    | _ =>
        (Ret (match which h (binary info) with Some _ => true | None => false end),
         tt, [PExists (managed_path h info); PIsFile (managed_path h info);
              PWhich (binary info)])
    end.
Proof.
  intros Hs. unfold is_runtime_available. rewrite Hs.
  unfold managed_path.
  unfold bind, path_exists, path_is_file, shutil_which, bind, tell, ret.
  destruct (fs h (path_join (runtime_dir h) (binary info))); reflexivity.
Qed.


Lemma available_run name info :
  dict_get name supported_runtimes = Some info ->
  available h name =
    match fs h (managed_path h info) with
    | RegularFile _ => true
    | _ => match which h (binary info) with Some _ => true | None => false end
    end.
Proof.
  intros Hs. unfold available, value.
  rewrite (is_runtime_available_run _ _ Hs).
  destruct (fs h (managed_path h info)); reflexivity.
Qed.

Lemma value_is_runtime_available name :
  value (is_runtime_available h name) = Ret (available h name).
Proof.
  unfold available, value.
  destruct (dict_get name supported_runtimes) as [info|] eqn:Hs.
  - rewrite (is_runtime_available_run _ _ Hs).
    destruct (fs h (managed_path h info)); reflexivity.
  - unfold is_runtime_available. rewrite Hs. reflexivity.
Qed.

Lemma first_available_value names :
  value (first_available h names) = Ret (List.find (available h) names).
Proof.
  induction names as [|n names IH]; [reflexivity|].
  pose proof (value_is_runtime_available n) as Hn.
  unfold value, result in *. cbn [first_available List.find].
  unfold bind at 1.
  destruct (is_runtime_available h n tt) as [[o []] l]. cbn in Hn. subst o.
  destruct (available h n); [reflexivity|].
  destruct (first_available h names tt) as [[o' w'] l']. exact IH.
Qed.

(** The record of one runtime: both fields follow from one look at the
    managed path. *)
Lemma runtime_record_run info :
  exists v l,
    runtime_record h info tt =
      (Ret {| st_description := description info;
              installed :=
                match fs h (managed_path h info) with
                | Absent => false
                | _ => true
                end;
              path :=
                match fs h (managed_path h info) with
                | Absent => None
                | _ => Some (managed_path h info)
                end;
              version := v |}, tt, l).
Proof.
  unfold runtime_record, managed_path, path_exists, query_version.
  unfold bind, tell, ret.
  destruct (fs h (path_join (runtime_dir h) (binary info)));
    try destruct (run_version h _) as [rc out|];
    do 2 eexists; reflexivity.
Qed.

Lemma listed_run name info :
  dict_get name supported_runtimes = Some info ->
  exists v,
    listed h name =
      Some {| st_description := description info;
              installed :=
                match fs h (managed_path h info) with
                | Absent => false
                | _ => true
                end;
              path :=
                match fs h (managed_path h info) with
                | Absent => None
                | _ => Some (managed_path h info)
                end;
              version := v |}.
Proof.
  intros Hs. unfold listed, value, result, list_runtimes, supported_runtimes.
  cbn [list_runtimes_from].
  set (c := {| script := "setup-codex.sh" |}).
  set (l := {| script := "setup-llm.sh" |}).
  destruct (runtime_record_run c) as (vc & lc & Hc).
  destruct (runtime_record_run l) as (vl & ll & Hl).
  unfold bind. rewrite Hc, Hl. cbn.
  revert Hs. unfold supported_runtimes. cbn [dict_get]. fold c l.
  destruct (String.eqb_spec "codex" name) as [<-|Hn].
  - intros [= <-]. exists vc. reflexivity.
  - destruct (String.eqb_spec "llm" name) as [<-|Hn'].
    + intros [= <-]. exists vl. reflexivity.
    + intros [=].
Qed.

End RuntimeFacts.

(** C4: [get_available_runtime] returns the first name of the preference
    order [codex, llm] for which [is_runtime_available] is true and none
    when there is no such name; with both runtimes available the answer is
    [codex]. *)
Theorem get_available_runtime_first_preferred (h : Runtime.host) :
  Runtime.get_runtime_preference = ["codex"; "llm"] /\
  Runtime.value (Runtime.get_available_runtime h) =
    Ret (List.find (Spec.available h) Runtime.get_runtime_preference) /\
  (Spec.available h "codex" = false -> Spec.available h "llm" = false ->
   Runtime.value (Runtime.get_available_runtime h) = Ret None) /\
  (Spec.available h "codex" = true -> Spec.available h "llm" = true ->
   Runtime.value (Runtime.get_available_runtime h) = Ret (Some "codex")).
Proof.
  pose proof (first_available_value h Runtime.get_runtime_preference) as H.
  fold (Runtime.get_available_runtime h) in H.
  split; [reflexivity|]. split; [exact H|].
  split; intros Hc Hl; rewrite H; cbn; rewrite Hc; try rewrite Hl; reflexivity.
Qed.

Lemma get_available_runtime_first_preferred_witness :
  Runtime.value (Runtime.get_available_runtime Examples.both_managed)
    = Ret (Some "codex") /\
  Runtime.value (Runtime.get_available_runtime (Examples.only_on_path []))
    = Ret None.
Proof.
  split.
  - apply (get_available_runtime_first_preferred Examples.both_managed);
      reflexivity.
  - apply (get_available_runtime_first_preferred (Examples.only_on_path []));
      reflexivity.
Defined.

(** C6: for a supported runtime name [is_runtime_available] is true exactly
    when the binary is a regular file in the managed directory or the search
    path has an executable of that name; the managed directory is looked at
    first and the search path only when that look fails; for any other name
    the answer is false and nothing is looked at. *)
Theorem is_runtime_available_managed_then_path (h : Runtime.host)
  (name : string) :
  (forall info,
     dict_get name Runtime.supported_runtimes = Some info ->
     (Runtime.value (Runtime.is_runtime_available h name) = Ret true <->
        (exists x, Runtime.fs h (Spec.managed_path h info)
                   = Runtime.RegularFile x) \/
        is_Some (Runtime.which h (Runtime.binary info))) /\
     (exists b, Runtime.value (Runtime.is_runtime_available h name) = Ret b) /\
     (exists rest,
        Runtime.asked (Runtime.is_runtime_available h name) =
          Runtime.PExists (Spec.managed_path h info) :: rest) /\
     (forall q,
        Runtime.PWhich q ∈ Runtime.asked (Runtime.is_runtime_available h name)
        <->
        q = Runtime.binary info /\
        ~ exists x, Runtime.fs h (Spec.managed_path h info)
                    = Runtime.RegularFile x)) /\
  (dict_get name Runtime.supported_runtimes = None ->
     Runtime.value (Runtime.is_runtime_available h name) = Ret false /\
     Runtime.asked (Runtime.is_runtime_available h name) = []).
Proof.
  split.
  - intros info Hs.
    unfold Runtime.value, Runtime.asked.
    rewrite (is_runtime_available_run h _ _ Hs).
    destruct (Runtime.fs h (Spec.managed_path h info)) eqn:Hfs;
      destruct (Runtime.which h (Runtime.binary info)) eqn:Hw; cbn.
    all: repeat split.
    all: try solve [ eauto | intros [=] | intros _; eauto
                   | intros [[x [=]] | [y [=]]]; reflexivity
                   | intros [[x [=]] | [y [=]]]
                   | intros [x [=]] ].
    all: try match goal with
         | H : _ ∈ _ |- _ =>
             rewrite ?elem_of_cons, elem_of_nil in H;
             repeat (destruct H as [H|H]; try discriminate H);
             try contradiction; try (injection H as ->; reflexivity)
         end.
    all: try (intros [-> Hno]; rewrite ?elem_of_cons;
              try (exfalso; apply Hno; eauto; fail); auto).
  - intros Hs. unfold Runtime.value, Runtime.asked, Runtime.is_runtime_available.
    rewrite Hs. split; reflexivity.
Qed.

Lemma is_runtime_available_managed_then_path_witness :
  Runtime.value (Runtime.is_runtime_available Examples.both_managed "codex")
    = Ret true /\
  Runtime.value (Runtime.is_runtime_available Examples.both_managed "gpt")
    = Ret false.
Proof.
  split.
  - destruct (is_runtime_available_managed_then_path
                Examples.both_managed "codex") as [H _].
    destruct (H _ eq_refl) as [Hiff _].
    apply Hiff. left. exists true. reflexivity.
  - destruct (is_runtime_available_managed_then_path
                Examples.both_managed "gpt") as [_ H].
    destruct (H eq_refl) as [Hv _]. exact Hv.
Defined.

(** C7, as amended: every runtime of the supported set gets a record from
    [list_runtimes]; a record with [installed] true carries the path of the
    runtime's binary in the managed directory and something exists at that
    path (a file, executable or not, or a directory: nothing more is
    checked); a record with [installed] false carries no path. *)
Theorem list_runtimes_installed_path (h : Runtime.host) (name : string)
  (info : Runtime.runtime_info) :
  dict_get name Runtime.supported_runtimes = Some info ->
  exists st,
    Spec.listed h name = Some st /\
    (Runtime.installed st = true ->
       Runtime.path st = Some (Spec.managed_path h info) /\
       Runtime.fs h (Spec.managed_path h info) <> Runtime.Absent) /\
    (Runtime.installed st = false -> Runtime.path st = None).
Proof.
  intros Hs. destruct (listed_run h _ _ Hs) as [v Hl].
  eexists. split; [exact Hl|]. cbn.
  destruct (Runtime.fs h (Spec.managed_path h info)); split;
    intros [=]; try split; try reflexivity; intros [=].
Qed.

Lemma list_runtimes_installed_path_witness :
  exists st,
    Spec.listed Examples.codex_is_a_directory "codex" = Some st /\
    Runtime.installed st = true /\
    Runtime.path st = Some "/home/u/.awd/runtimes/codex".
Proof.
  destruct (list_runtimes_installed_path Examples.codex_is_a_directory
              "codex" _ eq_refl) as (st & Hl & Hi & _).
  exists st. split; [exact Hl|].
  assert (Hinst : Runtime.installed st = true).
  { vm_compute in Hl. injection Hl as <-. reflexivity. }
  split; [exact Hinst|]. apply Hi. exact Hinst.
Defined.

(** C7 as the document words it fails where the managed directory holds
    a directory under the runtime's name: the record says installed, and
    the path is no executable file. *)
Lemma record_invariant_counterexample :
  ~ Spec.record_invariant_as_documented Examples.codex_is_a_directory.
Proof.
  intros H.
  destruct (H "codex" _ _ eq_refl eq_refl) as [Hi _].
  destruct (Hi eq_refl) as [_ Hfs]. vm_compute in Hfs. discriminate Hfs.
Qed.

(** C10, as amended: a runtime that [list_runtimes] reports as installed
    and whose entry in the managed directory is a regular file is available;
    a runtime absent from the managed directory and found on the search
    path is reported as not installed and is available all the same; and
    for every supported name there is a machine where the runtime is
    reported as not installed while [get_available_runtime] selects it. *)
Theorem installed_file_is_available (h : Runtime.host) (name : string)
  (info : Runtime.runtime_info) (st : Runtime.runtime_status) :
  dict_get name Runtime.supported_runtimes = Some info ->
  Spec.listed h name = Some st ->
  (Runtime.installed st = true ->
   (exists x, Runtime.fs h (Spec.managed_path h info) = Runtime.RegularFile x) ->
   Spec.available h name = true) /\
  (Runtime.fs h (Spec.managed_path h info) = Runtime.Absent ->
   is_Some (Runtime.which h (Runtime.binary info)) ->
   Runtime.installed st = false /\ Spec.available h name = true) /\
  (exists h' st',
     Spec.listed h' name = Some st' /\
     Runtime.installed st' = false /\
     Spec.available h' name = true /\
     Runtime.value (Runtime.get_available_runtime h') = Ret (Some name)).
Proof.
  intros Hs Hl.
  destruct (listed_run h _ _ Hs) as [v Hl']. rewrite Hl in Hl'.
  injection Hl' as ->. rewrite (available_run h _ _ Hs). cbn.
  split; [|split].
  - intros _ [x ->]. reflexivity.
  - intros -> [p ->]. split; reflexivity.
  - exists (Examples.only_on_path [name]).
    destruct (supported_cases _ _ Hs) as [[-> _]|[-> _]];
      eexists; repeat split; reflexivity.
Qed.

Lemma installed_file_is_available_witness :
  Spec.available Examples.both_managed "llm" = true /\
  Spec.available (Examples.only_on_path ["llm"]) "llm" = true.
Proof.
  split.
  - destruct (Spec.listed Examples.both_managed "llm") as [st|] eqn:Hl;
      [|discriminate Hl].
    refine (proj1 (installed_file_is_available Examples.both_managed "llm"
                     _ st eq_refl Hl) _ _).
    + vm_compute in Hl. injection Hl as <-. reflexivity.
    + exists true. reflexivity.
  - destruct (Spec.listed (Examples.only_on_path ["llm"]) "llm")
      as [st|] eqn:Hl; [|discriminate Hl].
    refine (proj2 (proj1 (proj2 (installed_file_is_available
                     (Examples.only_on_path ["llm"]) "llm"
                     _ st eq_refl Hl)) _ _)).
    + reflexivity.
    + eexists. reflexivity.
Defined.

(** C10 as stated fails on a machine whose managed directory holds a
    directory under the runtime's name and whose search path has no such
    executable: [list_runtimes] says installed, [is_runtime_available]
    says no. *)
Lemma installed_implies_available_counterexample :
  ~ Spec.installed_implies_available Examples.codex_is_a_directory.
Proof.
  intros H. specialize (H "codex" _ eq_refl eq_refl).
  vm_compute in H. discriminate H.
Qed.

(* ===================================================================== *)
(** * Properties of the registry client *)
(* ===================================================================== *)

Section StringFacts.

Lemma prefix_spec x s :
  String.prefix x s = true <-> exists post, s = x +:+ post.
Proof.
  revert s. induction x as [|a x IH]; intros s.
  - split; [intros _; exists s; reflexivity | intros _; destruct s; reflexivity].
  - destruct s as [|b s]; cbn; [split; [intros [=] | intros [post [=]]]|].
    destruct (Ascii.ascii_dec a b) as [->|Hab].
    + rewrite IH. split; intros [post Hp]; exists post.
      * cbn. rewrite Hp. reflexivity.
      * cbn in Hp. injection Hp as ->. reflexivity.
    + split; [intros [=] | intros [post Hp]].
      cbn in Hp. injection Hp as -> _. contradiction.
Qed.

Lemma str_in_spec x s : str_in x s = true <-> Spec.substring x s.
Proof.
  unfold Spec.substring. induction s as [|b s IH]; cbn [str_in].
  - rewrite orb_false_r, prefix_spec. split.
    + intros [post Hp]. exists EmptyString, post. exact Hp.
    + intros (pre & post & Hp). destruct pre; [exists post; exact Hp|].
      discriminate Hp.
  - rewrite orb_true_iff, prefix_spec, IH. split.
    + intros [[post Hp]|(pre & post & Hp)].
      * exists EmptyString, post. exact Hp.
      * exists (String b pre), post. cbn. rewrite Hp. reflexivity.
    + intros (pre & post & Hp). destruct pre as [|c pre].
      * left. exists post. exact Hp.
      * right. cbn in Hp. injection Hp as _ ->. exists pre, post. reflexivity.
Qed.

Lemma str_in_empty s : str_in EmptyString s = true.
Proof. apply str_in_spec. exists EmptyString, s. reflexivity. Qed.

End StringFacts.

Section ListingFacts.
Import Registry Spec.
Variable W : Type.
Variable http_servers : option Z -> option string -> W -> answer pyval * W.

(** The listing call: the request, then the two keys read off the body. *)
Lemma list_servers_run limit cursor w :
  list_servers W http_servers limit cursor w =
    (match (http_servers limit cursor w).1 with
     | Ok (PDict d) =>
         match default (PDict []) (dict_get "metadata" d) with
         | PDict m =>
             Ret (default (PList []) (dict_get "servers" d),
                  default PNone (dict_get "next_cursor" m))
         | _ => Raise AttributeError
         end
     | Ok _ => Raise AttributeError
     | Failed e => Raise e
     end, (http_servers limit cursor w).2,
     [GetServers limit cursor (http_servers limit cursor w).1]).
Proof.
  unfold list_servers, bind, call, py_get, ret, raise.
  destruct (http_servers limit cursor w) as [[data|e] w1];
    cbn [of_answer fst snd app]; [|reflexivity].
  destruct data as [| | | | |d]; try reflexivity.
  destruct (default (PDict []) (dict_get "metadata" d)); reflexivity.
Qed.

(** All three searches start alike: one listing of a hundred entries
    without a cursor, read as [entries] says, and a loop over it. *)
Lemma over_listing_run {A} (body : list pyval -> R W A) w :
  bind (list_servers W http_servers (Some 100%Z) None)
    (fun page => let '(servers, _) := page in
                 bind (py_iter W servers) body) w =
    match http_servers (Some 100%Z) None w with
    | (Ok data, w1) =>
        match entries data with
        | Ok l =>
            after [GetServers (Some 100%Z) None (Ok data)] (body l w1)
        | Failed e =>
            (Raise e, w1, [GetServers (Some 100%Z) None (Ok data)])
        end
    | (Failed e, w1) =>
        (Raise e, w1, [GetServers (Some 100%Z) None (Failed e)])
    end.
Proof.
  unfold bind at 1. rewrite list_servers_run.
  destruct (http_servers (Some 100%Z) None w) as [[data|e] w1];
    cbn [fst snd]; [|reflexivity].
  unfold entries.
  destruct data as [| | | | |d]; try reflexivity.
  destruct (default (PDict []) (dict_get "metadata" d)); try reflexivity.
  unfold bind, py_iter, items, after, ret, raise.
  destruct (default (PList []) (dict_get "servers" d));
    cbn [result world log fst snd app]; try reflexivity;
    match goal with
    | |- context [body ?l w1] => destruct (body l w1) as [[o w2] lg]
    end; reflexivity.
Qed.

End ListingFacts.

Section SearchFacts.
Import Registry Spec.
Variable W : Type.
Variable http_servers : option Z -> option string -> W -> answer pyval * W.

Lemma query_matches_run query srv w :
  well_formed srv ->
  query_matches W query srv w = (Ret (matches query srv), w, []).
Proof.
  intros [[n Hn] [d Hd]].
  unfold query_matches, matches, name_of, description_of.
  rewrite Hn, Hd. cbn [default from_option id].
  destruct srv as [| | | | |o]; try discriminate Hn.
  unfold field_text in Hn, Hd.
  unfold bind, py_get, py_lower, ret.
  destruct (dict_get "name" o) as [[]|]; try discriminate Hn;
    injection Hn as <-; cbn [default from_option id];
    (destruct (str_in (lower query) _); [reflexivity|]);
    destruct (dict_get "description" o) as [[]|]; try discriminate Hd;
    injection Hd as <-; reflexivity.
Qed.

Lemma keep_matching_run query l w :
  Forall well_formed l ->
  keep_matching W query l w = (Ret (List.filter (matches query) l), w, []).
Proof.
  induction 1 as [|srv l Hsrv _ IH]; [reflexivity|].
  cbn [keep_matching List.filter]. unfold bind.
  rewrite (query_matches_run _ _ _ Hsrv), IH.
  destruct (matches query srv); reflexivity.
Qed.

Lemma matches_spec query srv :
  matches query srv = true <->
  contains_ci query (name_of srv) \/ contains_ci query (description_of srv).
Proof.
  unfold matches, contains_ci. rewrite orb_true_iff, !str_in_spec. tauto.
Qed.

Lemma filter_sublist {A} (f : A -> bool) (l : list A) :
  sublist (List.filter f l) l.
Proof.
  induction l as [|x l IH]; cbn; [constructor|].
  destruct (f x); constructor; exact IH.
Qed.

Lemma filter_all {A} (f : A -> bool) (l : list A) :
  (forall x, f x = true) -> List.filter f l = l.
Proof.
  intros Hf. induction l as [|x l IH]; cbn; [reflexivity|].
  rewrite Hf, IH. reflexivity.
Qed.

Lemma search_servers_read query w :
  search_servers W http_servers query w =
    match http_servers (Some 100%Z) None w with
    | (Ok data, w1) =>
        match entries data with
        | Ok l =>
            after [GetServers (Some 100%Z) None (Ok data)]
              (keep_matching W query l w1)
        | Failed e =>
            (Raise e, w1, [GetServers (Some 100%Z) None (Ok data)])
        end
    | (Failed e, w1) =>
        (Raise e, w1, [GetServers (Some 100%Z) None (Failed e)])
    end.
Proof. apply (over_listing_run W http_servers (keep_matching W query)). Qed.

End SearchFacts.

(** C5, as amended: when the listing call returns a body whose entries are
    objects with a name and a description that, when present, are strings,
    [search_servers] returns exactly the entries of that one page whose
    name or description contains the query, case ignored, in the order of
    the page and as often as the page holds them; it sends one request,
    with the default limit and no cursor, so no further page is asked for;
    and the empty query returns the whole page. *)
Theorem search_servers_filters_one_page (W : Type)
  (http_servers : option Z -> option string -> W -> answer pyval * W)
  (query : string) (w w1 : W) (data : pyval) (page : list pyval) :
  http_servers (Some 100%Z) None w = (Ok data, w1) ->
  Spec.entries data = Ok page ->
  Forall Spec.well_formed page ->
  exists found,
    Registry.search_servers W http_servers query w =
      (Ret found, w1, [Registry.GetServers (Some 100%Z) None (Ok data)]) /\
    found = List.filter (Spec.matches query) page /\
    (forall srv,
       Spec.matches query srv = true <->
       Spec.contains_ci query (Spec.name_of srv) \/
       Spec.contains_ci query (Spec.description_of srv)) /\
    (forall srv,
       srv ∈ found <->
       srv ∈ page /\
       (Spec.contains_ci query (Spec.name_of srv) \/
        Spec.contains_ci query (Spec.description_of srv))) /\
    sublist found page /\
    (query = EmptyString -> found = page).
Proof.
  intros Hpage Hread Hwf.
  exists (List.filter (Spec.matches query) page).
  split; [|split; [reflexivity|split; [|split; [|split]]]].
  - rewrite search_servers_read, Hpage, Hread.
    rewrite (keep_matching_run W query _ w1 Hwf). reflexivity.
  - intros srv. apply matches_spec.
  - intros srv. rewrite !list_elem_of_In, filter_In, matches_spec. tauto.
  - apply filter_sublist.
  - intros ->. apply filter_all. intros srv.
    unfold Spec.matches. cbn. rewrite str_in_empty. reflexivity.
Qed.

Lemma search_servers_filters_one_page_witness :
  exists found,
    Registry.search_servers unit Examples.static_servers "ALPHA" tt =
      (Ret found, tt,
       [Registry.GetServers (Some 100%Z) None (Ok Examples.page)]) /\
    found = [Examples.alpha; Examples.beta].
Proof.
  destruct (search_servers_filters_one_page unit Examples.static_servers
              "ALPHA" tt tt Examples.page [Examples.alpha; Examples.beta]
              eq_refl eq_refl) as (found & Hrun & Hfound & _).
  - repeat constructor; eexists; reflexivity.
  - exists found. split; [exact Hrun|].
    rewrite Hfound. vm_compute. reflexivity.
Defined.

(** C5 as stated fails on a page with an entry whose name is null: the
    listing call returns the page, and [search_servers] raises
    [AttributeError], for the empty query too, instead of returning the
    page. *)
Lemma search_servers_null_name_counterexample :
  result (Registry.list_servers unit Examples.bad_servers (Some 100%Z) None tt)
    = Ret (PList [Examples.alpha; Examples.nameless], PNone) /\
  result (Registry.search_servers unit Examples.bad_servers "" tt)
    = Raise AttributeError /\
  ~ Spec.empty_query_returns_listing unit Examples.bad_servers tt.
Proof.
  split; [reflexivity|]. split; [reflexivity|].
  intros H.
  specialize (H (PList [Examples.alpha; Examples.nameless]) PNone
                [Examples.alpha; Examples.nameless] eq_refl eq_refl).
  discriminate H.
Qed.

Section FindFacts.
Import Registry Spec.
Variable W : Type.
Variable http_servers : option Z -> option string -> W -> answer pyval * W.
Variable http_server : pyval -> W -> answer pyval * W.

Local Abbreviation scan_by_name := (Registry.scan_by_name W http_server).
Local Abbreviation scan_model := (Spec.scan_model W http_server).
Local Abbreviation replays := (Spec.replays W http_servers http_server).
Local Abbreviation exact_name_match :=
  (Registry.exact_name_match W http_servers http_server).
Local Abbreviation find_server_by_reference :=
  (Registry.find_server_by_reference W http_servers http_server).

Lemma get_server_info_run i w :
  get_server_info W http_server i w =
    (match (http_server i w).1 with
     | Ok v => if truthy v then Ret v
               else Raise (ValueError "not found in registry")
     | Failed e => Raise e
     end, (http_server i w).2, [GetServer i (http_server i w).1]).
Proof.
  unfold get_server_info, bind, call.
  destruct (http_server i w) as [[v|e] w1]; cbn; [|reflexivity].
  destruct (truthy v); reflexivity.
Qed.

Lemma try_as_id_run reference w :
  try_as_id W http_server reference w =
    if looks_like_id reference then
      (Ret (usable (http_server (PStr reference) w).1),
       (http_server (PStr reference) w).2,
       [GetServer (PStr reference) (http_server (PStr reference) w).1])
    else (Ret None, w, []).
Proof.
  unfold try_as_id, try_except.
  destruct (looks_like_id reference); [|reflexivity].
  unfold bind. rewrite get_server_info_run.
  destruct (http_server (PStr reference) w) as [[v|e] w1]; cbn; [|reflexivity].
  destruct (truthy v); reflexivity.
Qed.

Lemma name_is_run name srv w :
  name_is W name srv w =
    (if is_object srv then Ret (is_named name srv)
     else Raise AttributeError, w, []).
Proof.
  unfold name_is, bind, py_get, ret, raise, is_named, field.
  destruct srv as [| | | | |d]; try reflexivity.
  cbn [is_object]. destruct (dict_get "name" d) as [[]|]; reflexivity.
Qed.

(** The details of an entry that is an object. *)
Lemma details_of_run srv w :
  is_object srv = true ->
  details_of W http_server srv w =
    match field "id" srv with
    | Some i => get_server_info W http_server i w
    | None => (Raise (KeyError "id"), w, [])
    end.
Proof.
  destruct srv as [| | | | |d]; intros Ho; try discriminate Ho.
  unfold details_of, bind, py_getitem, field.
  destruct (dict_get "id" d) as [i|]; [|reflexivity].
  cbn. destruct (get_server_info W http_server i w) as [[o w1] lg].
  destruct o; reflexivity.
Qed.

Lemma scan_by_name_run reference l w :
  scan_by_name reference l w = scan_model reference l w.
Proof.
  revert w. induction l as [|srv l IH]; intros w; [reflexivity|].
  cbn [Registry.scan_by_name Spec.scan_model].
  unfold bind at 1. rewrite name_is_run.
  destruct (is_object srv) eqn:Ho; [|reflexivity].
  cbn [app]. destruct (is_named reference srv).
  2:{ rewrite IH. destruct (scan_model reference l w) as [[o w1] lg].
      reflexivity. }
  unfold bind at 1. unfold try_except. unfold bind at 1.
  rewrite (details_of_run _ _ Ho).
  destruct (field "id" srv) as [i|].
  - rewrite get_server_info_run. unfold usable, after.
    destruct (http_server i w) as [[v|e] w1]; cbn [fst snd].
    + destruct (truthy v); cbn [ret app result world log fst snd].
      * reflexivity.
      * rewrite IH. destruct (scan_model reference l w1) as [[o w2] lg].
        reflexivity.
    + cbn [ret app result world log fst snd].
      rewrite IH. destruct (scan_model reference l w1) as [[o w2] lg].
      reflexivity.
  - cbn [ret app]. rewrite IH.
    destruct (scan_model reference l w) as [[o w2] lg]. reflexivity.
Qed.

Lemma exact_name_match_run reference w :
  exact_name_match reference w =
    match http_servers (Some 100%Z) None w with
    | (Ok data, w1) =>
        match entries data with
        | Ok l =>
            after [GetServers (Some 100%Z) None (Ok data)]
              (scan_model reference l w1)
        | Failed e =>
            (Raise e, w1, [GetServers (Some 100%Z) None (Ok data)])
        end
    | (Failed e, w1) =>
        (Raise e, w1, [GetServers (Some 100%Z) None (Failed e)])
    end.
Proof.
  unfold Registry.exact_name_match.
  rewrite (over_listing_run W http_servers (scan_by_name reference)).
  destruct (http_servers (Some 100%Z) None w) as [[data|e] w1];
    [|reflexivity].
  destruct (entries data); [|reflexivity].
  rewrite scan_by_name_run. reflexivity.
Qed.

Lemma find_server_by_reference_run reference w :
  find_server_by_reference reference w =
    if looks_like_id reference then
      match usable (http_server (PStr reference) w).1 with
      | Some v =>
          (Ret (Some v), (http_server (PStr reference) w).2,
           [GetServer (PStr reference) (http_server (PStr reference) w).1])
      | None =>
          after [GetServer (PStr reference) (http_server (PStr reference) w).1]
            (exact_name_match reference (http_server (PStr reference) w).2)
      end
    else exact_name_match reference w.
Proof.
  unfold Registry.find_server_by_reference, bind.
  rewrite try_as_id_run.
  destruct (looks_like_id reference).
  - destruct (usable (http_server (PStr reference) w).1); [reflexivity|].
    destruct (exact_name_match reference _) as [[o w2] lg]. reflexivity.
  - destruct (exact_name_match reference w) as [[o w2] lg]. reflexivity.
Qed.

Lemma replays_app w l1 w1 l2 w2 :
  replays w l1 w1 -> replays w1 l2 w2 -> replays w (l1 ++ l2) w2.
Proof.
  revert w. induction l1 as [|e l1 IH]; intros w.
  - cbn. intros -> H. exact H.
  - destruct e; cbn; intros [Ha H1] H2; (split; [exact Ha|]); eauto.
Qed.


Lemma named_ids_cons reference srv l :
  named_ids reference (srv :: l) =
    match (if is_named reference srv then field "id" srv else None) with
    | Some i => i :: named_ids reference l
    | None => named_ids reference l
    end.
Proof. reflexivity. Qed.

(** The three ways the scan ends: nothing usable among entries that are
    all objects, an entry that is not an object met before anything
    usable, or a usable record.  In the first two every entry with the
    name, up to the end or to the entry that is not an object, was asked
    for; in the third the entries with the name were asked for up to the
    one that gave the record. *)
Lemma scan_model_cases reference l w :
  let r := scan_model reference l w in
  let ids := named_ids reference (leading_objects l) in
  Forall is_lookup (log r) /\
  replays w (log r) (world r) /\
  ((result r = Ret None /\
    Forall (fun s => is_object s = true) l /\
    (lookups (log r)).*1 = ids /\ Forall fruitless (log r)) \/
   (result r = Raise AttributeError /\
    ~ Forall (fun s => is_object s = true) l /\
    (lookups (log r)).*1 = ids /\ Forall fruitless (log r)) \/
   (exists v pre i a,
      result r = Ret (Some v) /\ log r = pre ++ [GetServer i a] /\
      usable a = Some v /\ Forall fruitless pre /\
      (lookups (log r)).*1 `prefix_of` ids)).
Proof.
  cbv zeta. revert w. induction l as [|srv l IH]; intros w.
  - cbn. split; [constructor|]. split; [reflexivity|].
    left. repeat split; constructor.
  - cbn [Spec.scan_model leading_objects].
    destruct (is_object srv) eqn:Ho.
    2:{ cbn. split; [constructor|]. split; [reflexivity|].
        right. left. repeat split; try constructor.
        intros HF. apply Forall_cons in HF as [HF _]. congruence. }
    assert (Hskip :
      (if is_named reference srv then field "id" srv else None) = None ->
      named_ids reference (srv :: leading_objects l)
      = named_ids reference (leading_objects l)).
    { intros Hn. rewrite named_ids_cons, Hn. reflexivity. }
    assert (Hpass :
      (if is_named reference srv then field "id" srv else None) = None ->
      let r := scan_model reference l w in
      Forall is_lookup (log r) /\
      replays w (log r) (world r) /\
      ((result r = Ret None /\
        Forall (fun s => is_object s = true) (srv :: l) /\
        (lookups (log r)).*1
          = named_ids reference (srv :: leading_objects l) /\
        Forall fruitless (log r)) \/
       (result r = Raise AttributeError /\
        ~ Forall (fun s => is_object s = true) (srv :: l) /\
        (lookups (log r)).*1
          = named_ids reference (srv :: leading_objects l) /\
        Forall fruitless (log r)) \/
       (exists v pre i a,
          result r = Ret (Some v) /\ log r = pre ++ [GetServer i a] /\
          usable a = Some v /\ Forall fruitless pre /\
          (lookups (log r)).*1
            `prefix_of` named_ids reference (srv :: leading_objects l)))).
    { intros Hn. cbv zeta. rewrite (Hskip Hn).
      destruct (IH w) as (Hlk & Hrp & Hcase).
      split; [exact Hlk|]. split; [exact Hrp|].
      destruct Hcase as [(Hr & Hall & Hids & Hfr)
                        |[(Hr & Hall & Hids & Hfr)|Hhit]].
      - left. repeat split; auto.
      - right. left. repeat split; auto.
        intros HF. apply Forall_cons in HF as [_ HF]. auto.
      - right. right. exact Hhit. }
    destruct (is_named reference srv) eqn:Hn; [|exact (Hpass eq_refl)].
    destruct (field "id" srv) as [i|] eqn:Hi; [|exact (Hpass eq_refl)].
    assert (Hids : named_ids reference (srv :: leading_objects l)
                   = i :: named_ids reference (leading_objects l)).
    { rewrite named_ids_cons, Hn, Hi. reflexivity. }
    rewrite Hids.
    destruct (usable (http_server i w).1) as [v|] eqn:Hu.
    + cbn [result world log fst snd].
      split; [repeat constructor; unfold is_lookup; eauto|].
      split; [cbn; auto|].
      right. right. exists v, [], i, (http_server i w).1.
      split; [reflexivity|]. split; [reflexivity|].
      split; [exact Hu|]. split; [constructor|].
      cbn. apply prefix_cons, prefix_nil.
    + destruct (IH (http_server i w).2) as (Hlk & Hrp & Hcase).
      unfold after. cbn [result world log fst snd].
      split; [constructor; [unfold is_lookup; eauto | exact Hlk]|].
      split; [cbn; auto|].
      destruct Hcase as [(Hr & Hall & Hl & Hfr)
                        |[(Hr & Hall & Hl & Hfr)|Hhit]].
      * left. repeat split; auto.
        -- cbn. f_equal. exact Hl.
        -- constructor; [exact Hu | exact Hfr].
      * right. left. repeat split; auto.
        -- intros HF. apply Forall_cons in HF as [_ HF]. auto.
        -- cbn. f_equal. exact Hl.
        -- constructor; [exact Hu | exact Hfr].
      * right. right.
        destruct Hhit as (v & pre & j & b & Hr & Hlog & Hb & Hfr & Hpre).
        exists v, (GetServer i (http_server i w).1 :: pre), j, b.
        split; [exact Hr|].
        split; [cbn [app]; rewrite Hlog; reflexivity|].
        split; [exact Hb|].
        split; [constructor; [exact Hu | exact Hfr]|].
        cbn. apply prefix_cons. exact Hpre.
Qed.


Lemma scan_by_name_skip reference srv l i w :
  is_named reference srv = true ->
  field "id" srv = Some i ->
  usable (http_server i w).1 = None ->
  scan_by_name reference (srv :: l) w =
    after [GetServer i (http_server i w).1]
      (scan_by_name reference l (http_server i w).2).
Proof.
  intros Hn Hi Hu. rewrite !scan_by_name_run.
  cbn [Spec.scan_model].
  assert (Ho : is_object srv = true).
  { destruct srv; try discriminate Hi. reflexivity. }
  rewrite Ho, Hn, Hi, Hu. reflexivity.
Qed.

Lemma scan_by_name_no_id reference srv l w :
  is_named reference srv = true ->
  field "id" srv = None ->
  scan_by_name reference (srv :: l) w = scan_by_name reference l w.
Proof.
  intros Hn Hi. rewrite !scan_by_name_run.
  cbn [Spec.scan_model].
  assert (Ho : is_object srv = true).
  { unfold is_named, field in Hn. destruct srv; try discriminate Hn.
    reflexivity. }
  rewrite Ho, Hn, Hi. reflexivity.
Qed.

End FindFacts.


(** C9, as amended: a detail lookup that fails never ends
    [find_server_by_reference]: when the direct lookup raises or comes back
    empty the search goes on with the exact-name scan; in the scan an entry
    whose details cannot be fetched, or that has no identifier, is passed
    over and the scan goes on with the rest.  An exception reaches the
    caller only from the listing call itself, or from the loop over the
    listing it returned: [TypeError] when the value under [servers] cannot
    be iterated over, [AttributeError] when an entry is not an object.  On
    a listing made of objects the call returns. *)
Theorem find_server_by_reference_lookup_failures (W : Type)
  (http_servers : option Z -> option string -> W -> answer pyval * W)
  (http_server : pyval -> W -> answer pyval * W)
  (reference : string) (w : W) :
  let find := Registry.find_server_by_reference W http_servers http_server in
  let scan := Registry.scan_by_name W http_server in
  let w0 := if Registry.looks_like_id reference
            then (http_server (PStr reference) w).2 else w in
  let listed := Registry.list_servers W http_servers (Some 100%Z) None w0 in
  (forall e,
     result (find reference w) = Raise e ->
     result listed = Raise e \/
     exists servers cursor,
       result listed = Ret (servers, cursor) /\
       match Spec.items servers with
       | None => e = TypeError
       | Some l =>
           e = AttributeError /\
           ~ Forall (fun s => Spec.is_object s = true) l
       end) /\
  (forall c, result (find reference w) <> Exit c) /\
  (forall servers cursor l,
     result listed = Ret (servers, cursor) ->
     Spec.items servers = Some l ->
     Forall (fun s => Spec.is_object s = true) l ->
     exists v, result (find reference w) = Ret v) /\
  (Registry.looks_like_id reference = true ->
   Spec.usable (http_server (PStr reference) w).1 = None ->
   find reference w =
     Spec.after
       [Registry.GetServer (PStr reference) (http_server (PStr reference) w).1]
       (Registry.exact_name_match W http_servers http_server reference
          (http_server (PStr reference) w).2)) /\
  (forall srv l i w',
     Spec.is_named reference srv = true ->
     Spec.field "id" srv = Some i ->
     Spec.usable (http_server i w').1 = None ->
     scan reference (srv :: l) w' =
       Spec.after [Registry.GetServer i (http_server i w').1]
         (scan reference l (http_server i w').2)) /\
  (forall srv l w',
     Spec.is_named reference srv = true ->
     Spec.field "id" srv = None ->
     scan reference (srv :: l) w' = scan reference l w') /\
  (forall l w',
     Forall (fun s => Spec.is_object s = true) l ->
     exists v, result (scan reference l w') = Ret v) /\
  (forall l w' e,
     result (scan reference l w') = Raise e ->
     e = AttributeError /\ ~ Forall (fun s => Spec.is_object s = true) l).
Proof.
  intros find scan w0 listed. subst find scan listed.
  assert (Hscan_ret : forall l w',
    Forall (fun s => Spec.is_object s = true) l ->
    exists v, result (Registry.scan_by_name W http_server reference l w')
              = Ret v).
  { intros l w' Hall. rewrite scan_by_name_run.
    destruct (scan_model_cases W http_servers http_server reference l w')
      as (_ & _ & [(Hr & _)|[(_ & Hn & _)|(v & _ & _ & _ & Hr & _)]]).
    - eauto.
    - contradiction.
    - eauto. }
  assert (Hscan_raise : forall l w' e,
    result (Registry.scan_by_name W http_server reference l w') = Raise e ->
    e = AttributeError /\ ~ Forall (fun s => Spec.is_object s = true) l).
  { intros l w' e. rewrite scan_by_name_run.
    destruct (scan_model_cases W http_servers http_server reference l w')
      as (_ & _ & [(Hr & _)|[(Hr & Hn & _)|(v & _ & _ & _ & Hr & _)]]);
      rewrite Hr; intros [=]; subst; auto. }
  assert (Hscan_exit : forall l w' c,
    result (Registry.scan_by_name W http_server reference l w') <> Exit c).
  { intros l w' c. rewrite scan_by_name_run.
    destruct (scan_model_cases W http_servers http_server reference l w')
      as (_ & _ & [(Hr & _)|[(Hr & Hn & _)|(v & _ & _ & _ & Hr & _)]]);
      rewrite Hr; intros [=]. }
  assert (Hlisting : forall w1,
    let listed := Registry.list_servers W http_servers (Some 100%Z) None w1 in
    let r := Registry.exact_name_match W http_servers http_server
               reference w1 in
    (forall e,
       result r = Raise e ->
       result listed = Raise e \/
       exists servers cursor,
         result listed = Ret (servers, cursor) /\
         match Spec.items servers with
         | None => e = TypeError
         | Some l =>
             e = AttributeError /\
             ~ Forall (fun s => Spec.is_object s = true) l
         end) /\
    (forall c, result r <> Exit c) /\
    (forall servers cursor l,
       result listed = Ret (servers, cursor) ->
       Spec.items servers = Some l ->
       Forall (fun s => Spec.is_object s = true) l ->
       exists v, result r = Ret v)).
  { intros w1. cbv zeta.
    rewrite exact_name_match_run, list_servers_run.
    cbn [result fst].
    destruct (http_servers (Some 100%Z) None w1) as [[data|e0] w2];
      cbn [fst snd].
    2:{ cbn. repeat split; try (intros; discriminate).
        intros e [= ->]. left. reflexivity. }
    unfold Spec.entries.
    destruct data as [| | | | |d];
      try (cbn; repeat split; try (intros; discriminate);
           intros e [= <-]; left; reflexivity).
    destruct (default (PDict []) (dict_get "metadata" d)) as [| | | | |m];
      try (cbn; repeat split; try (intros; discriminate);
           intros e [= <-]; left; reflexivity).
    destruct (Spec.items (default (PList []) (dict_get "servers" d)))
      as [l|] eqn:Hitems.
    - rewrite <- scan_by_name_run. unfold Spec.after.
      cbn [result world log fst snd].
      split; [|split].
      + intros e He. right. eexists _, _. split; [reflexivity|].
        rewrite Hitems. exact (Hscan_raise _ _ _ He).
      + apply Hscan_exit.
      + intros servers cursor l' [= <- _] Hl' Hall.
        rewrite Hitems in Hl'. injection Hl' as <-.
        exact (Hscan_ret _ _ Hall).
    - cbn [result fst]. split; [|split].
      + intros e [= <-]. right. eexists _, _. split; [reflexivity|].
        rewrite Hitems. reflexivity.
      + intros c [=].
      + intros servers cursor l' [= <- _] Hl'. congruence. }
  assert (Hfall :
    Registry.looks_like_id reference = true ->
    Spec.usable (http_server (PStr reference) w).1 = None ->
    Registry.find_server_by_reference W http_servers http_server reference w =
      Spec.after
        [Registry.GetServer (PStr reference)
           (http_server (PStr reference) w).1]
        (Registry.exact_name_match W http_servers http_server reference
           (http_server (PStr reference) w).2)).
  { intros Hl Hu. rewrite find_server_by_reference_run, Hl, Hu. reflexivity. }
  assert (Hcases :
    (forall e,
       result (Registry.find_server_by_reference W http_servers http_server
                 reference w) = Raise e ->
       result (Registry.list_servers W http_servers (Some 100%Z) None w0)
         = Raise e \/
       exists servers cursor,
         result (Registry.list_servers W http_servers (Some 100%Z) None w0)
           = Ret (servers, cursor) /\
         match Spec.items servers with
         | None => e = TypeError
         | Some l =>
             e = AttributeError /\
             ~ Forall (fun s => Spec.is_object s = true) l
         end) /\
    (forall c,
       result (Registry.find_server_by_reference W http_servers http_server
                 reference w) <> Exit c) /\
    (forall servers cursor l,
       result (Registry.list_servers W http_servers (Some 100%Z) None w0)
         = Ret (servers, cursor) ->
       Spec.items servers = Some l ->
       Forall (fun s => Spec.is_object s = true) l ->
       exists v,
         result (Registry.find_server_by_reference W http_servers
                   http_server reference w) = Ret v)).
  { subst w0. rewrite find_server_by_reference_run.
    destruct (Registry.looks_like_id reference).
    - destruct (Spec.usable (http_server (PStr reference) w).1) as [v0|].
      + cbn [result fst]. split; [intros e [=]|].
        split; [intros c [=] | eauto].
      + unfold Spec.after. cbn [result fst].
        apply Hlisting.
    - apply Hlisting. }
  destruct Hcases as (H1 & H2 & H3).
  split; [exact H1|]. split; [exact H2|]. split; [exact H3|].
  split; [exact Hfall|].
  split; [intros srv l i w'; apply scan_by_name_skip|].
  split; [intros srv l w'; apply scan_by_name_no_id|].
  split; [exact Hscan_ret | exact Hscan_raise].
Qed.

(** C9 as stated fails on a listing with nothing under [servers], or with
    an entry that is not an object: the listing call returns, and the loop
    over what it returned raises [TypeError], or [AttributeError], which
    reaches the caller. *)
Lemma find_server_by_reference_listing_counterexample :
  result (Registry.list_servers unit Examples.null_servers (Some 100%Z) None tt)
    = Ret (PNone, PNone) /\
  result (Registry.find_server_by_reference unit Examples.null_servers
            Examples.static_server "Alpha" tt) = Raise TypeError /\
  ~ Spec.only_listing_failure_escapes unit Examples.null_servers
      Examples.static_server "Alpha" tt /\
  result (Registry.list_servers unit Examples.odd_servers (Some 100%Z) None tt)
    = Ret (PList [Examples.alpha; PStr "beta"], PNone) /\
  result (Registry.find_server_by_reference unit Examples.odd_servers
            Examples.static_server "beta" tt) = Raise AttributeError /\
  ~ Spec.only_listing_failure_escapes unit Examples.odd_servers
      Examples.static_server "beta" tt.
Proof.
  split; [reflexivity|]. split; [reflexivity|].
  split; [intros H; specialize (H TypeError eq_refl); discriminate H|].
  split; [reflexivity|]. split; [reflexivity|].
  intros H. specialize (H AttributeError eq_refl). discriminate H.
Qed.

(** The lookups on a small registry that never changes. *)
Example find_by_name_example :
  Registry.find_server_by_reference unit Examples.static_servers
    Examples.static_server "Alpha" tt =
    (Ret (Some Examples.alpha), tt,
     [Registry.GetServers (Some 100%Z) None (Ok Examples.page);
      Registry.GetServer (PStr "1") (Ok Examples.alpha)]).
Proof. reflexivity. Qed.

Example find_by_id_example :
  Registry.find_server_by_reference unit Examples.static_servers
    Examples.static_server Examples.id_like tt =
    (Ret None, tt,
     [Registry.GetServer (PStr Examples.id_like) (Failed RequestException);
      Registry.GetServers (Some 100%Z) None (Ok Examples.page)]).
Proof. reflexivity. Qed.

Example find_skips_failed_details_example :
  Registry.find_server_by_reference unit Examples.static_servers
    Examples.static_server "beta" tt =
    (Ret None, tt,
     [Registry.GetServers (Some 100%Z) None (Ok Examples.page);
      Registry.GetServer (PStr "2") (Failed RequestException)]).
Proof. reflexivity. Qed.

Example find_listing_failure_example :
  Registry.find_server_by_reference unit Examples.broken_servers
    Examples.static_server "Alpha" tt =
    (Raise RequestException, tt,
     [Registry.GetServers (Some 100%Z) None (Failed RequestException)]).
Proof. reflexivity. Qed.

(* ===================================================================== *)
(** * Properties of the command line driver *)
(* ===================================================================== *)

Section SplitFacts.
Import Spec.

Lemma append_nil_l s : EmptyString +:+ s = s.
Proof. reflexivity. Qed.

Lemma append_cons a s t : String a s +:+ t = String a (s +:+ t).
Proof. reflexivity. Qed.

Lemma count_app c a b : count c (a +:+ b) = count c a + count c b.
Proof.
  induction a as [|x a IH]; [reflexivity|].
  rewrite append_cons. cbn [count]. rewrite IH. lia.
Qed.

Lemma str_in_char c s :
  str_in (String c EmptyString) s = true <-> count c s <> 0.
Proof.
  induction s as [|a s IH]; cbn [str_in count].
  - cbn. split; [intros [=] | intros H; contradiction].
  - rewrite orb_true_iff, IH. cbn.
    destruct (Ascii.ascii_dec c a) as [->|Hca].
    + rewrite Ascii.eqb_refl. split; [intros _; cbn; lia|].
      intros _. left. destruct s; reflexivity.
    + assert (Ascii.eqb a c = false) as ->
        by (apply Ascii.eqb_neq; congruence).
      cbn. split; [intros [[=]|H]; exact H | intros H; right; exact H].
Qed.

Lemma split1_at c name value :
  count c name = 0 ->
  split1 c (name +:+ String c value) = [name; value].
Proof.
  induction name as [|a name IH]; intros Hc.
  - rewrite append_nil_l. cbn. rewrite Ascii.eqb_refl. reflexivity.
  - rewrite append_cons. cbn [split1]. cbn [count] in Hc.
    destruct (Ascii.eqb a c); [discriminate Hc|].
    rewrite (IH Hc). reflexivity.
Qed.

Lemma first_occurrence c s :
  count c s <> 0 ->
  exists name value, s = name +:+ String c value /\ count c name = 0.
Proof.
  induction s as [|a s IH]; cbn; intros Hc; [contradiction|].
  destruct (Ascii.eqb a c) eqn:Hac.
  - apply Ascii.eqb_eq in Hac as ->. exists EmptyString, s.
    split; reflexivity.
  - destruct (IH Hc) as (name & value & -> & Hn).
    exists (String a name), value. cbn [count]. rewrite Hac.
    split; [reflexivity|exact Hn].
Qed.

Lemma splits_at_unique p n v n' v' :
  splits_at p n v -> splits_at p n' v' -> n = n' /\ v = v'.
Proof.
  intros [-> Hn] [Heq Hn'].
  pose proof (split1_at "=" n v Hn) as H1.
  rewrite Heq, (split1_at "=" n' v' Hn') in H1.
  injection H1 as -> ->. split; reflexivity.
Qed.

Lemma token_pair_spec p n v :
  token_pair p = Some (n, v) <-> splits_at p n v.
Proof.
  unfold token_pair. split.
  - destruct (str_in "=" p) eqn:Hin; [|intros [=]].
    apply str_in_char, first_occurrence in Hin as (n' & v' & -> & Hn').
    rewrite (split1_at _ _ _ Hn'). intros [= <- <-]. split; [reflexivity|exact Hn'].
  - intros [-> Hn].
    assert (str_in "=" (n +:+ String "="%char v) = true) as ->.
    { apply str_in_char. rewrite count_app. cbn. lia. }
    rewrite (split1_at _ _ _ Hn). reflexivity.
Qed.

Lemma token_pair_none p :
  token_pair p = None <-> str_in "=" p = false.
Proof.
  unfold token_pair. destruct (str_in "=" p) eqn:Hin; [|tauto].
  apply str_in_char, first_occurrence in Hin as (n' & v' & -> & Hn').
  rewrite (split1_at _ _ _ Hn'). split; intros [=].
Qed.

End SplitFacts.

Section DictFacts.
Context {V : Type}.

Lemma dict_get_set (k k' : string) (v : V) (d : dict V) :
  dict_get k (dict_set k' v d) =
    if String.eqb k' k then Some v else dict_get k d.
Proof.
  induction d as [|[k0 v0] d IH]; cbn [dict_set dict_get]; [reflexivity|].
  destruct (String.eqb_spec k0 k') as [->|Hk0]; cbn [dict_get].
  - destruct (String.eqb k' k); reflexivity.
  - rewrite IH. destruct (String.eqb_spec k0 k) as [->|Hk]; [|reflexivity].
    destruct (String.eqb_spec k' k) as [->|_]; [contradiction|reflexivity].
Qed.

End DictFacts.

Section ParamFacts.
Import Cli Spec.
Variable W : Type.

Lemma collect_cons p param params :
  collect (p :: param) params =
    collect param (match token_pair p with
                   | Some (name, value) => dict_set name value params
                   | None => params
                   end).
Proof. reflexivity. Qed.

Lemma omap_cons {A B} (f : A -> option B) x l :
  omap f (x :: l) =
    match f x with
    | Some y => y :: omap f l
    | None => omap f l
    end.
Proof. reflexivity. Qed.

Lemma parse_params_run param params w :
  parse_params W param params w =
    (Ret (collect param params), w, param_echo <$> omap token_pair param).
Proof.
  revert params. induction param as [|p param IH]; intros params;
    [reflexivity|].
  cbn [parse_params]. rewrite collect_cons, omap_cons.
  destruct (str_in "=" p) eqn:Hin.
  - apply str_in_char, first_occurrence in Hin as (n & v & -> & Hn).
    rewrite (split1_at _ _ _ Hn).
    rewrite (proj2 (token_pair_spec _ n v) (conj eq_refl Hn)).
    unfold bind, rich_echo, tell. rewrite IH. reflexivity.
  - rewrite (proj2 (token_pair_none p) Hin). apply IH.
Qed.

Lemma snoc_split {A} (pre post l : list A) (x y : A) :
  pre ++ x :: post = l ++ [y] ->
  (post = [] /\ pre = l /\ x = y) \/
  (exists post', post = post' ++ [y] /\ l = pre ++ x :: post').
Proof.
  destruct post as [|z post _] using rev_ind; intros H.
  - left. apply app_inj_tail in H as [-> ->]. auto.
  - right. exists post.
    rewrite app_comm_cons, app_assoc in H.
    apply app_inj_tail in H as [<- ->]. auto.
Qed.

(** A name is bound to the value of the last token that carries it. *)
Lemma collect_lookup param name value :
  dict_get name (collect param []) = Some value <->
  exists pre p post,
    param = pre ++ p :: post /\ splits_at p name value /\
    forall q value', q ∈ post -> ~ splits_at q name value'.
Proof.
  revert value. induction param as [|p param IH] using rev_ind; intros value.
  - cbn. split; [intros [=]|]. intros (pre & p & post & H & _).
    destruct pre; discriminate H.
  - unfold collect in *. rewrite fold_left_app. cbn [fold_left].
    destruct (token_pair p) as [[n v]|] eqn:Hp.
    + apply token_pair_spec in Hp. rewrite dict_get_set.
      destruct (String.eqb_spec n name) as [->|Hn].
      * split.
        -- intros [= ->]. exists param, p, []. split; [reflexivity|].
           split; [exact Hp|]. intros q v' Hq. inversion Hq.
        -- intros (pre & p' & post & Heq & Hsp & Hlast).
           symmetry in Heq; apply snoc_split in Heq as [(-> & -> & ->)|(post' & -> & ->)].
           ++ destruct (splits_at_unique _ _ _ _ _ Hp Hsp) as [_ ->].
              reflexivity.
           ++ exfalso. apply (Hlast p v); [|exact Hp].
              apply elem_of_app. right. apply list_elem_of_singleton.
              reflexivity.
      * rewrite IH. split.
        -- intros (pre & p' & post & -> & Hsp & Hlast).
           exists pre, p', (post ++ [p]). rewrite <- app_assoc.
           split; [reflexivity|]. split; [exact Hsp|].
           intros q v' Hq Hq'. apply elem_of_app in Hq as [Hq|Hq].
           ++ exact (Hlast q v' Hq Hq').
           ++ apply list_elem_of_singleton in Hq as ->.
              destruct (splits_at_unique _ _ _ _ _ Hp Hq') as [-> _].
              contradiction.
        -- intros (pre & p' & post & Heq & Hsp & Hlast).
           symmetry in Heq; apply snoc_split in Heq as [(-> & -> & ->)|(post' & -> & ->)].
           ++ destruct (splits_at_unique _ _ _ _ _ Hp Hsp) as [-> _].
              contradiction.
           ++ exists pre, p', post'. split; [reflexivity|].
              split; [exact Hsp|]. intros q v' Hq.
              apply Hlast, elem_of_app. left. exact Hq.
    + rewrite IH. split.
      * intros (pre & p' & post & -> & Hsp & Hlast).
        exists pre, p', (post ++ [p]). rewrite <- app_assoc.
        split; [reflexivity|]. split; [exact Hsp|].
        intros q v' Hq Hq'. apply elem_of_app in Hq as [Hq|Hq].
        -- exact (Hlast q v' Hq Hq').
        -- apply list_elem_of_singleton in Hq as ->.
           apply token_pair_spec in Hq'. congruence.
      * intros (pre & p' & post & Heq & Hsp & Hlast).
        symmetry in Heq; apply snoc_split in Heq as [(-> & -> & ->)|(post' & -> & ->)].
        -- apply token_pair_spec in Hsp. congruence.
        -- exists pre, p', post'. split; [reflexivity|].
           split; [exact Hsp|]. intros q v' Hq.
           apply Hlast, elem_of_app. left. exact Hq.
Qed.

Lemma collect_ignores param params :
  collect (List.filter (str_in "=") param) params = collect param params.
Proof.
  revert params. induction param as [|p param IH]; intros params;
    [reflexivity|].
  cbn [List.filter]. destruct (str_in "=" p) eqn:Hin.
  - rewrite !collect_cons. apply IH.
  - rewrite collect_cons, IH. apply token_pair_none in Hin.
    rewrite Hin. reflexivity.
Qed.

Lemma echo_ignores param :
  omap token_pair (List.filter (str_in "=") param) = omap token_pair param.
Proof.
  induction param as [|p param IH]; [reflexivity|].
  cbn [List.filter]. rewrite (omap_cons _ p param).
  destruct (str_in "=" p) eqn:Hin.
  - rewrite omap_cons, IH. reflexivity.
  - apply token_pair_none in Hin. rewrite Hin. exact IH.
Qed.

End ParamFacts.

(** C8: the parameter loop of [run] and [preview] never fails and leaves
    the outside world alone; a token with an equals sign is split at its
    first one into a name and a value (which may hold more of them); a
    token without one changes nothing, as if it had not been given; and a
    name is bound to the value of the last token that carries it. *)
Theorem parse_params_last_wins (W : Type) (param : list string) (w : W) :
  exists params,
    Cli.parse_params W param [] w =
      (Ret params, w, Spec.param_echo <$> omap Spec.token_pair param) /\
    (forall p, p ∈ param ->
       (str_in "=" p = true <-> exists name value, Spec.splits_at p name value)
       /\ (forall name value,
             Spec.token_pair p = Some (name, value)
             <-> Spec.splits_at p name value)) /\
    Cli.parse_params W (List.filter (str_in "=") param) [] w =
      Cli.parse_params W param [] w /\
    (forall name value,
       dict_get name params = Some value <->
       exists pre p post,
         param = pre ++ p :: post /\ Spec.splits_at p name value /\
         forall q value', q ∈ post -> ~ Spec.splits_at q name value').
Proof.
  exists (Spec.collect param []). split; [apply parse_params_run|].
  split; [|split].
  - intros p _. split; [|apply token_pair_spec].
    split.
    + intros Hin. apply str_in_char, first_occurrence in Hin
        as (n & v & -> & Hn). exists n, v. split; [reflexivity|exact Hn].
    + intros (n & v & -> & _). apply str_in_char.
      rewrite count_app. cbn. lia.
  - rewrite !parse_params_run, collect_ignores, echo_ignores. reflexivity.
  - apply collect_lookup.
Qed.

Section InstallFacts.
Import Cli Spec.
Variable W : Type.
Variable awd_yml : manifest_file.
Variable rich : rich_mode.
Variable create_package_manager : W -> answer unit * W.
Variable install_package : string -> pyval -> W -> answer pyval * W.

Local Abbreviation replies := (Spec.replies W install_package).

Lemma install_one_run dep w :
  install_one W install_package dep w =
    (Ret tt, (install_package "vscode" dep w).2,
     attempt dep (install_package "vscode" dep w).1).
Proof.
  unfold install_one, bind, try_except, call, rich_info, rich_echo, tell.
  destruct (install_package "vscode" dep w) as [[r|e] w1]; cbn;
    [|reflexivity].
  unfold reports_success, attempt, report, succeeded.
  destruct r as [| | | | |d]; cbn; try reflexivity.
  - destruct b; reflexivity.
  - destruct (n =? 0)%Z; reflexivity.
  - destruct (String.eqb s ""); reflexivity.
  - destruct l; reflexivity.
  - destruct d as [|kv d]; [reflexivity|].
    destruct (dict_get "success" (kv :: d)) as [v|]; [|reflexivity].
    destruct (truthy v); reflexivity.
Qed.

Lemma install_each_run deps w :
  install_each W install_package deps w =
    (Ret tt, (replies deps w).2,
     concat (zip_with attempt deps (replies deps w).1)).
Proof.
  revert w. induction deps as [|dep deps IH]; intros w; [reflexivity|].
  cbn [install_each Spec.replies]. unfold bind.
  rewrite install_one_run.
  destruct (install_package "vscode" dep w) as [a w1]. cbn [fst snd].
  rewrite IH. destruct (replies deps w1) as [l w2]. reflexivity.
Qed.

Lemma replies_length deps w : length (replies deps w).1 = length deps.
Proof.
  revert w. induction deps as [|dep deps IH]; intros w; [reflexivity|].
  cbn [Spec.replies]. destruct (install_package "vscode" dep w) as [a w1].
  specialize (IH w1). destruct (replies deps w1) as [l w2].
  cbn in *. rewrite IH. reflexivity.
Qed.

Lemma installs_attempts deps (l : list (answer pyval)) :
  installs (concat (zip_with attempt deps l)) = zip deps l.
Proof.
  revert l. induction deps as [|dep deps IH]; intros [|a l]; try reflexivity.
  cbn [zip_with concat]. unfold installs in *.
  change (attempt dep a ++ concat (zip_with attempt deps l))
    with (attempt dep a ++ concat (zip_with attempt deps l)).
  unfold attempt at 1. cbn [app]. rewrite !omap_cons.
  rewrite IH. destruct a as [[]|]; cbn; try reflexivity;
    repeat match goal with
           | |- context [if ?b then _ else _] => destruct b
           end; reflexivity.
Qed.

(** The whole run of [install] on a manifest that declares a batch, with
    the installer at hand. *)
Lemma install_run deps w :
  declares awd_yml deps ->
  (create_package_manager w).1 = Ok tt ->
  install W awd_yml rich true create_package_manager install_package w =
    (Ret tt, (replies deps (create_package_manager w).2).2,
     install_header rich deps
     ++ [CreatePackageManager (Ok tt)]
     ++ concat (zip_with attempt deps
                  (replies deps (create_package_manager w).2).1)
     ++ install_footer).
Proof.
  intros (config & dd & -> & Hdeps & Hmcp & Hne) Hcreate.
  destruct deps as [|d0 deps']; [contradiction|].
  set (deps := d0 :: deps') in *.
  assert (Hshow : show_dependencies W rich deps w =
            (Ret tt, w,
             match rich with
             | Rich true => [Table ((fun dep => [Lit "gear"; Val dep]) <$> deps)]
             | _ => (fun dep => Line [Lit "  - "; Val dep]) <$> deps
             end)).
  { unfold show_dependencies. destruct rich as [|[]]; reflexivity. }
  unfold install.
  cbv beta iota delta
    [try_except try_except_import bind ret raise call tell rich_info
     rich_echo rich_warning rich_success rich_blank_line load_yaml py_get
     py_len py_iter manifest_exists negb default from_option id].
  rewrite Hdeps. cbv beta iota. rewrite Hmcp. cbv beta iota.
  change (truthy (PList deps)) with true. cbv beta iota.
  rewrite Hshow.
  destruct (create_package_manager w) as [c w1]. cbn [fst snd] in *.
  subst c. cbv beta iota delta [of_answer].
  rewrite install_each_run.
  unfold install_header, install_footer.
  f_equal.
Qed.

End InstallFacts.

(** C1, as amended: on a manifest that declares a batch of MCP
    dependencies, with the installer at hand, [install] calls the installer
    once for every dependency, in the order of the manifest, whatever the
    calls before answered; a failure is reported for its entry and the loop
    goes on; the log holds one report line per entry, success or warning;
    and the command returns normally, so its exit status is 0 whether or
    not an entry failed. *)
Theorem install_attempts_every_dependency (W : Type)
  (awd_yml : Cli.manifest_file) (rich : Cli.rich_mode)
  (create_package_manager : W -> answer unit * W)
  (install_package : string -> pyval -> W -> answer pyval * W)
  (deps : list pyval) (w : W) :
  Spec.declares awd_yml deps ->
  (create_package_manager w).1 = Ok tt ->
  let r := Cli.install W awd_yml rich true create_package_manager
             install_package w in
  let rs := Spec.replies W install_package deps
              (create_package_manager w).2 in
  result r = Ret tt /\
  exit_status (result r) = 0%Z /\
  world r = rs.2 /\
  length rs.1 = length deps /\
  Spec.installs (log r) = zip deps rs.1 /\
  log r = Spec.install_header rich deps
          ++ [Cli.CreatePackageManager (Ok tt)]
          ++ concat (zip_with Spec.attempt deps rs.1)
          ++ Spec.install_footer.
Proof.
  intros Hdecl Hcreate r rs. subst r rs.
  rewrite (install_run W awd_yml rich _ _ deps w Hdecl Hcreate).
  cbn [result world log fst snd].
  repeat apply conj; try reflexivity.
  { apply replies_length. }
  unfold Spec.installs. rewrite !omap_app.
  fold (Spec.installs (concat (zip_with Spec.attempt deps
          (Spec.replies W install_package deps
             (create_package_manager w).2).1))).
  rewrite installs_attempts.
  assert (Hh : forall l,
    omap (fun e => match e with
                   | Cli.InstallPackage _ dep a => Some (dep, a)
                   | _ => None
                   end) (Spec.install_header rich l) = []).
  { intros l. unfold Spec.install_header. rewrite omap_app.
    destruct rich as [|[]]; cbn; try reflexivity;
      induction l as [|x l IH]; cbn in *; auto. }
  rewrite Hh. cbn. rewrite app_nil_r. reflexivity.
Qed.

Lemma install_attempts_every_dependency_witness :
  Spec.installs (log Examples.abc_install) =
    [(PStr "a", Ok (PDict [("success", PBool true)]));
     (PStr "b", Failed (OtherException "boom"));
     (PStr "c", Ok (PDict [("success", PBool true)]))] /\
  exit_status (result Examples.abc_install) = 0%Z.
Proof.
  assert (Hd : Spec.declares Examples.abc_manifest
                 [PStr "a"; PStr "b"; PStr "c"]).
  { eexists _, _. split; [reflexivity|]. split; [reflexivity|].
    split; [reflexivity|intros [=]]. }
  destruct (install_attempts_every_dependency unit Examples.abc_manifest
              Cli.NoRich Examples.create_ok Examples.b_fails _ tt Hd eq_refl)
    as (_ & Hexit & _ & _ & Hcalls & _).
  split; [exact Hcalls | exact Hexit].
Defined.

(** C1 as stated fails on its own example: with the batch a, b, c and an
    installer that raises on b, the report shows a and c installed and b
    failed, and the exit status is 0. *)
Lemma install_exit_status_counterexample :
  Spec.reported_installed (log Examples.abc_install) = [PStr "a"; PStr "c"] /\
  Spec.reported_failed (log Examples.abc_install) = [PStr "b"] /\
  ~ Spec.exit_reflects_failures Examples.abc_install.
Proof.
  split; [reflexivity|]. split; [reflexivity|].
  intros H. apply H; [|reflexivity].
  exists (PStr "b"), (OtherException "boom").
  apply list_elem_of_In. vm_compute.
  repeat (try (left; reflexivity); right).
Qed.

Section RunFacts.
Import Cli Spec.
Variable W : Type.
Variable awd_yml : manifest_file.
Variable rich : rich_mode.
Variable runner_importable : bool.
Variable run_script : string -> dict string -> W -> answer bool * W.







End RunFacts.




Example parse_params_example :
  result (Cli.parse_params unit ["a=1"; "junk"; "b=x"; "a=2=3"] [] tt)
  = Ret [("a", "2=3"); ("b", "x")].
Proof. reflexivity. Qed.

Section RunUnresolved.
Import Cli Spec.
Variable W : Type.
Variable awd_yml : manifest_file.
Variable rich : rich_mode.
Variable runner_importable : bool.
Variable run_script : string -> dict string -> W -> answer bool * W.

Ltac crunch :=
  repeat (cbv beta iota;
          match goal with
          | |- context [match ?x with _ => _ end] =>
              lazymatch x with
              | dict_get _ _ => destruct x
              | dict_mem _ _ => destruct x
              | existsb _ _ => destruct x
              | str_in _ _ => destruct x
              | negb _ => destruct x
              | _ => is_var x; destruct x
              end
          end);
  cbv beta iota.

Lemma get_default_script_pure w :
  exists o, get_default_script W awd_yml w = (o, w, []) /\
            (o = Ret (Some "start") \/ o = Ret None \/ exists e, o = Raise e).
Proof.
  unfold get_default_script, load_awd_config, manifest_exists, load_yaml,
    py_contains, py_getitem.
  cbv beta iota delta [bind ret raise].
  destruct awd_yml as [|e|config]; cbn [truthy];
    try (eexists; split; [reflexivity|eauto]).
  destruct config; cbn [truthy]; crunch;
    eexists; (split; [reflexivity|eauto]).
Qed.

Lemma list_available_scripts_pure w :
  exists o, list_available_scripts W awd_yml w = (o, w, []) /\
            forall c, o <> Exit c.
Proof.
  unfold list_available_scripts, load_awd_config, manifest_exists, load_yaml,
    py_contains, py_getitem.
  cbv beta iota delta [bind ret raise].
  destruct awd_yml as [|e|config]; cbn [truthy];
    try (eexists; split; [reflexivity|intros c [=]]).
  destruct config; cbn [truthy]; crunch;
    eexists; (split; [reflexivity|intros c' [=]]).
Qed.

Lemma script_lines_quiet (d : dict pyval) :
  List.filter is_run_script (script_line <$> d) = [].
Proof. induction d as [|kv d IH]; [reflexivity|exact IH]. Qed.

Lemma show_scripts_quiet v w :
  exists o l, show_scripts W rich v w = (o, w, l) /\
              List.filter is_run_script l = [] /\
              forall c, o <> Exit c.
Proof.
  unfold show_scripts, echo_scripts, py_items.
  cbv beta iota delta [try_except bind ret raise tell tell_all].
  destruct rich as [|[]]; destruct v; cbn [app];
    do 2 eexists; (split; [reflexivity|]);
    (split; [try reflexivity; rewrite ?app_nil_r; apply script_lines_quiet
            | intros c' [=]]).
Qed.

(** Whatever the manifest holds, well formed or not: when no name is
    given and [start] is not resolved, [run] exits with status 1 and calls
    no script runner. *)
Lemma run_unresolved_never_runs script_name param w :
  no_name script_name = true ->
  (get_default_script W awd_yml w).1.1 <> Ret (Some "start") ->
  exit_status (result (run W awd_yml rich runner_importable run_script
                         script_name param w)) = 1%Z /\
  List.filter is_run_script
    (log (run W awd_yml rich runner_importable run_script
            script_name param w)) = [].
Proof.
  intros Hn Hd.
  remember (run W awd_yml rich runner_importable run_script
              script_name param w) as r eqn:Hr.
  unfold run, resolve_name in Hr. rewrite Hn in Hr.
  unfold try_except at 1 in Hr. do 2 unfold bind at 1 in Hr.
  destruct (get_default_script_pure w) as (o & Ho & Hcase).
  rewrite Ho in Hr, Hd. cbn [fst] in Hd.
  destruct Hcase as [->|[->|[e ->]]]; [contradiction| |].
  - cbv beta iota delta [bind rich_error rich_info rich_echo tell] in Hr.
    destruct (list_available_scripts_pure w) as (o1 & Ho1 & Hexit1).
    rewrite Ho1 in Hr.
    destruct o1 as [v|e|c]; [| |destruct (Hexit1 c eq_refl)].
    + destruct (show_scripts_quiet v w) as (o2 & l2 & Ho2 & Hl2 & Hexit2).
      rewrite Ho2 in Hr.
      destruct o2 as [[]|e|c]; [| |destruct (Hexit2 c eq_refl)];
        cbv beta iota delta [sys_exit bind rich_error rich_echo tell] in Hr;
        subst r; cbn [result log fst snd exit_status app];
        (split; [reflexivity|]);
        cbn [List.filter is_run_script];
        rewrite ?app_nil_r, ?List.filter_app, ?Hl2; reflexivity.
    + cbv beta iota delta [sys_exit bind rich_error rich_echo tell] in Hr.
      subst r. split; reflexivity.
  - cbv beta iota delta [sys_exit bind rich_error rich_echo tell] in Hr.
    subst r. split; reflexivity.
Qed.

End RunUnresolved.
(* ===================================================================== *)
(** * Further properties of the registry client *)
(* ===================================================================== *)

Section SearchMore.
Import Registry Spec RegistrySpec.
Variable W : Type.
Variable http_servers : option Z -> option string -> W -> answer pyval * W.

Lemma raises_on_b_spec query srv :
  raises_on_b query srv = true <-> raises_on query srv.
Proof.
  unfold raises_on_b, raises_on.
  destruct (field_text "name" srv) as [n|]; [|tauto].
  rewrite andb_true_iff, negb_true_iff.
  destruct (field_text "description" srv); split; intros [H1 H2];
    try discriminate H2; auto.
Qed.

Lemma query_matches_outcome query srv w :
  query_matches W query srv w =
    (if raises_on_b query srv then Raise AttributeError
     else Ret (matches query srv), w, []).
Proof.
  unfold query_matches, raises_on_b, matches, name_of, description_of,
    field_text, bind, py_get, py_lower, ret, raise.
  destruct srv as [| | | | |d]; try reflexivity.
  destruct (dict_get "name" d) as [[]|]; cbn [default from_option id];
    try reflexivity;
    (destruct (str_in (lower query) _); cbn [negb andb orb];
     [reflexivity|]);
    destruct (dict_get "description" d) as [[]|];
    cbn [default from_option id]; reflexivity.
Qed.

Lemma keep_matching_outcome query l w :
  keep_matching W query l w =
    (if existsb (raises_on_b query) l then Raise AttributeError
     else Ret (List.filter (matches query) l), w, []).
Proof.
  induction l as [|srv l IH]; [reflexivity|].
  cbn [keep_matching existsb List.filter]. unfold bind.
  rewrite query_matches_outcome, IH.
  destruct (raises_on_b query srv); [reflexivity|].
  destruct (existsb (raises_on_b query) l); [reflexivity|].
  destruct (matches query srv); reflexivity.
Qed.

Lemma search_servers_outcome query w :
  search_servers W http_servers query w =
    match http_servers (Some 100%Z) None w with
    | (Ok data, w1) =>
        (match entries data with
         | Ok page =>
             if existsb (raises_on_b query) page then Raise AttributeError
             else Ret (List.filter (matches query) page)
         | Failed e => Raise e
         end, w1, [GetServers (Some 100%Z) None (Ok data)])
    | (Failed e, w1) =>
        (Raise e, w1, [GetServers (Some 100%Z) None (Failed e)])
    end.
Proof.
  rewrite search_servers_read.
  destruct (http_servers (Some 100%Z) None w) as [[data|e] w1];
    [|reflexivity].
  destruct (entries data) as [page|e]; [|reflexivity].
  rewrite keep_matching_outcome. reflexivity.
Qed.

Lemma lower_app a b : lower (a +:+ b) = lower a +:+ lower b.
Proof.
  induction a as [|c a IH]; [reflexivity|].
  rewrite append_cons. cbn [lower]. rewrite IH, append_cons. reflexivity.
Qed.

Lemma append_assoc (a b c : string) : (a +:+ b) +:+ c = a +:+ (b +:+ c).
Proof.
  induction a as [|x a IH]; [reflexivity|].
  rewrite !append_cons, IH. reflexivity.
Qed.

Lemma substring_trans x y z :
  substring x y -> substring y z -> substring x z.
Proof.
  intros (p1 & s1 & ->) (p2 & s2 & ->).
  exists (p2 +:+ p1), (s1 +:+ s2). rewrite !append_assoc. reflexivity.
Qed.

Lemma lower_char_idem c : lower_char (lower_char c) = lower_char c.
Proof.
  destruct c as [[] [] [] [] [] [] [] []]; vm_compute; reflexivity.
Qed.

Lemma lower_idem s : lower (lower s) = lower s.
Proof.
  induction s as [|c s IH]; [reflexivity|].
  cbn [lower]. rewrite lower_char_idem, IH. reflexivity.
Qed.

Lemma matches_mono q1 q2 srv :
  contains_ci q1 q2 -> matches q2 srv = true -> matches q1 srv = true.
Proof.
  unfold contains_ci. intros Hq. rewrite !matches_spec. unfold contains_ci.
  intros [H|H]; [left|right]; exact (substring_trans _ _ _ Hq H).
Qed.

Lemma filter_sublist_mono {A} (f g : A -> bool) (l : list A) :
  (forall x, f x = true -> g x = true) ->
  sublist (List.filter f l) (List.filter g l).
Proof.
  intros Hfg. induction l as [|x l IH]; cbn; [constructor|].
  destruct (f x) eqn:Hf.
  - rewrite (Hfg x Hf). constructor. exact IH.
  - destruct (g x); [constructor|]; exact IH.
Qed.

End SearchMore.

(** X1: given a listing, [search_servers] sends one request.  When the
    body cannot be read it raises what reading it raises.  Otherwise it
    raises [AttributeError] exactly when some entry of the page is not an
    object, or has a name that is present and not a string, or has a name
    that does not hold the query and a description that is present and not
    a string; and otherwise it returns the filtered page. *)
Theorem search_servers_malformed_entry (W : Type)
  (http_servers : option Z -> option string -> W -> answer pyval * W)
  (query : string) (w w1 : W) (data : pyval) :
  http_servers (Some 100%Z) None w = (Ok data, w1) ->
  let r := Registry.search_servers W http_servers query w in
  match Spec.entries data with
  | Ok page =>
      (result r = Raise AttributeError <->
         Exists (RegistrySpec.raises_on query) page) /\
      (result r = Ret (List.filter (Spec.matches query) page) <->
         ~ Exists (RegistrySpec.raises_on query) page)
  | Failed e => result r = Raise e
  end /\
  world r = w1 /\
  log r = [Registry.GetServers (Some 100%Z) None (Ok data)].
Proof.
  intros Hpage r. subst r.
  rewrite search_servers_outcome, Hpage.
  cbn [result world log fst snd].
  split; [|split; reflexivity].
  destruct (Spec.entries data) as [page|e]; [|reflexivity].
  assert (Hex : existsb (RegistrySpec.raises_on_b query) page = true <->
                Exists (RegistrySpec.raises_on query) page).
  { rewrite existsb_exists, Exists_exists. split.
    - intros (srv & Hin & Hr). exists srv. split.
      + apply list_elem_of_In. exact Hin.
      + apply raises_on_b_spec. exact Hr.
    - intros (srv & Hin & Hr). exists srv. split.
      + apply list_elem_of_In. exact Hin.
      + apply raises_on_b_spec. exact Hr. }
  destruct (existsb _ _).
  - repeat apply conj; try reflexivity.
    + intros _. apply Hex. reflexivity.
    + intros [=].
    + intros Hn. exfalso. apply Hn, Hex. reflexivity.
  - repeat apply conj; try reflexivity.
    + intros [=].
    + intros H. apply Hex in H. discriminate H.
    + intros _ H. apply Hex in H. discriminate H.
Qed.

Lemma search_servers_malformed_entry_witness :
  result (Registry.search_servers unit Examples.bad_servers "a" tt)
  = Raise AttributeError.
Proof.
  destruct (search_servers_malformed_entry unit Examples.bad_servers
              "a" tt tt Examples.bad_page eq_refl) as [[H _] _].
  apply H.
  apply Exists_cons. right. apply Exists_cons. left. exact I.
Defined.

(** X2: a longer query never finds more: when [q1] occurs in [q2], case
    ignored, every entry that [search_servers] returns for [q2] is returned
    for [q1], in the same order. *)
Theorem search_servers_narrows (W : Type)
  (http_servers : option Z -> option string -> W -> answer pyval * W)
  (q1 q2 : string) (w w1 : W) (data : pyval) (page : list pyval) :
  http_servers (Some 100%Z) None w = (Ok data, w1) ->
  Spec.entries data = Ok page ->
  Forall Spec.well_formed page ->
  Spec.contains_ci q1 q2 ->
  exists found1 found2,
    result (Registry.search_servers W http_servers q1 w) = Ret found1 /\
    result (Registry.search_servers W http_servers q2 w) = Ret found2 /\
    sublist found2 found1.
Proof.
  intros Hpage Hread Hwf Hq.
  exists (List.filter (Spec.matches q1) page),
         (List.filter (Spec.matches q2) page).
  rewrite !search_servers_read, Hpage, Hread.
  rewrite !(keep_matching_run W _ _ w1 Hwf). cbn.
  repeat apply conj; try reflexivity.
  apply filter_sublist_mono. intros srv. apply matches_mono. exact Hq.
Qed.

Lemma search_servers_narrows_witness :
  exists found1 found2,
    result (Registry.search_servers unit Examples.static_servers "al" tt)
      = Ret found1 /\
    result (Registry.search_servers unit Examples.static_servers "ALPHA" tt)
      = Ret found2 /\
    sublist found2 found1.
Proof.
  apply (search_servers_narrows unit Examples.static_servers "al" "ALPHA"
           tt tt Examples.page [Examples.alpha; Examples.beta]
           eq_refl eq_refl).
  - repeat constructor; eexists; reflexivity.
  - exists "", "pha". reflexivity.
Defined.

(** X3: the case of the query does not matter: [search_servers] gives the
    same outcome, world and log for a query and for its lower-case form. *)
Theorem search_servers_query_case (W : Type)
  (http_servers : option Z -> option string -> W -> answer pyval * W)
  (query : string) (w : W) :
  Registry.search_servers W http_servers (lower query) w =
  Registry.search_servers W http_servers query w.
Proof.
  rewrite !search_servers_outcome.
  destruct (http_servers (Some 100%Z) None w) as [[data|e] w1];
    [|reflexivity].
  destruct (Spec.entries data) as [page|e]; [|reflexivity].
  assert (Hr : forall srv, RegistrySpec.raises_on_b (lower query) srv
                           = RegistrySpec.raises_on_b query srv).
  { intros srv. unfold RegistrySpec.raises_on_b. rewrite lower_idem.
    reflexivity. }
  assert (Hm : forall srv, Spec.matches (lower query) srv
                           = Spec.matches query srv).
  { intros srv. unfold Spec.matches. rewrite lower_idem. reflexivity. }
  assert (He : forall l, existsb (RegistrySpec.raises_on_b (lower query)) l
                         = existsb (RegistrySpec.raises_on_b query) l).
  { induction l as [|srv l IH]; [reflexivity|].
    cbn [existsb]. rewrite Hr, IH. reflexivity. }
  assert (Hf : forall l, List.filter (Spec.matches (lower query)) l
                         = List.filter (Spec.matches query) l).
  { induction l as [|srv l IH]; [reflexivity|].
    cbn [List.filter]. rewrite Hm, IH. reflexivity. }
  rewrite He, Hf. reflexivity.
Qed.

Section ByName.
Import Registry Spec RegistrySpec.
Variable W : Type.
Variable http_servers : option Z -> option string -> W -> answer pyval * W.
Variable http_server : pyval -> W -> answer pyval * W.

Lemma first_named_pass name srv l w :
  other_name name srv ->
  first_named W http_server name (srv :: l) w =
  first_named W http_server name l w.
Proof.
  intros [Ho Hn]. cbn [first_named]. unfold bind at 1.
  rewrite name_is_run, Ho, Hn.
  destruct (first_named W http_server name l w) as [[o w1] lg].
  reflexivity.
Qed.

Lemma first_named_skip name pre l w :
  Forall (other_name name) pre ->
  first_named W http_server name (pre ++ l) w =
  first_named W http_server name l w.
Proof.
  induction 1 as [|s pre Hs _ IH]; [reflexivity|].
  cbn [app]. rewrite (first_named_pass _ _ _ _ Hs). exact IH.
Qed.

Lemma is_named_object name srv :
  is_named name srv = true -> is_object srv = true.
Proof.
  unfold is_named, field. destruct srv; try (intros [=]). reflexivity.
Qed.

Lemma first_named_hit name srv l w :
  is_named name srv = true ->
  first_named W http_server name (srv :: l) w =
    match field "id" srv with
    | None => (Raise (KeyError "id"), w, [])
    | Some i =>
        (match (http_server i w).1 with
         | Ok info => if truthy info then Ret (Some info)
                      else Raise (ValueError "not found in registry")
         | Failed e => Raise e
         end, (http_server i w).2, [GetServer i (http_server i w).1])
    end.
Proof.
  intros Hn. pose proof (is_named_object _ _ Hn) as Ho.
  cbn [first_named]. unfold bind at 1.
  rewrite name_is_run, Ho, Hn.
  unfold bind. rewrite (details_of_run W http_server _ _ Ho).
  destruct (field "id" srv) as [i|]; [|reflexivity].
  rewrite get_server_info_run.
  destruct (http_server i w) as [[v|e] w1]; cbn; [|reflexivity].
  destruct (truthy v); reflexivity.
Qed.

Lemma first_named_none name l w :
  result (first_named W http_server name l w) = Ret None <->
  Forall (other_name name) l.
Proof.
  induction l as [|srv l IH].
  - split; [constructor | reflexivity].
  - destruct (is_object srv) eqn:Ho.
    2:{ cbn [first_named]. unfold bind at 1. rewrite name_is_run, Ho.
        split; [intros [=]|]. intros HF.
        apply Forall_cons in HF as [[HF _] _]. congruence. }
    destruct (is_named name srv) eqn:Hn.
    + rewrite (first_named_hit _ _ _ _ Hn). split.
      * destruct (field "id" srv) as [i|]; cbn; [|intros [=]].
        destruct (http_server i w) as [[v|e] w1]; cbn; [|intros [=]].
        destruct (truthy v); intros [=].
      * intros HF. apply Forall_cons in HF as [[_ HF] _]. congruence.
    + rewrite (first_named_pass name srv l w (conj Ho Hn)), IH. split.
      * intros HF. constructor; [split|]; assumption.
      * intros HF. apply Forall_cons in HF as [_ HF]. exact HF.
Qed.

Lemma first_named_quiet name l w :
  Forall (other_name name) l ->
  first_named W http_server name l w = (Ret None, w, []).
Proof.
  induction 1 as [|s l Hs _ IH]; [reflexivity|].
  rewrite (first_named_pass _ _ _ _ Hs). exact IH.
Qed.

Lemma get_server_by_name_run name w :
  get_server_by_name W http_servers http_server name w =
    match http_servers (Some 100%Z) None w with
    | (Ok data, w1) =>
        match entries data with
        | Ok l =>
            after [GetServers (Some 100%Z) None (Ok data)]
              (first_named W http_server name l w1)
        | Failed e =>
            (Raise e, w1, [GetServers (Some 100%Z) None (Ok data)])
        end
    | (Failed e, w1) =>
        (Raise e, w1, [GetServers (Some 100%Z) None (Failed e)])
    end.
Proof.
  apply (over_listing_run W http_servers (first_named W http_server name)).
Qed.

Lemma scan_by_name_first_named name l w v :
  result (first_named W http_server name l w) = Ret v ->
  scan_by_name W http_server name l w = first_named W http_server name l w.
Proof.
  revert w. induction l as [|srv l IH]; intros w; [reflexivity|].
  destruct (is_object srv) eqn:Ho.
  2:{ cbn [first_named]. unfold bind at 1. rewrite name_is_run, Ho.
      intros [=]. }
  destruct (is_named name srv) eqn:Hn.
  - rewrite (first_named_hit _ _ _ _ Hn).
    rewrite scan_by_name_run. cbn [scan_model]. rewrite Ho, Hn.
    destruct (field "id" srv) as [i|]; [|intros [=]].
    unfold usable.
    destruct (http_server i w) as [[info|e] w1]; cbn; [|intros [=]].
    destruct (truthy info); [|intros [=]]. reflexivity.
  - rewrite (first_named_pass name srv l w (conj Ho Hn)).
    intros Hr. rewrite <- (IH w Hr).
    rewrite !scan_by_name_run. cbn [scan_model]. rewrite Ho, Hn.
    reflexivity.
Qed.

End ByName.

(** X4: [get_server_by_name] settles on the first entry of the listing that
    bears the name and on nothing after it: without an [id] the entry gives
    [KeyError]; otherwise one detail lookup is made and its outcome is the
    outcome of the call, a failed or empty lookup included. *)
Theorem get_server_by_name_first_match (W : Type)
  (http_servers : option Z -> option string -> W -> answer pyval * W)
  (http_server : pyval -> W -> answer pyval * W)
  (name : string) (w w1 : W) (data : pyval)
  (pre post : list pyval) (srv : pyval) :
  http_servers (Some 100%Z) None w = (Ok data, w1) ->
  Spec.entries data = Ok (pre ++ srv :: post) ->
  Forall (RegistrySpec.other_name name) pre ->
  Spec.is_named name srv = true ->
  let listed := Registry.GetServers (Some 100%Z) None (Ok data) in
  Registry.get_server_by_name W http_servers http_server name w =
    match Spec.field "id" srv with
    | None => (Raise (KeyError "id"), w1, [listed])
    | Some i =>
        (match (http_server i w1).1 with
         | Ok info => if truthy info then Ret (Some info)
                      else Raise (ValueError "not found in registry")
         | Failed e => Raise e
         end, (http_server i w1).2,
         [listed; Registry.GetServer i (http_server i w1).1])
    end.
Proof.
  intros Hpage Hsplit Hpre Hn listed. subst listed.
  rewrite get_server_by_name_run, Hpage, Hsplit.
  rewrite (first_named_skip _ _ _ _ _ _ Hpre).
  rewrite (first_named_hit _ _ _ _ _ _ Hn).
  destruct (Spec.field "id" srv); reflexivity.
Qed.

Lemma get_server_by_name_first_match_witness :
  Registry.get_server_by_name unit Examples.static_servers
    Examples.static_server "beta" tt =
  (Raise RequestException, tt,
   [Registry.GetServers (Some 100%Z) None (Ok Examples.page);
    Registry.GetServer (PStr "2") (Failed RequestException)]).
Proof.
  apply (get_server_by_name_first_match unit Examples.static_servers
           Examples.static_server "beta" tt tt Examples.page
           [Examples.alpha] [] Examples.beta eq_refl eq_refl).
  - repeat constructor.
  - reflexivity.
Defined.

(** X5: once the listing is fetched, [get_server_by_name] raises what
    reading the body raises when the body cannot be read; otherwise it
    returns [None] exactly when every entry of the page is an object that
    does not bear the name, and then it has sent the listing request and
    nothing else. *)
Theorem get_server_by_name_absent (W : Type)
  (http_servers : option Z -> option string -> W -> answer pyval * W)
  (http_server : pyval -> W -> answer pyval * W)
  (name : string) (w w1 : W) (data : pyval) :
  http_servers (Some 100%Z) None w = (Ok data, w1) ->
  let r := Registry.get_server_by_name W http_servers http_server name w in
  let listed := Registry.GetServers (Some 100%Z) None (Ok data) in
  match Spec.entries data with
  | Ok page =>
      let unnamed := Forall (RegistrySpec.other_name name) page in
      (result r = Ret None <-> unnamed) /\
      (unnamed -> r = (Ret None, w1, [listed]))
  | Failed e => r = (Raise e, w1, [listed])
  end.
Proof.
  intros Hpage r listed. subst r listed.
  rewrite get_server_by_name_run, Hpage.
  destruct (Spec.entries data) as [page|e]; [|reflexivity].
  cbv zeta. split.
  - unfold Spec.after. cbn [result fst]. apply first_named_none.
  - intros HF. rewrite (first_named_quiet _ _ _ _ _ HF). reflexivity.
Qed.

Lemma get_server_by_name_absent_witness :
  result (Registry.get_server_by_name unit Examples.static_servers
            Examples.static_server "gamma" tt) = Ret None.
Proof.
  destruct (get_server_by_name_absent unit Examples.static_servers
              Examples.static_server "gamma" tt tt Examples.page eq_refl)
    as [H _].
  apply H. repeat constructor.
Defined.

(** X6: for a reference that does not have the shape of an identifier,
    whenever [get_server_by_name] returns, [find_server_by_reference]
    returns the same value after the same requests. *)
Theorem find_server_by_reference_agrees_with_by_name (W : Type)
  (http_servers : option Z -> option string -> W -> answer pyval * W)
  (http_server : pyval -> W -> answer pyval * W)
  (name : string) (w : W) (v : option pyval) :
  Registry.looks_like_id name = false ->
  result (Registry.get_server_by_name W http_servers http_server name w)
    = Ret v ->
  Registry.find_server_by_reference W http_servers http_server name w =
  Registry.get_server_by_name W http_servers http_server name w.
Proof.
  intros Hid. rewrite find_server_by_reference_run, Hid.
  rewrite exact_name_match_run, get_server_by_name_run.
  destruct (http_servers (Some 100%Z) None w) as [[data|e] w1];
    [|reflexivity].
  destruct (Spec.entries data) as [page|e]; [|reflexivity].
  unfold Spec.after. cbn [result fst]. intros Hr.
  rewrite <- scan_by_name_run.
  rewrite (scan_by_name_first_named _ _ _ _ _ _ Hr). reflexivity.
Qed.

Lemma find_server_by_reference_agrees_with_by_name_witness :
  Registry.find_server_by_reference unit Examples.static_servers
    Examples.static_server "Alpha" tt =
  Registry.get_server_by_name unit Examples.static_servers
    Examples.static_server "Alpha" tt.
Proof.
  apply (find_server_by_reference_agrees_with_by_name unit
           Examples.static_servers Examples.static_server "Alpha" tt
           (Some Examples.alpha) eq_refl eq_refl).
Defined.

(** X7: only the first page of the registry is ever read: two registries
    that answer the request for a hundred entries without a cursor alike
    give the same outcome, world and requests in [search_servers],
    [get_server_by_name] and [find_server_by_reference], whatever their
    other pages hold. *)
Theorem registry_reads_first_page_only (W : Type)
  (http_servers http_servers' : option Z -> option string -> W
                                -> answer pyval * W)
  (http_server : pyval -> W -> answer pyval * W)
  (s : string) (w : W) :
  (forall w', http_servers (Some 100%Z) None w'
              = http_servers' (Some 100%Z) None w') ->
  Registry.search_servers W http_servers s w =
    Registry.search_servers W http_servers' s w /\
  Registry.get_server_by_name W http_servers http_server s w =
    Registry.get_server_by_name W http_servers' http_server s w /\
  Registry.find_server_by_reference W http_servers http_server s w =
    Registry.find_server_by_reference W http_servers' http_server s w.
Proof.
  intros Hsame. repeat apply conj.
  - rewrite !search_servers_outcome, Hsame. reflexivity.
  - rewrite !get_server_by_name_run, Hsame. reflexivity.
  - rewrite !find_server_by_reference_run, !exact_name_match_run, !Hsame.
    reflexivity.
Qed.

Lemma registry_reads_first_page_only_witness :
  Registry.search_servers unit RegistryExamples.paged_servers "gamma" tt =
    Registry.search_servers unit Examples.static_servers "gamma" tt /\
  Registry.get_server_by_name unit RegistryExamples.paged_servers
    Examples.static_server "gamma" tt =
    Registry.get_server_by_name unit Examples.static_servers
      Examples.static_server "gamma" tt /\
  Registry.find_server_by_reference unit RegistryExamples.paged_servers
    Examples.static_server "gamma" tt =
    Registry.find_server_by_reference unit Examples.static_servers
      Examples.static_server "gamma" tt.
Proof.
  apply (registry_reads_first_page_only unit RegistryExamples.paged_servers
           Examples.static_servers Examples.static_server "gamma" tt).
  intros w'. reflexivity.
Defined.

(* ===================================================================== *)
(** * Removing a runtime *)
(* ===================================================================== *)

Section RemoveFacts.
Import Runtime RuntimeOps ManagerSpec.
Variable dir : string.
Variable unlink rmtree : string -> host -> answer unit * host.

Lemma ask_path_exists p h :
  ask (fun h => path_exists h p) h = (Ret (present h p), h, [Asked (PExists p)]).
Proof. reflexivity. Qed.

Lemma ask_path_is_file p h :
  ask (fun h => path_is_file h p) h =
    (Ret (match fs h p with RegularFile _ => true | _ => false end), h,
     [Asked (PIsFile p)]).
Proof. reflexivity. Qed.

Lemma remove_binary_run p h :
  remove_binary unlink rmtree p h =
    match fs h p with
    | RegularFile _ =>
        (of_answer (unlink p h).1, (unlink p h).2,
         [Asked (PIsFile p); Unlink p (unlink p h).1])
    | Directory =>
        (of_answer (rmtree p h).1, (rmtree p h).2,
         [Asked (PIsFile p); IsDir p; Rmtree p (rmtree p h).1])
    | _ => (Ret tt, h, [Asked (PIsFile p); IsDir p])
    end.
Proof.
  unfold remove_binary, bind. rewrite ask_path_is_file.
  unfold path_is_dir, call, ret.
  destruct (fs h p) eqn:Hp; cbv beta iota; rewrite ?Hp; try reflexivity.
  - destruct (unlink p h) as [a h1]. reflexivity.
  - destruct (rmtree p h) as [a h1]. reflexivity.
Qed.

Lemma remove_venv_run name h :
  remove_venv dir rmtree name h =
    if String.eqb name "llm" then
      if present h (path_join dir "llm-venv") then
        (of_answer (rmtree (path_join dir "llm-venv") h).1,
         (rmtree (path_join dir "llm-venv") h).2,
         [Asked (PExists (path_join dir "llm-venv"));
          Rmtree (path_join dir "llm-venv")
            (rmtree (path_join dir "llm-venv") h).1])
      else (Ret tt, h, [Asked (PExists (path_join dir "llm-venv"))])
    else (Ret tt, h, []).
Proof.
  unfold remove_venv. destruct (String.eqb name "llm"); [|reflexivity].
  unfold bind. rewrite ask_path_exists.
  destruct (present h _); [|reflexivity].
  unfold call. destruct (rmtree _ h) as [a h1]. reflexivity.
Qed.

Lemma remove_runtime_unfold name h :
  remove_runtime dir unlink rmtree name h =
    match dict_get name supported_runtimes with
    | None =>
        (Ret false, h,
         [Echo true Red "cross" [Cli.Lit "Unknown runtime: "; Cli.Lit name]])
    | Some info =>
        let p := path_join dir (binary info) in
        if present h p then
          let r1 := remove_binary unlink rmtree p h in
          match result r1 with
          | Ret _ =>
              let r2 := remove_venv dir rmtree name (world r1) in
              match result r2 with
              | Ret _ =>
                  (Ret true, world r2,
                   Asked (PExists p) :: log r1 ++ log r2 ++
                   [Echo false Green "check"
                      [Cli.Lit "Successfully removed "; Cli.Lit name;
                       Cli.Lit " runtime"]])
              | Raise e =>
                  (Ret false, world r2,
                   Asked (PExists p) :: (log r1 ++ log r2) ++
                   [Echo true Red "cross"
                      [Cli.Lit "Failed to remove "; Cli.Lit name;
                       Cli.Lit ": "; Cli.Err e]])
              | Exit c =>
                  (Exit c, world r2, Asked (PExists p) :: log r1 ++ log r2)
              end
          | Raise e =>
              (Ret false, world r1,
               Asked (PExists p) :: log r1 ++
               [Echo true Red "cross"
                  [Cli.Lit "Failed to remove "; Cli.Lit name;
                   Cli.Lit ": "; Cli.Err e]])
          | Exit c => (Exit c, world r1, Asked (PExists p) :: log r1)
          end
        else
          (Ret false, h,
           [Asked (PExists p);
            Echo false Yellow "warning"
              [Cli.Lit "Runtime "; Cli.Lit name;
               Cli.Lit " is not installed in AWD runtime directory"]])
    end.
Proof.
  unfold remove_runtime.
  destruct (dict_get name supported_runtimes) as [info|]; [|reflexivity].
  cbv zeta. unfold bind at 1. rewrite ask_path_exists.
  destruct (present h (path_join dir (binary info))); cbn [negb];
    [|reflexivity].
  unfold try_except, bind at 1.
  destruct (remove_binary unlink rmtree (path_join dir (binary info)) h)
    as [[[u|e|c] h1] l1]; cbn [result world log fst snd]; try reflexivity.
  unfold bind at 1.
  destruct (remove_venv dir rmtree name h1) as [[[u2|e|c] h2] l2];
    cbn [result world log fst snd]; reflexivity.
Qed.

End RemoveFacts.

Lemma prefix_append_same (a x y : string) :
  String.prefix (a +:+ x) (a +:+ y) = String.prefix x y.
Proof.
  induction a as [|c a IH]; [reflexivity|].
  rewrite !append_cons. cbn [String.prefix].
  destruct (ascii_dec c c); [exact IH | congruence].
Qed.

Lemma venv_not_above_binary dir name info :
  dict_get name Runtime.supported_runtimes = Some info ->
  String.prefix (Runtime.path_join dir "llm-venv")
    (Runtime.path_join dir (Runtime.binary info)) = false.
Proof.
  intros Hs. unfold Runtime.path_join. rewrite prefix_append_same.
  destruct (supported_cases _ _ Hs) as [[_ ->]|[_ ->]]; vm_compute;
    reflexivity.
Qed.

Lemma managed_path_home (h h' : Runtime.host) info :
  Runtime.home h' = Runtime.home h ->
  Spec.managed_path h' info = Spec.managed_path h info.
Proof.
  intros Hh. unfold Spec.managed_path, Runtime.runtime_dir.
  rewrite Hh. reflexivity.
Qed.

(** X8: [remove_runtime] refuses a name it does not support and a runtime
    whose binary is not in the managed directory: it returns [False], the
    machine is as before and nothing was deleted. *)
Theorem remove_runtime_refuses (dir : string)
  (unlink rmtree : string -> Runtime.host -> answer unit * Runtime.host)
  (name : string) (h : Runtime.host) :
  (forall info,
     dict_get name Runtime.supported_runtimes = Some info ->
     Runtime.fs h (Runtime.path_join dir (Runtime.binary info))
       = Runtime.Absent) ->
  let r := RuntimeOps.remove_runtime dir unlink rmtree name h in
  result r = Ret false /\ world r = h /\
  ManagerSpec.deletions (log r) = [].
Proof.
  intros Habs r. subst r. rewrite remove_runtime_unfold.
  destruct (dict_get name Runtime.supported_runtimes) as [info|].
  - cbv zeta. unfold ManagerSpec.present. rewrite (Habs info eq_refl).
    repeat split.
  - repeat split.
Qed.

Lemma remove_runtime_refuses_witness :
  let r := RuntimeOps.remove_runtime "/home/u/.awd/runtimes"
             ManagerExamples.plain_unlink ManagerExamples.plain_rmtree
             "codex" (Examples.only_on_path ["codex"]) in
  result r = Ret false /\ world r = Examples.only_on_path ["codex"] /\
  ManagerSpec.deletions (log r) = [].
Proof.
  apply (remove_runtime_refuses "/home/u/.awd/runtimes"
           ManagerExamples.plain_unlink ManagerExamples.plain_rmtree
           "codex" (Examples.only_on_path ["codex"])).
  intros info _. reflexivity.
Defined.

(** The outcome of [remove_runtime], for its callers too. *)
Lemma remove_runtime_outcome (dir : string)
  (unlink rmtree : string -> Runtime.host -> answer unit * Runtime.host)
  (name : string) (h : Runtime.host) :
  let r := RuntimeOps.remove_runtime dir unlink rmtree name h in
  (exists b, result r = Ret b) /\
  (forall p a,
     (p, a) ∈ ManagerSpec.deletions (log r) ->
     exists info,
       dict_get name Runtime.supported_runtimes = Some info /\
       (p = Runtime.path_join dir (Runtime.binary info) \/
        (name = "llm" /\ p = Runtime.path_join dir "llm-venv"))) /\
  (result r = Ret true <->
     (exists info,
        dict_get name Runtime.supported_runtimes = Some info /\
        ManagerSpec.present h (Runtime.path_join dir (Runtime.binary info))
          = true) /\
     Forall (fun d => exists u, d.2 = Ok u)
       (ManagerSpec.deletions (log r))).
Proof.
  intros r. subst r. rewrite remove_runtime_unfold.
  destruct (dict_get name Runtime.supported_runtimes) as [info|];
    cbv zeta.
  2:{ cbn. split; [eauto|]. split.
      - intros p a Hin. apply elem_of_nil in Hin. destruct Hin.
      - split; [intros [=] | intros [(info & [=] & _) _]]. }
  destruct (ManagerSpec.present h _) eqn:Hp.
  2:{ cbn. split; [eauto|]. split.
      - intros p a Hin. apply elem_of_nil in Hin. destruct Hin.
      - split; [intros [=] | intros [(info' & [= <-] & Hp') _]].
        congruence. }
  rewrite remove_binary_run, remove_venv_run.
  set (p := Runtime.path_join dir (Runtime.binary info)) in *.
  set (v := Runtime.path_join dir "llm-venv").
  assert (Hllm : String.eqb name "llm" = true -> name = "llm").
  { apply String.eqb_eq. }
  destruct (Runtime.fs h p);
    [ | destruct (unlink p h) as [[u|e] h1]
      | destruct (rmtree p h) as [[u|e] h1] | ];
    cbn [of_answer result world log fst snd];
    try rewrite remove_venv_run;
    destruct (String.eqb name "llm");
    try match goal with
        | |- context [ManagerSpec.present ?h' v] =>
            destruct (ManagerSpec.present h' v);
            try destruct (rmtree v h') as [[u2|e2] h2]
        end;
    cbn [of_answer result world log fst snd app ManagerSpec.deletions];
    (split; [eauto|]);
    (split;
     [ intros p0 a0 Hin; exists info; split; [reflexivity|];
       repeat match goal with
              | H : _ ∈ _ :: _ |- _ => apply elem_of_cons in H as [H|H]
              | H : _ ∈ [] |- _ => apply elem_of_nil in H; destruct H
              | H : (_, _) = (_, _) |- _ => injection H as -> ->
              end; auto
     | split;
       [ intros Hr; try discriminate Hr;
         (split; [exists info; split; [reflexivity | exact Hp]|]);
         repeat constructor; cbn; eauto
       | intros [_ HF];
         repeat match goal with
                | H : Forall _ (_ :: _) |- _ =>
                    apply Forall_cons in H as [[? ?] H]
                end;
         cbn in *; try discriminate; reflexivity ] ]).
Qed.

(** X9: what [remove_runtime] deletes is the binary of the runtime in the
    managed directory and, for [llm], the directory [llm-venv] beside it,
    nothing else; and it returns [True] exactly when the runtime is
    supported, its binary was there, and no deletion it tried failed. *)
Theorem remove_runtime_deletes_only_managed (dir : string)
  (unlink rmtree : string -> Runtime.host -> answer unit * Runtime.host)
  (name : string) (h : Runtime.host) :
  let r := RuntimeOps.remove_runtime dir unlink rmtree name h in
  (forall p a,
     (p, a) ∈ ManagerSpec.deletions (log r) ->
     exists info,
       dict_get name Runtime.supported_runtimes = Some info /\
       (p = Runtime.path_join dir (Runtime.binary info) \/
        (name = "llm" /\ p = Runtime.path_join dir "llm-venv"))) /\
  (result r = Ret true <->
     (exists info,
        dict_get name Runtime.supported_runtimes = Some info /\
        ManagerSpec.present h (Runtime.path_join dir (Runtime.binary info))
          = true) /\
     Forall (fun d => exists u, d.2 = Ok u)
       (ManagerSpec.deletions (log r))).
Proof.
  exact (proj2 (remove_runtime_outcome dir unlink rmtree name h)).
Qed.

(** X10: with deletions that behave as the operating system's do, a
    removal that returns [True] of a binary that was a file or a directory
    leaves nothing at the managed path: [list_runtimes] afterwards reports
    the runtime as not installed, without a path, and
    [is_runtime_available] afterwards answers whether the binary is on the
    search path. *)
Theorem remove_runtime_then_not_installed
  (unlink rmtree : string -> Runtime.host -> answer unit * Runtime.host)
  (h : Runtime.host) (name : string) (info : Runtime.runtime_info) :
  ManagerSpec.well_behaved unlink rmtree ->
  dict_get name Runtime.supported_runtimes = Some info ->
  (exists x, Runtime.fs h (Spec.managed_path h info) = Runtime.RegularFile x)
  \/ Runtime.fs h (Spec.managed_path h info) = Runtime.Directory ->
  let r := RuntimeOps.remove_runtime (Runtime.runtime_dir h) unlink rmtree
             name h in
  result r = Ret true ->
  Runtime.fs (world r) (Spec.managed_path h info) = Runtime.Absent /\
  (exists st,
     Spec.listed (world r) name = Some st /\
     Runtime.installed st = false /\ Runtime.path st = None) /\
  Spec.available (world r) name =
    match Runtime.which (world r) (Runtime.binary info) with
    | Some _ => true
    | None => false
    end.
Proof.
  intros [Hur Hrr Hrl Huh Hrh] Hs Hkind r Hr.
  assert (Hgone : Runtime.fs (world r) (Spec.managed_path h info)
                  = Runtime.Absent /\
                  Runtime.home (world r) = Runtime.home h).
  { subst r. revert Hr. rewrite remove_runtime_unfold, Hs. cbv zeta.
    fold (Spec.managed_path h info).
    assert (Hpres : ManagerSpec.present h (Spec.managed_path h info) = true).
    { unfold ManagerSpec.present.
      destruct Hkind as [[x ->]| ->]; reflexivity. }
    rewrite Hpres, remove_binary_run, remove_venv_run.
    set (p := Spec.managed_path h info) in *.
    set (v := Runtime.path_join (Runtime.runtime_dir h) "llm-venv").
    assert (Hv : String.prefix v p = false).
    { exact (venv_not_above_binary _ _ _ Hs). }
    assert (Hfirst : forall a h1,
              (unlink p h = (a, h1) /\ exists x,
                 Runtime.fs h p = Runtime.RegularFile x) \/
              (rmtree p h = (a, h1) /\ Runtime.fs h p = Runtime.Directory) ->
              forall u, a = Ok u ->
              Runtime.fs h1 p = Runtime.Absent /\
              Runtime.home h1 = Runtime.home h).
    { intros a h1 [[Hd _]|[Hd _]] u ->.
      - split; [exact (Hur _ _ _ _ Hd) | exact (Huh _ _ _ _ Hd)].
      - split; [exact (Hrr _ _ _ _ Hd) | exact (Hrh _ _ _ _ Hd)]. }
    assert (Hsecond : forall h1 a h2,
              rmtree v h1 = (a, h2) ->
              Runtime.fs h2 p = Runtime.fs h1 p /\
              Runtime.home h2 = Runtime.home h1).
    { intros h1 a h2 Hd.
      split; [exact (Hrl _ _ _ _ _ Hd Hv) | exact (Hrh _ _ _ _ Hd)]. }
    destruct Hkind as [[x Hk]|Hk]; rewrite Hk.
    - destruct (unlink p h) as [[u|e] h1] eqn:Hd;
        cbn [of_answer result world log fst snd]; [|intros [=]].
      destruct (Hfirst (Ok u) h1 (or_introl (conj eq_refl (ex_intro _ x Hk)))
                  u eq_refl) as [Hf1 Hh1].
      destruct (String.eqb name "llm"); [|intros _; cbn [result world log fst snd]; split; assumption].
      destruct (ManagerSpec.present h1 v); [|intros _; cbn [result world log fst snd]; split; assumption].
      destruct (rmtree v h1) as [[u2|e2] h2] eqn:Hd2;
        cbn [of_answer result world log fst snd]; [|intros [=]].
      destruct (Hsecond _ _ _ Hd2) as [Hf2 Hh2]. intros _.
      cbn [result world log fst snd]. split; congruence.
    - destruct (rmtree p h) as [[u|e] h1] eqn:Hd;
        cbn [of_answer result world log fst snd]; [|intros [=]].
      destruct (Hfirst (Ok u) h1 (or_intror (conj eq_refl Hk)) u eq_refl)
        as [Hf1 Hh1].
      destruct (String.eqb name "llm"); [|intros _; cbn [result world log fst snd]; split; assumption].
      destruct (ManagerSpec.present h1 v); [|intros _; cbn [result world log fst snd]; split; assumption].
      destruct (rmtree v h1) as [[u2|e2] h2] eqn:Hd2;
        cbn [of_answer result world log fst snd]; [|intros [=]].
      destruct (Hsecond _ _ _ Hd2) as [Hf2 Hh2]. intros _.
      cbn [result world log fst snd]. split; congruence. }
  destruct Hgone as [Hgone Hhome].
  pose proof (managed_path_home h (world r) info Hhome) as Hmp.
  split; [exact Hgone|]. split.
  - destruct (listed_run (world r) name info Hs) as (ver & Hl).
    rewrite Hmp, Hgone in Hl. eexists. split; [exact Hl|].
    split; reflexivity.
  - rewrite (available_run (world r) name info Hs), Hmp, Hgone.
    reflexivity.
Qed.

Lemma prefix_refl (p : string) : String.prefix p p = true.
Proof.
  induction p as [|c p IH]; [reflexivity|]. cbn.
  destruct (ascii_dec c c); [exact IH | congruence].
Qed.

Lemma prefix_append_l (p x q : string) :
  String.prefix (p +:+ x) q = true -> String.prefix p q = true.
Proof.
  revert q. induction p as [|c p IH]; intros q; [destruct q; reflexivity|].
  rewrite append_cons. destruct q as [|d q]; cbn; [intros [=]|].
  destruct (ascii_dec c d); [apply IH | intros [=]].
Qed.

Lemma within_prefix (p q : string) :
  ManagerExamples.within p q = true -> String.prefix p q = true.
Proof.
  unfold ManagerExamples.within. rewrite orb_true_iff.
  intros [H|H].
  - apply String.eqb_eq in H. subst q. apply prefix_refl.
  - exact (prefix_append_l _ _ _ H).
Qed.

Lemma plain_deletions_well_behaved :
  ManagerSpec.well_behaved ManagerExamples.plain_unlink
    ManagerExamples.plain_rmtree.
Proof.
  split; unfold ManagerExamples.plain_unlink, ManagerExamples.plain_rmtree,
           ManagerExamples.without.
  - intros p h u h' [= <- <-]. cbn [Runtime.fs].
    rewrite String.eqb_refl. reflexivity.
  - intros p h u h' [= <- <-]. cbn [Runtime.fs].
    unfold ManagerExamples.within. rewrite String.eqb_refl. reflexivity.
  - intros p h a h' q [= <- <-] Hq. cbn [Runtime.fs].
    destruct (ManagerExamples.within p q) eqn:Hw; [|reflexivity].
    apply within_prefix in Hw. congruence.
  - intros p h a h' [= <- <-]. reflexivity.
  - intros p h a h' [= <- <-]. reflexivity.
Qed.

Lemma remove_runtime_then_not_installed_witness :
  let r := RuntimeOps.remove_runtime (Runtime.runtime_dir Examples.both_managed)
             ManagerExamples.plain_unlink ManagerExamples.plain_rmtree
             "llm" Examples.both_managed in
  Runtime.fs (world r) "/home/u/.awd/runtimes/llm" = Runtime.Absent /\
  (exists st,
     Spec.listed (world r) "llm" = Some st /\
     Runtime.installed st = false /\ Runtime.path st = None) /\
  Spec.available (world r) "llm" = false.
Proof.
  apply (remove_runtime_then_not_installed
           ManagerExamples.plain_unlink ManagerExamples.plain_rmtree
           Examples.both_managed "llm"
           {| Runtime.script := "setup-llm.sh";
              Runtime.description :=
                "Simon Willison's LLM library with multiple providers";
              Runtime.binary := "llm" |}
           plain_deletions_well_behaved eq_refl).
  - left. exists true. reflexivity.
  - reflexivity.
Defined.

(** X11: when the managed path of a supported runtime holds something that
    is neither a file nor a directory, and no [llm-venv] is to be removed,
    [remove_runtime] returns [True] although it deleted nothing and the
    machine is as before. *)
Theorem remove_runtime_special_entry (dir : string)
  (unlink rmtree : string -> Runtime.host -> answer unit * Runtime.host)
  (name : string) (info : Runtime.runtime_info) (h : Runtime.host) :
  dict_get name Runtime.supported_runtimes = Some info ->
  Runtime.fs h (Runtime.path_join dir (Runtime.binary info))
    = Runtime.OtherEntry ->
  (name = "llm" ->
   Runtime.fs h (Runtime.path_join dir "llm-venv") = Runtime.Absent) ->
  let r := RuntimeOps.remove_runtime dir unlink rmtree name h in
  result r = Ret true /\ world r = h /\
  ManagerSpec.deletions (log r) = [].
Proof.
  intros Hs Hk Hv r. subst r.
  assert (Hpres : ManagerSpec.present h
                    (Runtime.path_join dir (Runtime.binary info)) = true).
  { unfold ManagerSpec.present. rewrite Hk. reflexivity. }
  rewrite remove_runtime_unfold, Hs. cbv zeta.
  rewrite Hpres, remove_binary_run, Hk. cbn [result world log fst snd].
  rewrite remove_venv_run.
  destruct (String.eqb_spec name "llm") as [Hn|Hn].
  - unfold ManagerSpec.present. rewrite (Hv Hn). repeat split.
  - repeat split.
Qed.

Lemma remove_runtime_special_entry_witness :
  let r := RuntimeOps.remove_runtime "/home/u/.awd/runtimes"
             ManagerExamples.plain_unlink ManagerExamples.plain_rmtree
             "codex" ManagerExamples.codex_is_special in
  result r = Ret true /\ world r = ManagerExamples.codex_is_special /\
  ManagerSpec.deletions (log r) = [].
Proof.
  apply (remove_runtime_special_entry "/home/u/.awd/runtimes"
           ManagerExamples.plain_unlink ManagerExamples.plain_rmtree
           "codex"
           {| Runtime.script := "setup-codex.sh";
              Runtime.description :=
                "OpenAI Codex CLI with GitHub Models support";
              Runtime.binary := "codex" |}
           ManagerExamples.codex_is_special eq_refl eq_refl).
  intros [=].
Defined.

(* ===================================================================== *)
(** * Setting up a runtime *)
(* ===================================================================== *)

Section LogFacts.
Import Runtime RuntimeOps ManagerSpec.

Lemma reads_app l1 l2 : reads (l1 ++ l2) = reads l1 ++ reads l2.
Proof.
  induction l1 as [|e l1 IH]; [reflexivity|].
  destruct e; cbn; rewrite IH; reflexivity.
Qed.

Lemma reads_asked qs : reads (map Asked qs) = [].
Proof. induction qs as [|q qs IH]; [reflexivity | exact IH]. Qed.

Lemma bash_runs_app l1 l2 :
  bash_runs (l1 ++ l2) = bash_runs l1 ++ bash_runs l2.
Proof.
  induction l1 as [|e l1 IH]; [reflexivity|].
  destruct e; cbn; rewrite IH; reflexivity.
Qed.

Lemma bash_runs_quiet l :
  Forall (fun e => is_quiet e = true) l -> bash_runs l = [].
Proof.
  induction 1 as [|e l He _ IH]; [reflexivity|].
  destruct e; try discriminate He; exact IH.
Qed.

Lemma writes_app l1 l2 : writes (l1 ++ l2) = writes l1 ++ writes l2.
Proof.
  induction l1 as [|e l1 IH]; [reflexivity|].
  destruct e; cbn; rewrite IH; reflexivity.
Qed.

Lemma cleanups_app l1 l2 : cleanups (l1 ++ l2) = cleanups l1 ++ cleanups l2.
Proof.
  induction l1 as [|e l1 IH]; [reflexivity|].
  destruct e; cbn; rewrite IH; reflexivity.
Qed.

Lemma writes_quiet l :
  Forall (fun e => is_quiet e = true) l -> writes l = [].
Proof.
  induction 1 as [|e l He _ IH]; [reflexivity|].
  destruct e; try discriminate He; exact IH.
Qed.

Lemma cleanups_quiet l :
  Forall (fun e => is_quiet e = true) l -> cleanups l = [].
Proof.
  induction 1 as [|e l He _ IH]; [reflexivity|].
  destruct e; try discriminate He; exact IH.
Qed.

Lemma echo_quiet e : is_echo e = true -> is_quiet e = true.
Proof. destruct e; intros [=]; reflexivity. Qed.

Lemma echoes_quiet l :
  Forall (fun e => is_echo e = true) l ->
  Forall (fun e => is_quiet e = true) l.
Proof.
  intros H. eapply Forall_impl; [exact H | exact echo_quiet].
Qed.

Lemma reads_echo e : is_echo e = true -> reads [e] = [].
Proof. destruct e; intros [=]; reflexivity. Qed.

Lemma quiet_asked qs : Forall (fun e => is_quiet e = true) (map Asked qs).
Proof. induction qs; constructor; [reflexivity | assumption]. Qed.

Lemma last_two {A} (l : list A) (a b : A) : last (l ++ [a; b]) = Some b.
Proof.
  change [a; b] with ([a] ++ [b]). rewrite app_assoc. apply last_snoc.
Qed.

End LogFacts.

Section SetupLog.
Import Runtime RuntimeOps ManagerSpec.

Lemma reads_echoes l : Forall (fun e => is_echo e = true) l -> reads l = [].
Proof.
  induction 1 as [|e l He _ IH]; [reflexivity|].
  destruct e; try discriminate He; exact IH.
Qed.

Lemma setup_log e1 e2 fin l1 l2 l3 :
  is_echo e1 = true -> is_echo e2 = true -> is_echo fin = true ->
  Forall (fun e => is_quiet e = true) l1 ->
  Forall (fun e => is_quiet e = true) l2 ->
  let l := e1 :: e2 :: l1 ++ l2 ++ l3 ++ [fin] in
  bash_runs l = bash_runs l3 /\ cleanups l = cleanups l3 /\
  writes l = writes l3 /\ reads l = reads l1 ++ reads l2 ++ reads l3.
Proof.
  intros H1 H2 H3 Hq1 Hq2 l. subst l.
  assert (Hi : Forall (fun e => is_echo e = true) [e1; e2])
    by (repeat constructor; assumption).
  assert (Hf : Forall (fun e => is_echo e = true) [fin])
    by (repeat constructor; assumption).
  change (e1 :: e2 :: l1 ++ l2 ++ l3 ++ [fin])
    with ([e1; e2] ++ l1 ++ l2 ++ l3 ++ [fin]).
  rewrite !bash_runs_app, !cleanups_app, !writes_app, !reads_app.
  rewrite (bash_runs_quiet _ (echoes_quiet _ Hi)),
    (bash_runs_quiet _ (echoes_quiet _ Hf)),
    (bash_runs_quiet _ Hq1), (bash_runs_quiet _ Hq2).
  rewrite (cleanups_quiet _ (echoes_quiet _ Hi)),
    (cleanups_quiet _ (echoes_quiet _ Hf)),
    (cleanups_quiet _ Hq1), (cleanups_quiet _ Hq2).
  rewrite (writes_quiet _ (echoes_quiet _ Hi)),
    (writes_quiet _ (echoes_quiet _ Hf)),
    (writes_quiet _ Hq1), (writes_quiet _ Hq2).
  rewrite (reads_echoes _ Hi), (reads_echoes _ Hf).
  cbn [app]. rewrite !app_nil_r. repeat split.
Qed.

Lemma setup_log_short e1 e2 fin l :
  is_echo e1 = true -> is_echo e2 = true -> is_echo fin = true ->
  Forall (fun e => is_quiet e = true) l ->
  bash_runs (e1 :: e2 :: l ++ [fin]) = [].
Proof.
  intros H1 H2 H3 Hq. apply bash_runs_quiet.
  repeat constructor; try (apply echo_quiet; assumption).
  apply Forall_app. split; [assumption|].
  repeat constructor. apply echo_quiet. assumption.
Qed.

End SetupLog.

Ltac res_leaf :=
  try match goal with
      | |- context [?cleanup ?d ?h] =>
          match type of (cleanup d h) with
          | (answer unit * Runtime.host)%type =>
              destruct (cleanup d h) as [[[]|?] ?]
          end
      end;
  (cbn [of_answer result world log fst snd app ManagerSpec.bash_runs
       ManagerSpec.cleanups ManagerSpec.writes ManagerSpec.prep_failures
       ManagerSpec.reads last];
  (split; [|split; [|split; [|split; [|split]]]]);
  [ intros ? [=]
  | split;
    [ intros Hr; try discriminate Hr; do 2 eexists; split; reflexivity
    | intros (? & ? & Hb & Hc); try discriminate Hb; try discriminate Hc;
      try reflexivity; injection Hb as _ _ Hb; congruence ]
  | first [ left; reflexivity
          | right; do 3 eexists; split; [reflexivity|];
            split; reflexivity ]
  | first [ reflexivity | eexists; split; reflexivity ]
  | intros ?; split; intros [=]; subst; reflexivity
  | reflexivity ]).

Section SetupFacts.
Import Runtime RuntimeOps ManagerSpec.
Variable frozen : bool.
Variable meipass : option string.
Variable repo_root : string.
Variable read_text : string -> host -> answer string * host.
Variable mkdtemp : host -> answer string * host.
Variable cleanup : string -> host -> answer unit * host.
Variable write_text : string -> string -> host -> answer unit * host.
Variable chmod : string -> Z -> host -> answer unit * host.
Variable run_bash : list string -> string -> host -> answer Z * host.

Local Abbreviation get_embedded_script :=
  (RuntimeOps.get_embedded_script frozen meipass repo_root read_text).
Local Abbreviation run_embedded_script :=
  (RuntimeOps.run_embedded_script mkdtemp cleanup write_text chmod run_bash).
Local Abbreviation setup_runtime :=
  (RuntimeOps.setup_runtime frozen meipass repo_root read_text mkdtemp
     cleanup write_text chmod run_bash).
Local Abbreviation load_failed name e :=
  (Echo true Red "cross"
     [Cli.Lit "Failed to load embedded script "; Cli.Lit name;
      Cli.Lit ": "; Cli.Err e]).

(** What [get_embedded_script] comes to, by the file it settles on. *)
Lemma get_embedded_script_cases name h :
  exists qs : list probe,
    match script_location frozen meipass repo_root h name with
    | Some p =>
        get_embedded_script name h =
          (match (read_text p h).1 with
           | Ok t => Ret t
           | Failed _ => Raise (OtherException "RuntimeError")
           end, (read_text p h).2,
           map Asked qs ++ ReadText p (read_text p h).1 ::
           match (read_text p h).1 with
           | Ok _ => []
           | Failed e => [load_failed name e]
           end)
    | None =>
        exists e,
          get_embedded_script name h =
            (Raise (OtherException "RuntimeError"), h,
             map Asked qs ++ [load_failed name e])
    end.
Proof.
  unfold RuntimeOps.get_embedded_script, bundled_script, script_location.
  unfold try_except, bind, call, tell, raise, ret.
  destruct frozen; [destruct meipass as [b|]|].
  - rewrite ask_path_exists.
    destruct (present h (scripts_path b name)).
    + exists [PExists (scripts_path b name)].
      destruct (read_text (scripts_path b name) h) as [[t|e] h1];
        reflexivity.
    + rewrite ask_path_exists.
      destruct (present h (scripts_path repo_root name)).
      * exists [PExists (scripts_path b name);
                PExists (scripts_path repo_root name)].
        destruct (read_text (scripts_path repo_root name) h) as [[t|e] h1];
          reflexivity.
      * exists [PExists (scripts_path b name);
                PExists (scripts_path repo_root name)].
        eexists. reflexivity.
  - exists []. eexists. reflexivity.
  - rewrite ask_path_exists.
    destruct (present h (scripts_path repo_root name)).
    + exists [PExists (scripts_path repo_root name)].
      destruct (read_text (scripts_path repo_root name) h) as [[t|e] h1];
        reflexivity.
    + exists [PExists (scripts_path repo_root name)].
      eexists. reflexivity.
Qed.

Lemma run_embedded_script_facts sc cc args h :
  let r := run_embedded_script sc cc args h in
  (forall c, result r <> Exit c) /\
  (result r = Ret true <->
     exists cmd d, bash_runs (log r) = [(cmd, d, Ok 0%Z)] /\
                   cleanups (log r) = [(d, Ok tt)]) /\
  (bash_runs (log r) = [] \/
   exists d a tail,
     log r =
       [MkTemp (Ok d);
        WriteText (path_join d "setup-common.sh") cc (Ok tt);
        Chmod (path_join d "setup-common.sh") 493 (Ok tt);
        WriteText (path_join d "setup-script.sh") sc (Ok tt);
        Chmod (path_join d "setup-script.sh") 493 (Ok tt);
        RunBash ("bash" :: path_join d "setup-script.sh" :: default [] args)
          d a] ++ tail /\
     bash_runs tail = [] /\ writes tail = []) /\
  match mkdtemp h with
  | (Ok d, _) =>
      exists a, cleanups (log r) = [(d, a)] /\
                last (log r) = Some (Cleanup d a)
  | (Failed e, h1) => r = (Raise e, h1, [MkTemp (Failed e)])
  end /\
  (forall e, result r = Raise e <-> last (prep_failures (log r)) = Some e) /\
  reads (log r) = [].
Proof.
  intros r. subst r.
  unfold RuntimeOps.run_embedded_script, with_tempdir.
  unfold try_except, bind, call, tell, ret.
  destruct (mkdtemp h) as [[d|e0] h1]; cbn [of_answer].
  2:{ res_leaf. }
  destruct (write_text (path_join d "setup-common.sh") cc h1)
    as [[[]|e1] h2]; cbn [of_answer]; [|res_leaf].
  destruct (chmod (path_join d "setup-common.sh") 493 h2)
    as [[[]|e2] h3]; cbn [of_answer]; [|res_leaf].
  destruct (write_text (path_join d "setup-script.sh") sc h3)
    as [[[]|e3] h4]; cbn [of_answer]; [|res_leaf].
  destruct (chmod (path_join d "setup-script.sh") 493 h4)
    as [[[]|e4] h5]; cbn [of_answer]; [|res_leaf].
  destruct (run_bash _ d h5) as [[rc|e5] h6]; cbn [of_answer]; [|res_leaf].
  destruct (Z.eqb_spec rc 0) as [->|Hrc]; res_leaf.
Qed.

Lemma get_embedded_script_summary name h :
  let r := get_embedded_script name h in
  (forall c, result r <> Exit c) /\
  Forall (fun e => is_quiet e = true) (log r) /\
  (forall t,
     result r = Ret t ->
     exists p,
       script_location frozen meipass repo_root h name = Some p /\
       read_text p h = (Ok t, world r) /\
       reads (log r) = [(p, Ok t)]).
Proof.
  intros r. subst r.
  destruct (get_embedded_script_cases name h) as (qs & Hc).
  destruct (script_location frozen meipass repo_root h name) as [p|].
  - rewrite Hc. cbn [result world log fst snd].
    rewrite reads_app, reads_asked.
    destruct (read_text p h) as [[t0|e0] h1] eqn:Hrd; cbn [fst snd].
    + split; [intros c [=]|]. split.
      * apply Forall_app. split; [apply quiet_asked | repeat constructor].
      * intros t [= <-]. exists p. rewrite Hrd. repeat split.
    + split; [intros c [=]|]. split.
      * apply Forall_app. split; [apply quiet_asked | repeat constructor].
      * intros t [=].
  - destruct Hc as (e0 & Hc). rewrite Hc. cbn [result world log fst snd].
    split; [intros c [=]|]. split.
    + apply Forall_app. split; [apply quiet_asked | repeat constructor].
    + intros t [=].
Qed.

(** How [setup_runtime] is put together from the loading of the two
    scripts and the run. *)
Lemma setup_runtime_cases name version vanilla h :
  match dict_get name supported_runtimes with
  | None =>
      exists l,
        setup_runtime name version vanilla h = (Ret false, h, l) /\
        Forall (fun e => is_echo e = true) l
  | Some info =>
      let r1 := get_embedded_script (script info) h in
      exists e1 e2 fin,
        is_echo e1 = true /\ is_echo e2 = true /\ is_echo fin = true /\
        match result r1 with
        | Ret sc =>
            let r2 := get_embedded_script "setup-common.sh" (world r1) in
            match result r2 with
            | Ret cc =>
                let r3 := run_embedded_script sc cc
                            (Some (setup_args version vanilla)) (world r2) in
                setup_runtime name version vanilla h =
                  (Ret match result r3 with
                       | Ret true => true
                       | _ => false
                       end, world r3,
                   e1 :: e2 :: log r1 ++ log r2 ++ log r3 ++ [fin])
            | _ =>
                setup_runtime name version vanilla h =
                  (Ret false, world r2,
                   e1 :: e2 :: log r1 ++ log r2 ++ [fin])
            end
        | _ =>
            setup_runtime name version vanilla h =
              (Ret false, world r1, e1 :: e2 :: log r1 ++ [fin])
        end
  end.
Proof.
  unfold RuntimeOps.setup_runtime, get_common_script.
  destruct (dict_get name supported_runtimes) as [info|].
  2:{ eexists. split; [reflexivity|]. repeat constructor. }
  cbv zeta.
  pose proof (get_embedded_script_summary (script info) h) as (Hx1 & _).
  unfold try_except, bind, tell, ret.
  destruct (get_embedded_script (script info) h) as [[[sc|x1|c1] h1] l1];
    cbn [result world log fst snd] in *.
  3:{ destruct (Hx1 c1 eq_refl). }
  2:{ do 3 eexists. split; [|split; [|split]];
        [| | |cbn; rewrite ?app_nil_r; reflexivity];
        try reflexivity.
      destruct vanilla; reflexivity. }
  pose proof (get_embedded_script_summary "setup-common.sh" h1) as (Hx2 & _).
  destruct (get_embedded_script "setup-common.sh" h1)
    as [[[cc|x2|c2] h2] l2]; cbn [result world log fst snd] in *.
  3:{ destruct (Hx2 c2 eq_refl). }
  2:{ do 3 eexists. split; [|split; [|split]];
        [| | |cbn; rewrite ?app_nil_r, <- ?app_assoc; reflexivity];
        try reflexivity.
      destruct vanilla; reflexivity. }
  pose proof (run_embedded_script_facts sc cc
                (Some (setup_args version vanilla)) h2) as (Hx3 & _).
  destruct (run_embedded_script sc cc (Some (setup_args version vanilla)) h2)
    as [[[[]|x3|c3] h3] l3]; cbn [result world log fst snd] in *.
  4:{ destruct (Hx3 c3 eq_refl). }
  all: do 3 eexists; (split; [|split; [|split]]);
    [ | |
    | cbn; rewrite ?app_nil_r, <- ?app_assoc; reflexivity ];
    try reflexivity; destruct vanilla; reflexivity.
Qed.

End SetupFacts.

(** X12: [get_embedded_script] never leaves through [sys.exit] and raises
    nothing but [RuntimeError]: whatever went wrong is printed as the last
    thing before.  It only asks, reads and prints. *)
Theorem get_embedded_script_raises_only_runtime_error
  (frozen : bool) (meipass : option string) (repo_root : string)
  (read_text : string -> Runtime.host -> answer string * Runtime.host)
  (name : string) (h : Runtime.host) :
  let r := RuntimeOps.get_embedded_script frozen meipass repo_root read_text
             name h in
  (forall c, result r <> Exit c) /\
  (forall e,
     result r = Raise e ->
     e = OtherException "RuntimeError" /\
     exists cause,
       last (log r) =
         Some (RuntimeOps.Echo true RuntimeOps.Red "cross"
                 [Cli.Lit "Failed to load embedded script "; Cli.Lit name;
                  Cli.Lit ": "; Cli.Err cause])) /\
  Forall (fun e => ManagerSpec.is_quiet e = true) (log r).
Proof.
  intros r. subst r.
  destruct (get_embedded_script_cases frozen meipass repo_root read_text
              name h) as (qs & Hc).
  destruct (ManagerSpec.script_location frozen meipass repo_root h name)
    as [p|].
  - rewrite Hc. cbn [result world log fst snd].
    destruct (read_text p h) as [[t|e0] h1]; cbn [fst snd].
    + split; [intros c [=]|]. split; [intros e [=]|].
      apply Forall_app. split; [apply quiet_asked|].
      repeat constructor.
    + split; [intros c [=]|]. split.
      * intros e [= <-]. split; [reflexivity|].
        exists e0. apply last_two.
      * apply Forall_app. split; [apply quiet_asked|].
        repeat constructor.
  - destruct Hc as (e0 & Hc). rewrite Hc. cbn [result world log fst snd].
    split; [intros c [=]|]. split.
    + intros e [= <-]. split; [reflexivity|].
      exists e0. apply last_snoc.
    + apply Forall_app. split; [apply quiet_asked|].
      repeat constructor.
Qed.

(** X13: [get_embedded_script] reads one file at most, the one it settles
    on: the bundled copy when the program is frozen and that copy is there,
    the copy of the repository otherwise.  It returns exactly when reading
    that file works, with what was read; a bundled copy that cannot be read
    is not made up for by the repository's. *)
Theorem get_embedded_script_reads_one_file
  (frozen : bool) (meipass : option string) (repo_root : string)
  (read_text : string -> Runtime.host -> answer string * Runtime.host)
  (name : string) (h : Runtime.host) :
  let r := RuntimeOps.get_embedded_script frozen meipass repo_root read_text
             name h in
  let loc := ManagerSpec.script_location frozen meipass repo_root h name in
  ManagerSpec.reads (log r) =
    match loc with
    | Some p => [(p, (read_text p h).1)]
    | None => []
    end /\
  (forall t,
     result r = Ret t <->
     exists p, loc = Some p /\ (read_text p h).1 = Ok t) /\
  world r = match loc with
            | Some p => (read_text p h).2
            | None => h
            end.
Proof.
  intros r loc. subst r loc.
  destruct (get_embedded_script_cases frozen meipass repo_root read_text
              name h) as (qs & Hc).
  destruct (ManagerSpec.script_location frozen meipass repo_root h name)
    as [p|].
  - rewrite Hc. cbn [result world log fst snd].
    rewrite reads_app, reads_asked.
    destruct (read_text p h) as [[t0|e0] h1] eqn:Hrd; cbn [fst snd].
    + split; [reflexivity|]. split; [|reflexivity].
      intros t. split.
      * intros [= <-]. exists p. rewrite Hrd. split; reflexivity.
      * intros (p' & [= <-] & Ht). rewrite Hrd in Ht.
        injection Ht as <-. reflexivity.
    + split; [reflexivity|]. split; [|reflexivity].
      intros t. split; [intros [=]|].
      intros (p' & [= <-] & Ht). rewrite Hrd in Ht. discriminate Ht.
  - destruct Hc as (e0 & Hc). rewrite Hc. cbn [result world log fst snd].
    rewrite reads_app, reads_asked.
    split; [reflexivity|]. split; [|reflexivity].
    intros t. split; [intros [=]|]. intros (p' & [=] & _).
Qed.

(** X14: when [run_embedded_script] runs a command, it is [bash] on the
    main script followed by the arguments given, in the fresh directory;
    before that the common script and the main script were written there
    and made executable, in that order, and it is the only command run. *)
Theorem run_embedded_script_command
  (mkdtemp : Runtime.host -> answer string * Runtime.host)
  (cleanup : string -> Runtime.host -> answer unit * Runtime.host)
  (write_text : string -> string -> Runtime.host
                -> answer unit * Runtime.host)
  (chmod : string -> Z -> Runtime.host -> answer unit * Runtime.host)
  (run_bash : list string -> string -> Runtime.host
              -> answer Z * Runtime.host)
  (sc cc : string) (args : option (list string)) (h : Runtime.host)
  (cmd : list string) (cwd : string) (a : answer Z) :
  let r := RuntimeOps.run_embedded_script mkdtemp cleanup write_text chmod
             run_bash sc cc args h in
  (cmd, cwd, a) ∈ ManagerSpec.bash_runs (log r) ->
  cmd = "bash" :: Runtime.path_join cwd "setup-script.sh" :: default [] args
  /\
  exists tail,
    log r =
      [RuntimeOps.MkTemp (Ok cwd);
       RuntimeOps.WriteText (Runtime.path_join cwd "setup-common.sh") cc
         (Ok tt);
       RuntimeOps.Chmod (Runtime.path_join cwd "setup-common.sh") 493
         (Ok tt);
       RuntimeOps.WriteText (Runtime.path_join cwd "setup-script.sh") sc
         (Ok tt);
       RuntimeOps.Chmod (Runtime.path_join cwd "setup-script.sh") 493
         (Ok tt);
       RuntimeOps.RunBash cmd cwd a] ++ tail /\
    ManagerSpec.bash_runs tail = [] /\ ManagerSpec.writes tail = [].
Proof.
  intros r Hin. subst r.
  destruct (run_embedded_script_facts mkdtemp cleanup write_text chmod
              run_bash sc cc args h) as (_ & _ & Hcmd & _).
  destruct Hcmd as [Hnone|(d & a0 & tail & Hlog & Hb & Hw)].
  - rewrite Hnone in Hin. apply elem_of_nil in Hin. destruct Hin.
  - rewrite Hlog in Hin. cbn in Hin. rewrite Hb in Hin.
    apply elem_of_cons in Hin as [Hin|Hin];
      [|apply elem_of_nil in Hin; destruct Hin].
    injection Hin as -> -> ->.
    split; [reflexivity|]. exists tail. repeat split; assumption.
Qed.

Lemma run_embedded_script_command_witness :
  let r := RuntimeOps.run_embedded_script ManagerExamples.mkdtemp_ok
             ManagerExamples.cleanup_ok ManagerExamples.write_ok
             ManagerExamples.chmod_ok ManagerExamples.bash_fails
             "main" "common" (Some ["1.2"]) ManagerExamples.checkout in
  ["bash"; "/tmp/t/setup-script.sh"; "1.2"] =
    "bash" :: Runtime.path_join "/tmp/t" "setup-script.sh"
           :: default [] (Some ["1.2"]) /\
  exists tail,
    log r =
      [RuntimeOps.MkTemp (Ok "/tmp/t");
       RuntimeOps.WriteText (Runtime.path_join "/tmp/t" "setup-common.sh")
         "common" (Ok tt);
       RuntimeOps.Chmod (Runtime.path_join "/tmp/t" "setup-common.sh") 493
         (Ok tt);
       RuntimeOps.WriteText (Runtime.path_join "/tmp/t" "setup-script.sh")
         "main" (Ok tt);
       RuntimeOps.Chmod (Runtime.path_join "/tmp/t" "setup-script.sh") 493
         (Ok tt);
       RuntimeOps.RunBash ["bash"; "/tmp/t/setup-script.sh"; "1.2"]
         "/tmp/t" (Ok 2%Z)] ++ tail /\
    ManagerSpec.bash_runs tail = [] /\ ManagerSpec.writes tail = [].
Proof.
  apply (run_embedded_script_command ManagerExamples.mkdtemp_ok
           ManagerExamples.cleanup_ok ManagerExamples.write_ok
           ManagerExamples.chmod_ok ManagerExamples.bash_fails
           "main" "common" (Some ["1.2"]) ManagerExamples.checkout
           ["bash"; "/tmp/t/setup-script.sh"; "1.2"] "/tmp/t" (Ok 2%Z)).
  apply list_elem_of_In. vm_compute. left. reflexivity.
Defined.

(** X15: the temporary directory of [run_embedded_script] is always
    cleaned up: once it was made, exactly one clean-up is done, of that
    directory, as the last thing, however the rest went; when it could not
    be made, that failure is raised and nothing else was done. *)
Theorem run_embedded_script_cleans_up
  (mkdtemp : Runtime.host -> answer string * Runtime.host)
  (cleanup : string -> Runtime.host -> answer unit * Runtime.host)
  (write_text : string -> string -> Runtime.host
                -> answer unit * Runtime.host)
  (chmod : string -> Z -> Runtime.host -> answer unit * Runtime.host)
  (run_bash : list string -> string -> Runtime.host
              -> answer Z * Runtime.host)
  (sc cc : string) (args : option (list string)) (h : Runtime.host) :
  let r := RuntimeOps.run_embedded_script mkdtemp cleanup write_text chmod
             run_bash sc cc args h in
  match mkdtemp h with
  | (Ok d, _) =>
      exists a, ManagerSpec.cleanups (log r) = [(d, a)] /\
                last (log r) = Some (RuntimeOps.Cleanup d a)
  | (Failed e, h1) => r = (Raise e, h1, [RuntimeOps.MkTemp (Failed e)])
  end.
Proof.
  intros r. subst r.
  exact (proj1 (proj2 (proj2 (proj2
           (run_embedded_script_facts mkdtemp cleanup write_text chmod
              run_bash sc cc args h))))).
Qed.

(** X16: [run_embedded_script] returns [True] exactly when the command
    ended with return code 0 and the clean-up worked.  It never leaves
    through [sys.exit], and what it raises is the last failure around the
    command (making the directory, writing, changing modes, cleaning up):
    a failure of the command itself is never raised. *)
Theorem run_embedded_script_result
  (mkdtemp : Runtime.host -> answer string * Runtime.host)
  (cleanup : string -> Runtime.host -> answer unit * Runtime.host)
  (write_text : string -> string -> Runtime.host
                -> answer unit * Runtime.host)
  (chmod : string -> Z -> Runtime.host -> answer unit * Runtime.host)
  (run_bash : list string -> string -> Runtime.host
              -> answer Z * Runtime.host)
  (sc cc : string) (args : option (list string)) (h : Runtime.host) :
  let r := RuntimeOps.run_embedded_script mkdtemp cleanup write_text chmod
             run_bash sc cc args h in
  (forall c, result r <> Exit c) /\
  (result r = Ret true <->
     exists cmd d,
       ManagerSpec.bash_runs (log r) = [(cmd, d, Ok 0%Z)] /\
       ManagerSpec.cleanups (log r) = [(d, Ok tt)]) /\
  (forall e,
     result r = Raise e <->
     last (ManagerSpec.prep_failures (log r)) = Some e).
Proof.
  intros r. subst r.
  destruct (run_embedded_script_facts mkdtemp cleanup write_text chmod
              run_bash sc cc args h) as (H1 & H2 & _ & _ & H5 & _).
  repeat split; try apply H2; try apply H5; auto.
Qed.

(** The outcome of [setup_runtime], for its callers too. *)
Lemma setup_runtime_outcome
  (frozen : bool) (meipass : option string) (repo_root : string)
  (read_text : string -> Runtime.host -> answer string * Runtime.host)
  (mkdtemp : Runtime.host -> answer string * Runtime.host)
  (cleanup : string -> Runtime.host -> answer unit * Runtime.host)
  (write_text : string -> string -> Runtime.host
                -> answer unit * Runtime.host)
  (chmod : string -> Z -> Runtime.host -> answer unit * Runtime.host)
  (run_bash : list string -> string -> Runtime.host
              -> answer Z * Runtime.host)
  (name : string) (version : option string) (vanilla : bool)
  (h : Runtime.host) :
  let r := RuntimeOps.setup_runtime frozen meipass repo_root read_text
             mkdtemp cleanup write_text chmod run_bash name version vanilla
             h in
  (exists b, result r = Ret b) /\
  (result r = Ret true <->
     exists cmd d,
       ManagerSpec.bash_runs (log r) = [(cmd, d, Ok 0%Z)] /\
       ManagerSpec.cleanups (log r) = [(d, Ok tt)]).
Proof.
  intros r. subst r.
  pose proof (setup_runtime_cases frozen meipass repo_root read_text mkdtemp
                cleanup write_text chmod run_bash name version vanilla h)
    as Hc.
  destruct (dict_get name Runtime.supported_runtimes) as [info|].
  2:{ destruct Hc as (l & -> & Hl). cbn [result log fst snd].
      split; [eauto|]. split; [intros [=]|].
      intros (cmd & d & Hb & _).
      rewrite (bash_runs_quiet _ (echoes_quiet _ Hl)) in Hb.
      discriminate Hb. }
  cbv zeta in Hc. destruct Hc as (e1 & e2 & fin & H1 & H2 & H3 & Hc).
  pose proof (get_embedded_script_summary frozen meipass repo_root read_text
                (Runtime.script info) h) as (_ & Hq1 & _).
  destruct (RuntimeOps.get_embedded_script frozen meipass repo_root read_text
              (Runtime.script info) h) as [[[sc|x1|c1] h1] l1];
    cbn [result world log fst snd] in *.
  2,3: rewrite Hc; cbn [result log fst snd];
       (split; [eauto|]); (split; [intros [=]|]);
       intros (cmd & d & Hb & _);
       rewrite (setup_log_short _ _ _ _ H1 H2 H3 Hq1) in Hb;
       discriminate Hb.
  pose proof (get_embedded_script_summary frozen meipass repo_root read_text
                "setup-common.sh" h1) as (_ & Hq2 & _).
  destruct (RuntimeOps.get_embedded_script frozen meipass repo_root read_text
              "setup-common.sh" h1) as [[[cc|x2|c2] h2] l2];
    cbn [result world log fst snd] in *.
  2,3: rewrite Hc; cbn [result log fst snd];
       (split; [eauto|]); (split; [intros [=]|]);
       intros (cmd & d & Hb & _);
       rewrite app_assoc in Hb;
       rewrite (setup_log_short _ _ _ _ H1 H2 H3
                  (proj2 (Forall_app _ _ _) (conj Hq1 Hq2))) in Hb;
       discriminate Hb.
  rewrite Hc. cbn [result log fst snd].
  destruct (setup_log e1 e2 fin l1 l2
              (log (RuntimeOps.run_embedded_script mkdtemp cleanup write_text
                      chmod run_bash sc cc
                      (Some (RuntimeOps.setup_args version vanilla)) h2))
              H1 H2 H3 Hq1 Hq2) as (-> & -> & _ & _).
  pose proof (run_embedded_script_facts mkdtemp cleanup write_text chmod
                run_bash sc cc
                (Some (RuntimeOps.setup_args version vanilla)) h2)
    as (_ & Hres & _).
  cbv zeta in Hres. rewrite <- Hres.
  destruct (result _) as [[]| |]; split; eauto;
    split; intros [=]; reflexivity.
Qed.

(** X17: [setup_runtime] always returns, it never raises or leaves through
    [sys.exit]; and it returns [True] exactly when the setup script was
    run, ended with return code 0, and its directory was cleaned up. *)
Theorem setup_runtime_result
  (frozen : bool) (meipass : option string) (repo_root : string)
  (read_text : string -> Runtime.host -> answer string * Runtime.host)
  (mkdtemp : Runtime.host -> answer string * Runtime.host)
  (cleanup : string -> Runtime.host -> answer unit * Runtime.host)
  (write_text : string -> string -> Runtime.host
                -> answer unit * Runtime.host)
  (chmod : string -> Z -> Runtime.host -> answer unit * Runtime.host)
  (run_bash : list string -> string -> Runtime.host
              -> answer Z * Runtime.host)
  (name : string) (version : option string) (vanilla : bool)
  (h : Runtime.host) :
  let r := RuntimeOps.setup_runtime frozen meipass repo_root read_text
             mkdtemp cleanup write_text chmod run_bash name version vanilla
             h in
  (exists b, result r = Ret b) /\
  (result r = Ret true <->
     exists cmd d,
       ManagerSpec.bash_runs (log r) = [(cmd, d, Ok 0%Z)] /\
       ManagerSpec.cleanups (log r) = [(d, Ok tt)]).
Proof.
  exact (setup_runtime_outcome frozen meipass repo_root read_text mkdtemp
           cleanup write_text chmod run_bash name version vanilla h).
Qed.

(** X18: when [setup_runtime] runs a command, the runtime is a supported
    one; the script of that runtime and then the common script were read,
    each from the place [get_embedded_script] settles on, and written as
    they were read into the directory of the command; and the command is
    [bash] on the main script, followed by the version when one is given
    and not empty, followed by [--vanilla] when that was asked for. *)
Theorem setup_runtime_command
  (frozen : bool) (meipass : option string) (repo_root : string)
  (read_text : string -> Runtime.host -> answer string * Runtime.host)
  (mkdtemp : Runtime.host -> answer string * Runtime.host)
  (cleanup : string -> Runtime.host -> answer unit * Runtime.host)
  (write_text : string -> string -> Runtime.host
                -> answer unit * Runtime.host)
  (chmod : string -> Z -> Runtime.host -> answer unit * Runtime.host)
  (run_bash : list string -> string -> Runtime.host
              -> answer Z * Runtime.host)
  (name : string) (version : option string) (vanilla : bool)
  (h : Runtime.host) (cmd : list string) (d : string) (a : answer Z) :
  let r := RuntimeOps.setup_runtime frozen meipass repo_root read_text
             mkdtemp cleanup write_text chmod run_bash name version vanilla
             h in
  (cmd, d, a) ∈ ManagerSpec.bash_runs (log r) ->
  exists info sc cc p1 p2,
    dict_get name Runtime.supported_runtimes = Some info /\
    ManagerSpec.script_location frozen meipass repo_root h
      (Runtime.script info) = Some p1 /\
    ManagerSpec.script_location frozen meipass repo_root
      (read_text p1 h).2 "setup-common.sh" = Some p2 /\
    ManagerSpec.reads (log r) = [(p1, Ok sc); (p2, Ok cc)] /\
    ManagerSpec.writes (log r) =
      [(Runtime.path_join d "setup-common.sh", cc, Ok tt);
       (Runtime.path_join d "setup-script.sh", sc, Ok tt)] /\
    cmd = "bash" :: Runtime.path_join d "setup-script.sh"
                 :: RuntimeOps.setup_args version vanilla /\
    ManagerSpec.bash_runs (log r) = [(cmd, d, a)].
Proof.
  intros r. subst r.
  pose proof (setup_runtime_cases frozen meipass repo_root read_text mkdtemp
                cleanup write_text chmod run_bash name version vanilla h)
    as Hc.
  destruct (dict_get name Runtime.supported_runtimes) as [info|].
  2:{ destruct Hc as (l & -> & Hl). cbn [result log fst snd].
      rewrite (bash_runs_quiet _ (echoes_quiet _ Hl)).
      intros Hin. apply elem_of_nil in Hin. destruct Hin. }
  cbv zeta in Hc. destruct Hc as (e1 & e2 & fin & H1 & H2 & H3 & Hc).
  pose proof (get_embedded_script_summary frozen meipass repo_root read_text
                (Runtime.script info) h) as (_ & Hq1 & Hr1).
  destruct (RuntimeOps.get_embedded_script frozen meipass repo_root read_text
              (Runtime.script info) h) as [[[sc|x1|c1] h1] l1];
    cbn [result world log fst snd] in *.
  2,3: rewrite Hc; cbn [result log fst snd];
       rewrite (setup_log_short _ _ _ _ H1 H2 H3 Hq1);
       intros Hin; apply elem_of_nil in Hin; destruct Hin.
  destruct (Hr1 sc eq_refl) as (p1 & Hl1 & Hrd1 & Hreads1).
  pose proof (get_embedded_script_summary frozen meipass repo_root read_text
                "setup-common.sh" h1) as (_ & Hq2 & Hr2).
  destruct (RuntimeOps.get_embedded_script frozen meipass repo_root read_text
              "setup-common.sh" h1) as [[[cc|x2|c2] h2] l2];
    cbn [result world log fst snd] in *.
  2,3: rewrite Hc; cbn [result log fst snd]; rewrite app_assoc;
       rewrite (setup_log_short _ _ _ _ H1 H2 H3
                  (proj2 (Forall_app _ _ _) (conj Hq1 Hq2)));
       intros Hin; apply elem_of_nil in Hin; destruct Hin.
  destruct (Hr2 cc eq_refl) as (p2 & Hl2 & Hrd2 & Hreads2).
  rewrite Hc. cbn [result log fst snd].
  destruct (setup_log e1 e2 fin l1 l2
              (log (RuntimeOps.run_embedded_script mkdtemp cleanup write_text
                      chmod run_bash sc cc
                      (Some (RuntimeOps.setup_args version vanilla)) h2))
              H1 H2 H3 Hq1 Hq2) as (-> & _ & -> & ->).
  pose proof (run_embedded_script_facts mkdtemp cleanup write_text chmod
                run_bash sc cc
                (Some (RuntimeOps.setup_args version vanilla)) h2)
    as (_ & _ & Hcmd & _ & _ & Hnoread).
  cbv zeta in Hcmd, Hnoread. rewrite Hnoread, Hreads1, Hreads2.
  destruct Hcmd as [Hnone|(d0 & a0 & tail & Hlog & Hb & Hw)].
  { rewrite Hnone. intros Hin. apply elem_of_nil in Hin. destruct Hin. }
  rewrite Hlog. cbn [app ManagerSpec.bash_runs ManagerSpec.writes].
  rewrite Hb, Hw. intros Hin.
  apply elem_of_cons in Hin as [Hin|Hin];
    [|apply elem_of_nil in Hin; destruct Hin].
  injection Hin as -> -> ->.
  exists info, sc, cc, p1, p2.
  rewrite Hrd1. cbn [snd].
  repeat split; assumption.
Qed.

Lemma setup_runtime_command_witness :
  let r := RuntimeOps.setup_runtime false None "/repo"
             ManagerExamples.read_ok ManagerExamples.mkdtemp_ok
             ManagerExamples.cleanup_ok ManagerExamples.write_ok
             ManagerExamples.chmod_ok ManagerExamples.bash_ok
             "codex" (Some "1.2") true ManagerExamples.checkout in
  exists info sc cc p1 p2,
    dict_get "codex" Runtime.supported_runtimes = Some info /\
    ManagerSpec.script_location false None "/repo" ManagerExamples.checkout
      (Runtime.script info) = Some p1 /\
    ManagerSpec.script_location false None "/repo"
      (ManagerExamples.read_ok p1 ManagerExamples.checkout).2
      "setup-common.sh" = Some p2 /\
    ManagerSpec.reads (log r) = [(p1, Ok sc); (p2, Ok cc)] /\
    ManagerSpec.writes (log r) =
      [(Runtime.path_join "/tmp/t" "setup-common.sh", cc, Ok tt);
       (Runtime.path_join "/tmp/t" "setup-script.sh", sc, Ok tt)] /\
    ["bash"; "/tmp/t/setup-script.sh"; "1.2"; "--vanilla"] =
      "bash" :: Runtime.path_join "/tmp/t" "setup-script.sh"
             :: RuntimeOps.setup_args (Some "1.2") true /\
    ManagerSpec.bash_runs (log r) =
      [(["bash"; "/tmp/t/setup-script.sh"; "1.2"; "--vanilla"], "/tmp/t",
        Ok 0%Z)].
Proof.
  apply (setup_runtime_command false None "/repo"
           ManagerExamples.read_ok ManagerExamples.mkdtemp_ok
           ManagerExamples.cleanup_ok ManagerExamples.write_ok
           ManagerExamples.chmod_ok ManagerExamples.bash_ok
           "codex" (Some "1.2") true ManagerExamples.checkout
           ["bash"; "/tmp/t/setup-script.sh"; "1.2"; "--vanilla"] "/tmp/t"
           (Ok 0%Z)).
  apply list_elem_of_In. vm_compute. left. reflexivity.
Defined.

(* ===================================================================== *)
(** * The runtime commands *)
(* ===================================================================== *)

Section CommandLog.
Import CliMore CliSpec.

Lemma manager_events_app l1 l2 :
  manager_events (l1 ++ l2) = manager_events l1 ++ manager_events l2.
Proof.
  induction l1 as [|e l1 IH]; [reflexivity|].
  destruct e; cbn; rewrite IH; reflexivity.
Qed.

Lemma manager_events_shell l : manager_events (map Shell l) = [].
Proof. induction l as [|e l IH]; [reflexivity | exact IH]. Qed.

Lemma manager_events_manager l : manager_events (map Manager l) = l.
Proof.
  induction l as [|e l IH]; [reflexivity|]. cbn. rewrite IH. reflexivity.
Qed.

End CommandLog.

(** The body of [runtime setup], for a name that click let through. *)
Lemma setup_body_outcome
  (manager_importable frozen : bool) (meipass : option string)
  (repo_root : string)
  (read_text : string -> Runtime.host -> answer string * Runtime.host)
  (mkdtemp : Runtime.host -> answer string * Runtime.host)
  (cleanup : string -> Runtime.host -> answer unit * Runtime.host)
  (write_text : string -> string -> Runtime.host
                -> answer unit * Runtime.host)
  (chmod : string -> Z -> Runtime.host -> answer unit * Runtime.host)
  (run_bash : list string -> string -> Runtime.host
              -> answer Z * Runtime.host)
  (name : string) (version : option string) (vanilla : bool)
  (h : Runtime.host) :
  let r := CliMore.setup_body manager_importable frozen meipass repo_root
             read_text mkdtemp cleanup write_text chmod run_bash
             name version vanilla h in
  (result r = Ret tt \/ result r = Exit 1) /\
  (result r = Ret tt <->
     manager_importable = true /\
     exists cmd d,
       ManagerSpec.bash_runs (CliSpec.manager_events (log r))
         = [(cmd, d, Ok 0%Z)] /\
       ManagerSpec.cleanups (CliSpec.manager_events (log r))
         = [(d, Ok tt)]).
Proof.
  intros r. subst r.
  unfold CliMore.setup_body, CliMore.import_manager.
  unfold try_except, bind, CliMore.shell, CliMore.manager.
  unfold Cli.rich_info, Cli.rich_success, Cli.rich_error, Cli.rich_echo.
  unfold tell, ret, raise, sys_exit.
  cbn [result world log fst snd].
  destruct manager_importable; cbn [result world log fst snd map app].
  2:{ split; [right; reflexivity|].
      split; [intros [=] | intros [[=] _]]. }
  pose proof (setup_runtime_outcome frozen meipass repo_root read_text
                mkdtemp cleanup write_text chmod run_bash name version
                vanilla h) as Ho.
  cbv zeta in Ho. destruct Ho as [[b Hb] Hiff].
  destruct (RuntimeOps.setup_runtime frozen meipass repo_root read_text
              mkdtemp cleanup write_text chmod run_bash name version
              vanilla h) as [[o h1] l].
  cbn [result world log fst snd] in *. subst o.
  destruct b; cbn [negb result world log fst snd app map
                   CliSpec.manager_events].
  - rewrite manager_events_app, manager_events_manager.
    cbn [CliSpec.manager_events map]. rewrite app_nil_r.
    split; [left; reflexivity|].
    split.
    + intros _. split; [reflexivity|]. apply Hiff. reflexivity.
    + intros _. reflexivity.
  - rewrite manager_events_app, manager_events_manager.
    cbn [CliSpec.manager_events]. rewrite ?app_nil_r.
    split; [right; reflexivity|].
    split; [intros [=]|].
    intros [_ Hrun]. apply Hiff in Hrun. discriminate Hrun.
Qed.

(** The body of [runtime remove], for a name that click let through and a
    removal that was confirmed. *)
Lemma remove_body_outcome
  (manager_importable : bool)
  (unlink rmtree : string -> Runtime.host -> answer unit * Runtime.host)
  (name : string) (h : Runtime.host) :
  let r := CliMore.remove_body manager_importable unlink rmtree name h in
  (result r = Ret tt \/ result r = Exit 1) /\
  (result r = Ret tt <->
     manager_importable = true /\
     result (RuntimeOps.remove_runtime (Runtime.runtime_dir h) unlink rmtree
               name h) = Ret true) /\
  (result r = Ret tt ->
   Forall (fun d => exists u, d.2 = Ok u)
     (ManagerSpec.deletions (CliSpec.manager_events (log r)))) /\
  (manager_importable = false ->
   world r = h /\ CliSpec.manager_events (log r) = []).
Proof.
  intros r. subst r.
  unfold CliMore.remove_body, CliMore.import_manager.
  unfold try_except, bind, CliMore.shell, CliMore.manager.
  unfold Cli.rich_info, Cli.rich_success, Cli.rich_error, Cli.rich_echo.
  unfold tell, ret, raise, sys_exit.
  cbn [result world log fst snd].
  destruct manager_importable; cbn [result world log fst snd map app].
  2:{ split; [right; reflexivity|].
      split; [split; [intros [=] | intros [[=] _]]|].
      split; [intros [=]|]. intros _. split; reflexivity. }
  pose proof (remove_runtime_outcome (Runtime.runtime_dir h) unlink rmtree
                name h) as Ho.
  cbv zeta in Ho. destruct Ho as ([b Hb] & _ & Hiff).
  destruct (RuntimeOps.remove_runtime (Runtime.runtime_dir h) unlink rmtree
              name h) as [[o h1] l].
  cbn [result world log fst snd] in *. subst o.
  destruct b; cbn [negb result world log fst snd app map
                   CliSpec.manager_events].
  - rewrite manager_events_app, manager_events_manager.
    cbn [CliSpec.manager_events map]. rewrite app_nil_r.
    split; [left; reflexivity|].
    split; [split; [intros _; split; reflexivity | reflexivity]|].
    split; [|intros [=]].
    intros _. apply Hiff. reflexivity.
  - rewrite manager_events_app, manager_events_manager.
    cbn [CliSpec.manager_events]. rewrite ?app_nil_r.
    split; [right; reflexivity|].
    split; [split; [intros [=] | intros [_ [=]]]|].
    split; [intros [=] | intros [=]].
Qed.

Section ClickFacts.
Import CliMore CliSpec.

Lemma choice_argument_run (arg : option string) (h : Runtime.host) :
  (exists name,
     accepted arg name /\
     choice_argument "runtime_name" runtime_choices arg h
     = (Ret name, h, [])) \/
  ((~ exists name, accepted arg name) /\
   choice_argument "runtime_name" runtime_choices arg h
   = (Exit 2, h, [UsageError "runtime_name" arg])).
Proof.
  unfold choice_argument, accepted, runtime_choices.
  destruct arg as [v|].
  - cbn [existsb]. destruct (String.eqb_spec v "codex") as [->|Hc].
    { left. exists "codex". repeat split. left. reflexivity. }
    destruct (String.eqb_spec v "llm") as [->|Hl].
    { left. exists "llm". repeat split. right. reflexivity. }
    right. split.
    + intros (name & [= <-] & [->| ->]); congruence.
    + reflexivity.
  - right. split.
    + intros (name & [=] & _).
    + reflexivity.
Qed.

Lemma accepted_unique arg n1 n2 : accepted arg n1 -> accepted arg n2 -> n1 = n2.
Proof. intros [H1 _] [H2 _]. congruence. Qed.

End ClickFacts.

(** X19: [runtime setup] takes a runtime name that is [codex] or [llm]:
    without one click stops the command with exit status 2 before the body
    runs, and the manager does nothing.  With one, the command ends
    normally or with exit status 1, and it ends normally exactly when the
    manager could be imported, the setup script was run and ended with
    return code 0, and its directory was cleaned up. *)
Theorem runtime_setup_exit_status
  (manager_importable frozen : bool) (meipass : option string)
  (repo_root : string)
  (read_text : string -> Runtime.host -> answer string * Runtime.host)
  (mkdtemp : Runtime.host -> answer string * Runtime.host)
  (cleanup : string -> Runtime.host -> answer unit * Runtime.host)
  (write_text : string -> string -> Runtime.host
                -> answer unit * Runtime.host)
  (chmod : string -> Z -> Runtime.host -> answer unit * Runtime.host)
  (run_bash : list string -> string -> Runtime.host
              -> answer Z * Runtime.host)
  (arg : option string) (version : option string) (vanilla : bool)
  (h : Runtime.host) :
  let r := CliMore.setup manager_importable frozen meipass repo_root
             read_text mkdtemp cleanup write_text chmod run_bash
             arg version vanilla h in
  (result r = Ret tt \/ result r = Exit 1 \/ result r = Exit 2) /\
  (result r = Exit 2 <-> ~ exists name, CliSpec.accepted arg name) /\
  ((~ exists name, CliSpec.accepted arg name) ->
   world r = h /\ CliSpec.manager_events (log r) = []) /\
  (result r = Ret tt <->
     (exists name, CliSpec.accepted arg name) /\
     manager_importable = true /\
     exists cmd d,
       ManagerSpec.bash_runs (CliSpec.manager_events (log r))
         = [(cmd, d, Ok 0%Z)] /\
       ManagerSpec.cleanups (CliSpec.manager_events (log r))
         = [(d, Ok tt)]).
Proof.
  intros r. subst r. unfold CliMore.setup, bind.
  destruct (choice_argument_run arg h) as [(name & Hacc & ->)|[Hno ->]].
  - pose proof (setup_body_outcome manager_importable frozen meipass
                  repo_root read_text mkdtemp cleanup write_text chmod
                  run_bash name version vanilla h) as Hb.
    cbv zeta in Hb. destruct Hb as [Hrange Hiff].
    destruct (CliMore.setup_body manager_importable frozen meipass
                repo_root read_text mkdtemp cleanup write_text chmod
                run_bash name version vanilla h) as [[o h1] l].
    cbn [result world log fst snd app] in *.
    split; [destruct Hrange as [->| ->]; auto|].
    split; [split|].
    + intros Ho Hn. destruct Hrange as [H|H]; congruence.
    + intros Hn. destruct Hn. eauto.
    + split; [intros Hn; destruct Hn; eauto|].
      rewrite Hiff. split; [intros H; split; [eauto | exact H] | tauto].
  - cbn [result world log fst snd CliSpec.manager_events].
    split; [auto|]. split; [tauto|]. split; [auto|].
    split; [intros [=] | tauto].
Qed.

(** X20: [runtime remove] takes a runtime name that is [codex] or [llm]:
    without one click stops the command with exit status 2.  With one,
    the user is asked to confirm unless [--yes] was given, and is asked
    nothing otherwise, once and with the answer the user gives; the
    command ends normally or with exit status 1,
    and it ends normally exactly when the removal was confirmed, the
    manager could be imported and its [remove_runtime] returned [True],
    every deletion tried having then succeeded.  When the name is not
    accepted, the removal is not confirmed or the manager cannot be
    imported, the manager does nothing and the machine is as before. *)
Theorem runtime_remove_exit_status
  (manager_importable : bool) (user_confirms : string -> bool)
  (unlink rmtree : string -> Runtime.host -> answer unit * Runtime.host)
  (arg : option string) (yes : bool) (h : Runtime.host) :
  let r := CliMore.remove manager_importable user_confirms unlink rmtree
             arg yes h in
  let confirmed := yes = true \/ user_confirms CliMore.remove_prompt = true in
  (result r = Ret tt \/ result r = Exit 1 \/ result r = Exit 2) /\
  (result r = Exit 2 <-> ~ exists name, CliSpec.accepted arg name) /\
  ((exists name, CliSpec.accepted arg name) /\ yes = false ->
   CliSpec.confirmations (log r)
     = [(CliMore.remove_prompt, user_confirms CliMore.remove_prompt)]) /\
  (~ ((exists name, CliSpec.accepted arg name) /\ yes = false) ->
   CliSpec.confirmations (log r) = []) /\
  (result r = Ret tt <->
     exists name,
       CliSpec.accepted arg name /\ confirmed /\
       manager_importable = true /\
       result (RuntimeOps.remove_runtime (Runtime.runtime_dir h) unlink
                 rmtree name h) = Ret true) /\
  (result r = Ret tt ->
   Forall (fun d => exists u, d.2 = Ok u)
     (ManagerSpec.deletions (CliSpec.manager_events (log r)))) /\
  ((~ exists name, CliSpec.accepted arg name) \/ ~ confirmed \/
   manager_importable = false ->
   world r = h /\ CliSpec.manager_events (log r) = []).
Proof.
  intros r confirmed. subst r confirmed.
  unfold CliMore.remove, bind.
  destruct (choice_argument_run arg h) as [(name & Hacc & ->)|[Hno ->]].
  2:{ cbn [result world log fst snd CliSpec.manager_events
           CliSpec.confirmations].
      split; [auto|]. split; [tauto|].
      split; [tauto|].
      split; [reflexivity|].
      split; [split; [intros [=] | intros (n & Hn & _); destruct Hno; eauto]|].
      split; [intros [=] | auto]. }
  assert (Hex : exists n, CliSpec.accepted arg n) by eauto.
  assert (Hname : forall n, CliSpec.accepted arg n -> n = name).
  { intros n Hn. exact (accepted_unique _ _ _ Hn Hacc). }
  pose proof (remove_body_outcome manager_importable unlink rmtree name h)
    as Hb.
  cbv zeta in Hb. destruct Hb as (Hrange & Hiff & Hdel & Himp).
  unfold CliMore.confirmation_option.
  destruct yes.
  - cbn [ret result world log fst snd app].
    destruct (CliMore.remove_body manager_importable unlink rmtree name h)
      as [[o h1] l] eqn:Hbody.
    cbn [result world log fst snd app] in *.
    assert (Hq : CliSpec.confirmations l = []).
    { revert Hbody. unfold CliMore.remove_body, CliMore.import_manager.
      unfold try_except, bind, CliMore.shell, CliMore.manager.
      unfold Cli.rich_info, Cli.rich_success, Cli.rich_error, Cli.rich_echo.
      unfold tell, ret, raise, sys_exit.
      cbn [result world log fst snd].
      destruct manager_importable; cbn [result world log fst snd map app];
        [|intros [= _ _ <-]; reflexivity].
      destruct (RuntimeOps.remove_runtime (Runtime.runtime_dir h) unlink
                  rmtree name h) as [[[[]|e|c] h2] l2];
        cbn [negb result world log fst snd map app];
        intros [= _ _ <-];
        clear; induction l2 as [|x l2 IH]; cbn in *; auto. }
    split; [destruct Hrange as [->| ->]; auto|].
    split; [split; [intros Ho; destruct Hrange; congruence | tauto]|].
    split; [intros [_ [=]]|].
    split; [intros _; exact Hq|].
    split.
    { rewrite Hiff. split.
      - intros [Hi Hr]. exists name. auto.
      - intros (n & Hn & _ & Hi & Hr). rewrite (Hname n Hn) in Hr. auto. }
    split; [exact Hdel|].
    intros [Hn|[Hn|Hi]]; [tauto | destruct Hn; auto | exact (Himp Hi)].
  - unfold bind, tell. cbn [result world log fst snd app].
    destruct (user_confirms CliMore.remove_prompt) eqn:Hu.
    + cbn [ret result world log fst snd app].
      destruct (CliMore.remove_body manager_importable unlink rmtree name h)
        as [[o h1] l] eqn:Hbody.
      cbn [result world log fst snd app CliSpec.manager_events
           CliSpec.confirmations] in *.
      assert (Hq : CliSpec.confirmations l = []).
      { revert Hbody. unfold CliMore.remove_body, CliMore.import_manager.
        unfold try_except, bind, CliMore.shell, CliMore.manager.
        unfold Cli.rich_info, Cli.rich_success, Cli.rich_error,
          Cli.rich_echo.
        unfold tell, ret, raise, sys_exit.
        cbn [result world log fst snd].
        destruct manager_importable; cbn [result world log fst snd map app];
          [|intros [= _ _ <-]; reflexivity].
        destruct (RuntimeOps.remove_runtime (Runtime.runtime_dir h) unlink
                    rmtree name h) as [[[[]|e|c] h2] l2];
          cbn [negb result world log fst snd map app];
          intros [= _ _ <-];
          clear; induction l2 as [|x l2 IH]; cbn in *; auto. }
      split; [destruct Hrange as [->| ->]; auto|].
      split; [split; [intros Ho; destruct Hrange; congruence | tauto]|].
      split; [intros _; rewrite Hq; reflexivity|].
      split; [intros Hn; destruct Hn; auto|].
      split.
      { rewrite Hiff. split.
        - intros [Hi Hr]. exists name. auto.
        - intros (n & Hn & _ & Hi & Hr). rewrite (Hname n Hn) in Hr. auto. }
      split; [exact Hdel|].
      intros [Hn|[Hn|Hi]]; [tauto | destruct Hn; auto | exact (Himp Hi)].
    + cbn [bind tell sys_exit result world log fst snd app
           CliSpec.manager_events CliSpec.confirmations].
      unfold bind, tell, sys_exit.
      cbn [result world log fst snd app CliSpec.manager_events
           CliSpec.confirmations].
      split; [auto|].
      split; [split; [intros [=] | tauto]|].
      split; [intros _; reflexivity|].
      split; [intros Hn; destruct Hn; auto|].
      split.
      { split; [intros [=]|].
        intros (n & _ & [[=]|[=]] & _). }
      split; [intros [=] | auto].
Qed.


(* ===================================================================== *)
(** * The project configuration *)
(* ===================================================================== *)

Section ConfigFacts.
Import CliMore CliSpec.
Variable W : Type.

Lemma existing_or_empty_run awd_yml (w : W) :
  existing_or_empty W awd_yml w =
    (Ret match awd_yml with
         | Cli.Loaded c => if truthy c then c else PDict []
         | _ => PDict []
         end, w, []).
Proof.
  unfold existing_or_empty, try_except, bind, Cli.load_yaml, ret, raise.
  destruct awd_yml as [|e|c]; reflexivity.
Qed.

Lemma merge_existing_config_run awd_yml default_name (w : W) :
  merge_existing_config W awd_yml default_name w =
    match awd_yml with
    | Cli.Loaded c =>
        if truthy c then
          match c with
          | PDict d =>
              (Ret (PDict
                      [("name", default (PStr default_name)
                                  (dict_get "name" d));
                       ("version", default (PStr "1.0.0")
                                     (dict_get "version" d));
                       ("description",
                        default (PStr (default_description default_name))
                          (dict_get "description" d));
                       ("author", default (PStr "Your Name")
                                    (dict_get "author" d))]), w,
               [Cli.Echo Cli.Info (Some "info")
                  [Cli.Lit "Preserving existing configuration where possible"]])
          | _ => (Raise AttributeError, w, [])
          end
        else
          (Ret (get_default_config default_name), w,
           [Cli.Echo Cli.Info (Some "info")
              [Cli.Lit "Preserving existing configuration where possible"]])
    | _ =>
        (Ret (get_default_config default_name), w,
         [Cli.Echo Cli.Info (Some "info")
            [Cli.Lit "Preserving existing configuration where possible"]])
    end.
Proof.
  unfold merge_existing_config. unfold bind at 1.
  rewrite existing_or_empty_run.
  destruct awd_yml as [|e|c]; try reflexivity.
  destruct (truthy c) eqn:Ht; [|reflexivity].
  destruct c; try reflexivity; discriminate Ht.
Qed.

End ConfigFacts.

(** X21: without a usable [awd.yml] (none, one that cannot be loaded, or
    one whose document is empty) [_merge_existing_config] gives what
    [_get_default_config] gives. *)
Theorem merge_existing_config_defaults (W : Type)
  (awd_yml : Cli.manifest_file) (default_name : string) (w : W) :
  (forall c, awd_yml = Cli.Loaded c -> truthy c = false) ->
  let r := CliMore.merge_existing_config W awd_yml default_name w in
  result r = Ret (CliMore.get_default_config default_name) /\ world r = w.
Proof.
  intros Hc r. subst r. rewrite merge_existing_config_run.
  destruct awd_yml as [|e|c]; try (split; reflexivity).
  rewrite (Hc c eq_refl). split; reflexivity.
Qed.

Lemma merge_existing_config_defaults_witness :
  result (CliMore.merge_existing_config unit
            (Cli.Unparsable (OtherException "YAMLError")) "demo" tt) =
    Ret (CliMore.get_default_config "demo") /\
  world (CliMore.merge_existing_config unit
           (Cli.Unparsable (OtherException "YAMLError")) "demo" tt) = tt.
Proof.
  apply (merge_existing_config_defaults unit
           (Cli.Unparsable (OtherException "YAMLError")) "demo" tt).
  intros c [=].
Defined.

(** X22: from an [awd.yml] that holds a non-empty mapping,
    [_merge_existing_config] keeps the four keys [name], [version],
    [description] and [author] and nothing else: each has the value of the
    document where the document has the key, a null value included, and
    the default otherwise.  A document that is not empty and not a mapping
    gives [AttributeError]. *)
Theorem merge_existing_config_keeps_four_keys (W : Type)
  (c : pyval) (default_name : string) (w : W) :
  truthy c = true ->
  let r := CliMore.merge_existing_config W (Cli.Loaded c) default_name w in
  match c with
  | PDict d =>
      exists cfg,
        result r = Ret (PDict cfg) /\
        map fst cfg = CliSpec.config_keys /\
        (forall k,
           k ∈ CliSpec.config_keys ->
           dict_get k cfg =
             match dict_get k d with
             | Some v => Some v
             | None =>
                 dict_get k
                   (CliSpec.entries (CliMore.get_default_config default_name))
             end) /\
        (forall k, k ∉ CliSpec.config_keys -> dict_get k cfg = None)
  | _ => r = (Raise AttributeError, w, [])
  end.
Proof.
  intros Ht r. subst r. rewrite merge_existing_config_run, Ht.
  destruct c; try reflexivity.
  eexists. split; [reflexivity|]. split; [reflexivity|]. split.
  - intros k Hk. unfold CliSpec.config_keys in Hk.
    repeat (apply elem_of_cons in Hk as [->|Hk]);
      [ | | | | apply elem_of_nil in Hk; destruct Hk ];
      cbn [dict_get String.eqb Ascii.eqb Bool.eqb CliSpec.entries
           CliMore.get_default_config];
      match goal with
      | |- context [dict_get ?key d] => destruct (dict_get key d)
      end; reflexivity.
  - intros k Hk. cbn [dict_get].
    repeat match goal with
           | |- context [String.eqb ?a k] =>
               destruct (String.eqb_spec a k) as [<-|_];
               [exfalso; apply Hk; unfold CliSpec.config_keys;
                rewrite !elem_of_cons; auto 10|]
           end.
    reflexivity.
Qed.

Lemma merge_existing_config_keeps_four_keys_witness :
  exists cfg,
    result (CliMore.merge_existing_config unit
              (Cli.Loaded (PDict [("name", PStr "demo");
                                  ("author", PNone);
                                  ("scripts",
                                   PDict [("start", PStr "codex run")])]))
              "dir" tt) = Ret (PDict cfg) /\
    map fst cfg = CliSpec.config_keys /\
    (forall k,
       k ∈ CliSpec.config_keys ->
       dict_get k cfg =
         match dict_get k [("name", PStr "demo"); ("author", PNone);
                           ("scripts", PDict [("start", PStr "codex run")])]
         with
         | Some v => Some v
         | None =>
             dict_get k (CliSpec.entries (CliMore.get_default_config "dir"))
         end) /\
    (forall k, k ∉ CliSpec.config_keys -> dict_get k cfg = None).
Proof.
  apply (merge_existing_config_keeps_four_keys unit
           (PDict [("name", PStr "demo"); ("author", PNone);
                   ("scripts", PDict [("start", PStr "codex run")])])
           "dir" tt eq_refl).
Defined.

(* ===================================================================== *)
(** * init *)
(* ===================================================================== *)

Section InitLog.
Import CliInit InitSpec.

Lemma init_writes_app l1 l2 : writes (l1 ++ l2) = writes l1 ++ writes l2.
Proof.
  induction l1 as [|e l1 IH]; [reflexivity|].
  destruct e; cbn; rewrite IH; reflexivity.
Qed.

Lemma init_loads_app l1 l2 : loads (l1 ++ l2) = loads l1 ++ loads l2.
Proof.
  induction l1 as [|e l1 IH]; [reflexivity|].
  destruct e; cbn; rewrite IH; reflexivity.
Qed.

Lemma init_questions_app l1 l2 :
  questions (l1 ++ l2) = questions l1 ++ questions l2.
Proof.
  induction l1 as [|e l1 IH]; [reflexivity|].
  destruct e; cbn; rewrite IH; reflexivity.
Qed.

Lemma init_consents_app l1 l2 :
  consents (l1 ++ l2) = consents l1 ++ consents l2.
Proof.
  induction l1 as [|e l1 IH]; [reflexivity|].
  destruct e; cbn; rewrite IH; try reflexivity;
    destruct (String.eqb _ _); reflexivity.
Qed.

Lemma printed_only l :
  Forall (fun e => prints e = true) l ->
  writes l = [] /\ loads l = [] /\ questions l = [] /\ consents l = [].
Proof.
  induction 1 as [|e l He _ IH]; [repeat split|].
  destruct e; try discriminate He; exact IH.
Qed.

Lemma out_prints (l : list Cli.event) :
  Forall (fun e => prints e = true) (map Out l).
Proof. induction l; constructor; [reflexivity | assumption]. Qed.

Lemma init_writes_out l rest : writes (map Out l ++ rest) = writes rest.
Proof.
  rewrite init_writes_app.
  destruct (printed_only _ (out_prints l)) as (-> & _). reflexivity.
Qed.

Lemma init_loads_out l rest : loads (map Out l ++ rest) = loads rest.
Proof.
  rewrite init_loads_app.
  destruct (printed_only _ (out_prints l)) as (_ & -> & _). reflexivity.
Qed.

Lemma init_questions_out l rest : questions (map Out l ++ rest) = questions rest.
Proof.
  rewrite init_questions_app.
  destruct (printed_only _ (out_prints l)) as (_ & _ & -> & _). reflexivity.
Qed.

Lemma init_consents_out l rest : consents (map Out l ++ rest) = consents rest.
Proof.
  rewrite init_consents_app.
  destruct (printed_only _ (out_prints l)) as (_ & _ & _ & ->). reflexivity.
Qed.

Lemma not_the_overwrite_question :
  String.eqb (nl +:+ "Is this OK?") overwrite_text = false.
Proof. vm_compute. reflexivity. Qed.

End InitLog.

Ltac he_leaf :=
  cbn [map app InitSpec.writes InitSpec.loads InitSpec.questions
       InitSpec.consents];
  rewrite ?init_writes_out, ?init_loads_out, ?init_questions_out, ?init_consents_out;
  cbn [InitSpec.writes InitSpec.loads InitSpec.questions InitSpec.consents];
  rewrite ?String.eqb_refl;
  cbn [last];
  repeat split; intros; try discriminate; try congruence; auto;
  try (intuition (try discriminate; try congruence); fail).

Ltac ip_leaf :=
  cbn [map app InitSpec.writes InitSpec.loads InitSpec.questions
       InitSpec.consents];
  rewrite ?not_the_overwrite_question;
  repeat split; intros; try discriminate; try congruence;
  try match goal with
      | H : Ret _ = Ret _ |- _ =>
          injection H as <-; eexists; split; reflexivity
      end.

Ltac cp_leaf :=
  cbn [map app fst snd InitSpec.writes InitSpec.loads InitSpec.questions
       InitSpec.consents InitSpec.written_name];
  (split; [intros ? [=]|]);
  (split; [reflexivity|]);
  (split; [reflexivity|]);
  (split; [eexists; reflexivity|]);
  (split; [eexists; reflexivity|]);
  intros Hret;
  first [ discriminate Hret
        | split; [reflexivity | repeat constructor; eexists; reflexivity] ].

Ltac init_norm :=
  cbn [result world log fst snd];
  repeat (rewrite ?init_writes_app, ?init_loads_app, ?init_questions_app,
            ?init_consents_app;
          cbn [InitSpec.writes InitSpec.loads InitSpec.questions
               InitSpec.consents]).

Ltac init_fin :=
  repeat split; intros; auto; try discriminate; try congruence;
  try (eexists; reflexivity);
  try match goal with
      | H : ?x <> ?x |- _ => destruct (H eq_refl)
      end;
  try match goal with
      | Hn : last ?cs <> Some (Ok false), H : last ?cs = Some (Ok false)
        |- _ => destruct (Hn H)
      end;
  try (repeat match goal with
              | H : ?a = true -> InitSpec.questions _ = [],
                Hy : ?a = true |- _ => rewrite (H Hy); clear H
              end;
       reflexivity).

Section InitFacts.
Import CliInit InitSpec.
Variable W : Type.
Variable rich : Cli.rich_mode.
Variable mkdir : string -> W -> answer unit * W.
Variable chdir : string -> W -> answer unit * W.
Variable cwd_name : W -> answer string * W.
Variable file_exists : string -> W -> bool.
Variable manifest : W -> Cli.manifest_file.
Variable rich_prompt_importable : bool.
Variable confirm_ask : string -> W -> answer bool * W.
Variable click_confirm : string -> W -> answer bool * W.
Variable click_prompt : string -> string -> W -> answer string * W.
Variable load_template_file :
  string -> string -> dict (list Cli.fragment) -> W -> answer string * W.
Variable write_file : string -> string -> W -> answer unit * W.

Local Abbreviation enter_project :=
  (CliInit.enter_project W mkdir chdir cwd_name).
Local Abbreviation handle_existing :=
  (CliInit.handle_existing W rich_prompt_importable confirm_ask
     click_confirm).
Local Abbreviation choose_config :=
  (CliInit.choose_config W manifest click_confirm click_prompt).
Local Abbreviation create_project_files :=
  (CliInit.create_project_files W load_template_file write_file).
Local Abbreviation init :=
  (CliInit.init W rich mkdir chdir cwd_name file_exists manifest
     rich_prompt_importable confirm_ask click_confirm click_prompt
     load_template_file write_file).
Local Abbreviation failed e :=
  (Out (Cli.Echo Cli.Error (Some "error")
          [Cli.Lit "Error initializing project: "; Cli.Err e])).

(** How [init] is put together. *)
Lemma init_cases project_name force yes w :
  let r0 := enter_project (normalise project_name) w in
  match result r0 with
  | Ret final =>
      let w1 := world r0 in
      let r1 := handle_existing (existing_files W file_exists w1) force yes
                  w1 in
      match result r1 with
      | Ret false =>
          init project_name force yes w =
            (Ret tt, world r1, log r0 ++ log r1)
      | Ret true =>
          let r2 := choose_config final (file_exists "awd.yml" w1) force yes
                      (world r1) in
          match result r2 with
          | Ret config =>
              match config with
              | PDict d =>
                  match dict_get "name" d with
                  | Some name =>
                      let r3 := create_project_files config (world r2) in
                      let started :=
                        Out (Cli.Echo Cli.Success (Some "rocket")
                               [Cli.Lit "Initializing AWD project: ";
                                Cli.Val name]) in
                      match result r3 with
                      | Ret _ =>
                          init project_name force yes w =
                            (Ret tt, world r3,
                             log r0 ++ log r1 ++ log r2 ++ started ::
                             log r3 ++ closing rich)
                      | Raise e =>
                          init project_name force yes w =
                            (Exit 1, world r3,
                             log r0 ++ log r1 ++ log r2 ++ started ::
                             log r3 ++ [failed e])
                      | Exit c =>
                          init project_name force yes w =
                            (Exit c, world r3,
                             log r0 ++ log r1 ++ log r2 ++ started ::
                             log r3)
                      end
                  | None =>
                      init project_name force yes w =
                        (Exit 1, world r2,
                         log r0 ++ log r1 ++ log r2 ++
                         [failed (KeyError "name")])
                  end
              | _ =>
                  init project_name force yes w =
                    (Exit 1, world r2,
                     log r0 ++ log r1 ++ log r2 ++ [failed TypeError])
              end
          | Raise e =>
              init project_name force yes w =
                (Exit 1, world r2, log r0 ++ log r1 ++ log r2 ++ [failed e])
          | Exit c =>
              init project_name force yes w =
                (Exit c, world r2, log r0 ++ log r1 ++ log r2)
          end
      | Raise e =>
          init project_name force yes w =
            (Exit 1, world r1, log r0 ++ log r1 ++ [failed e])
      | Exit c =>
          init project_name force yes w = (Exit c, world r1, log r0 ++ log r1)
      end
  | Raise e =>
      init project_name force yes w = (Exit 1, world r0, log r0 ++ [failed e])
  | Exit c => init project_name force yes w = (Exit c, world r0, log r0)
  end.
Proof.
  cbv zeta.
  remember (init project_name force yes w) as r eqn:Hr.
  unfold CliInit.init in Hr.
  unfold try_except at 1 in Hr. unfold bind at 1 in Hr.
  destruct (enter_project (normalise project_name) w) as [[[final|e|c] w1] l0];
    cbn [result world log fst snd] in *; try exact Hr.
  unfold bind at 1 in Hr. unfold look at 1 in Hr.
  cbn [result world log fst snd] in Hr.
  unfold bind at 1 in Hr. unfold look at 1 in Hr.
  cbn [result world log fst snd] in Hr.
  unfold bind at 1 in Hr.
  destruct (handle_existing (existing_files W file_exists w1) force yes w1)
    as [[[[]|e|c] w2] l1]; cbn [result world log fst snd negb app] in *;
    try (cbn in Hr; rewrite ?app_nil_r, <- ?app_assoc in Hr; exact Hr).
  unfold bind at 1 in Hr.
  destruct (choose_config final (file_exists "awd.yml" w1) force yes w2)
    as [[[config|e|c] w3] l2]; cbn [result world log fst snd app] in *;
    try (cbn in Hr; rewrite ?app_nil_r, <- ?app_assoc in Hr; exact Hr).
  unfold bind at 1 in Hr. unfold out at 1 in Hr.
  unfold Cli.py_getitem in Hr.
  destruct config as [| | | | |d];
    try (cbn in Hr; rewrite ?app_nil_r, <- ?app_assoc in Hr; exact Hr).
  destruct (dict_get "name" d) as [name|];
    [|cbn in Hr; rewrite ?app_nil_r, <- ?app_assoc in Hr; exact Hr].
  cbn [result world log fst snd map app ret] in Hr.
  unfold bind at 1 in Hr. unfold out at 1 in Hr.
  unfold Cli.rich_success, Cli.rich_echo, tell in Hr.
  cbn [result world log fst snd map app] in Hr.
  unfold bind at 1 in Hr.
  destruct (create_project_files (PDict d) w3) as [[[u|e|c] w4] l3];
    cbn [result world log fst snd app] in *.
  - unfold show_created, bind, out, Cli.rich_info, Cli.rich_echo,
      Cli.rich_blank_line, tell in Hr.
    destruct rich as [|[]]; cbn [result world log fst snd map app] in Hr;
      rewrite ?app_nil_r, <- ?app_assoc in Hr; cbn [app] in Hr;
      exact Hr.
  - cbn in Hr. rewrite ?app_nil_r, <- ?app_assoc in Hr. exact Hr.
  - cbn in Hr. rewrite ?app_nil_r, <- ?app_assoc in Hr. exact Hr.
Qed.

Lemma enter_project_facts project_name w :
  let r := enter_project project_name w in
  (forall c, result r <> Exit c) /\
  writes (log r) = [] /\ loads (log r) = [] /\
  questions (log r) = [] /\ consents (log r) = [].
Proof.
  intros r. subst r. unfold CliInit.enter_project.
  assert (Hcwd : let r := call CwdName cwd_name w in
                 (forall c, result r <> Exit c) /\
                 writes (log r) = [] /\ loads (log r) = [] /\
                 questions (log r) = [] /\ consents (log r) = []).
  { unfold call. destruct (cwd_name w) as [[n|e] w1]; cbn;
      repeat split; intros c [=]. }
  destruct project_name as [d|]; [|exact Hcwd].
  destruct (truthy (PStr d)); [|exact Hcwd].
  unfold bind, call, out, Cli.rich_info, Cli.rich_echo, tell, ret.
  destruct (mkdir d w) as [[[]|e] w1]; cbn;
    [|repeat split; intros c [=]].
  destruct (chdir d w1) as [[[]|e] w2]; cbn;
    repeat split; intros c [=].
Qed.

Lemma handle_existing_facts existing force yes w :
  let r := handle_existing existing force yes w in
  (forall c, result r <> Exit c) /\
  writes (log r) = [] /\ loads (log r) = [] /\
  (yes = true -> questions (log r) = []) /\
  (consents (log r) <> [] <->
   existing <> [] /\ force = false /\ yes = false) /\
  (result r = Ret false <-> last (consents (log r)) = Some (Ok false)) /\
  (result r = Ret true <->
   consents (log r) = [] \/ last (consents (log r)) = Some (Ok true)).
Proof.
  intros r. subst r. unfold CliInit.handle_existing.
  destruct existing as [|f fs]; cbn [truthy map andb].
  { cbn. repeat split; try (intros c [=]); try (intros [=]); auto;
      try congruence; intuition congruence. }
  destruct force; cbn [negb].
  { cbn. repeat split; try (intros c [=]); try (intros [=]); auto;
      try congruence; intuition congruence. }
  assert (Heq : String.eqb overwrite_text overwrite_text = true)
    by apply String.eqb_refl.
  unfold ask_overwrite.
  unfold bind, try_except, call, out, tell_all.
  unfold Cli.rich_warning, Cli.rich_info, Cli.rich_blank_line, Cli.rich_echo.
  unfold tell, ret.
  destruct yes; [|destruct rich_prompt_importable];
    cbn [negb result world log fst snd];
    try (destruct (confirm_ask overwrite_text w) as [[[]|e] w1];
         cbn [of_answer negb result world log fst snd]);
    try match goal with
        | |- context [click_confirm overwrite_text ?w'] =>
            destruct (click_confirm overwrite_text w') as [[[]|e'] w2];
            cbn [of_answer negb result world log fst snd]
        end;
    he_leaf.
Qed.

Lemma interactive_project_setup_facts default_name w :
  let r := interactive_project_setup W click_confirm click_prompt
             default_name w in
  writes (log r) = [] /\ loads (log r) = [] /\ consents (log r) = [] /\
  (forall c, result r = Exit c -> c = 0%Z) /\
  (forall config,
     result r = Ret config ->
     exists d, config = PDict d /\ map fst d = CliSpec.config_keys).
Proof.
  intros r. subst r. unfold CliInit.interactive_project_setup, prompt.
  unfold bind, call, out, tell_all, Cli.rich_info, Cli.rich_echo.
  unfold tell, ret, sys_exit.
  cbn [result world log fst snd map app].
  destruct (click_prompt "Project name" default_name w) as [[n|e] w1];
    cbn [of_answer result world log fst snd map app];
    [|ip_leaf].
  destruct (click_prompt "Version" "1.0.0" w1) as [[v|e] w2];
    cbn [of_answer result world log fst snd map app];
    [|ip_leaf].
  destruct (click_prompt "Description" _ w2) as [[ds|e] w3];
    cbn [of_answer result world log fst snd map app];
    [|ip_leaf].
  destruct (click_prompt "Author" "Your Name" w3) as [[a|e] w4];
    cbn [of_answer result world log fst snd map app];
    [|ip_leaf].
  destruct (click_confirm (nl +:+ "Is this OK?") w4) as [[[]|e] w5];
    cbn [of_answer negb result world log fst snd map app];
    ip_leaf.
Qed.

Lemma choose_config_facts final ae force yes w :
  let r := choose_config final ae force yes w in
  writes (log r) = [] /\ loads (log r) = [] /\ consents (log r) = [] /\
  (yes = true -> questions (log r) = []) /\
  (forall c, result r = Exit c -> c = 0%Z /\ yes = false /\ ae = false) /\
  (forall config,
     result r = Ret config ->
     exists d, config = PDict d /\ map fst d = CliSpec.config_keys).
Proof.
  intros r. subst r. unfold CliInit.choose_config.
  destruct yes, ae, force; cbn [negb andb];
    try (cbn; repeat split; intros; try discriminate;
         match goal with
         | H : Ret _ = Ret _ |- _ =>
             injection H as <-; eexists; split; reflexivity
         end).
  all: first
    [ unfold out; rewrite merge_existing_config_run;
      destruct (manifest w) as [|e|c]; try destruct (truthy c);
      try destruct c;
      cbn; repeat split; intros; try discriminate;
      match goal with
      | H : Ret _ = Ret _ |- _ =>
          injection H as <-; eexists; split; reflexivity
      end
    | destruct (interactive_project_setup_facts final w)
        as (H1 & H2 & H3 & H4 & H5);
      repeat split; auto; try discriminate; intros c Hc; auto ].
Qed.

Lemma create_project_files_facts config w :
  let r := create_project_files config w in
  (forall c, result r <> Exit c) /\
  questions (log r) = [] /\ consents (log r) = [] /\
  map written_name (writes (log r)) `prefix_of` project_files /\
  map fst (loads (log r)) `prefix_of` project_files /\
  (result r = Ret tt ->
   map written_name (writes (log r)) = project_files /\
   Forall (fun x => exists u, x.2 = Ok u) (writes (log r))).
Proof.
  intros r. subst r. unfold CliInit.create_project_files.
  unfold template_value, create_file, out, Cli.py_getitem.
  destruct config as [| | | | |d]; try (cbn; cp_leaf).
  destruct (dict_get "name" d) as [name|]; [|cbn; cp_leaf].
  unfold bind, call, ret, raise.
  cbn [result world log fst snd map app].
  match goal with
  | |- context [load_template_file "hello-world" "awd.yml" ?v w] =>
      destruct (load_template_file "hello-world" "awd.yml" v w)
        as [[c1|e] w1]
  end; cbn [of_answer result world log fst snd map app]; [|cp_leaf].
  destruct (write_file "awd.yml" c1 w1) as [[[]|e] w2];
    cbn [of_answer result world log fst snd map app]; [|cp_leaf].
  match goal with
  | |- context [load_template_file "hello-world" "hello-world.prompt.md"
                  ?v w2] =>
      destruct (load_template_file "hello-world" "hello-world.prompt.md"
                  v w2) as [[c2|e] w3]
  end; cbn [of_answer result world log fst snd map app]; [|cp_leaf].
  destruct (write_file "hello-world.prompt.md" c2 w3) as [[[]|e] w4];
    cbn [of_answer result world log fst snd map app]; [|cp_leaf].
  match goal with
  | |- context [load_template_file "hello-world" "README.md" ?v w4] =>
      destruct (load_template_file "hello-world" "README.md" v w4)
        as [[c3|e] w5]
  end; cbn [of_answer result world log fst snd map app]; [|cp_leaf].
  destruct (write_file "README.md" c3 w5) as [[[]|e] w6];
    cbn [of_answer result world log fst snd map app]; cp_leaf.
Qed.

Lemma closing_silent :
  writes (closing rich) = [] /\ loads (closing rich) = [] /\
  questions (closing rich) = [] /\ consents (closing rich) = [].
Proof. apply printed_only. destruct rich as [|[]]; repeat constructor. Qed.

Lemma consent_or_none (existing : list string) (force yes : bool)
  (cs : list (answer bool)) :
  (cs <> [] <-> existing <> [] /\ force = false /\ yes = false) ->
  cs = [] \/ last cs = Some (Ok true) ->
  existing = [] \/ force = true \/ yes = true \/
  last cs = Some (Ok true).
Proof.
  intros C [E|E]; [|auto].
  destruct existing; [auto|]. destruct force; [auto|].
  destruct yes; [auto|].
  exfalso. apply (proj2 C); [repeat split; congruence | exact E].
Qed.

Lemma config_has_name (d : dict pyval) :
  map fst d = CliSpec.config_keys ->
  exists name, dict_get "name" d = Some name.
Proof.
  destruct d as [|[k v] d]; [intros [=]|].
  intros [= -> _]. exists v. reflexivity.
Qed.

Lemma init_summary project_name force yes w :
  let r := init project_name force yes w in
  let w1 := world (enter_project (normalise project_name) w) in
  let existing := existing_files W file_exists w1 in
  (result r = Ret tt \/ result r = Exit 0 \/ result r = Exit 1) /\
  (yes = true -> questions (log r) = []) /\
  (writes (log r) <> [] ->
   existing = [] \/ force = true \/ yes = true \/
   last (consents (log r)) = Some (Ok true)) /\
  (last (consents (log r)) = Some (Ok false) ->
   result r = Ret tt /\ writes (log r) = [] /\ loads (log r) = []) /\
  map written_name (writes (log r)) `prefix_of` project_files /\
  (result r = Ret tt ->
   writes (log r) = [] \/
   (map written_name (writes (log r)) = project_files /\
    Forall (fun x => exists u, x.2 = Ok u) (writes (log r)))) /\
  (result r = Exit 0 -> writes (log r) = [] /\ yes = false).
Proof.
  cbv zeta.
  pose proof (init_cases project_name force yes w) as Hc. cbv zeta in Hc.
  pose proof (enter_project_facts (normalise project_name) w) as F0.
  cbv zeta in F0.
  destruct closing_silent as (Wc & Lc & Qc & Cc).
  destruct (enter_project (normalise project_name) w) as [[o0 w1] l0].
  cbn [result world log fst snd] in *.
  destruct F0 as (X0 & W0 & L0 & Q0 & C0).
  destruct o0 as [final|e|c]; [| |destruct (X0 c eq_refl)].
  2:{ rewrite Hc. init_norm. rewrite ?W0, ?L0, ?Q0, ?C0. init_fin. }
  pose proof (handle_existing_facts (existing_files W file_exists w1)
                force yes w1) as F1.
  cbv zeta in F1.
  destruct (handle_existing (existing_files W file_exists w1) force yes w1)
    as [[o1 w2] l1].
  cbn [result world log fst snd] in *.
  destruct F1 as (X1 & W1 & L1 & Q1 & C1 & Rf & Rt).
  destruct o1 as [[]|e|c]; [| | |destruct (X1 c eq_refl)].
  2:{ rewrite Hc. init_norm. rewrite ?W0, ?L0, ?Q0, ?C0, ?W1, ?L1.
      cbn [app]. init_fin. }
  2:{ rewrite Hc. init_norm. rewrite ?W0, ?L0, ?Q0, ?C0, ?W1, ?L1.
      cbn [app]. rewrite ?app_nil_r. init_fin.
      apply Rf in H. discriminate H. }
  pose proof (consent_or_none _ _ _ _ C1 (proj1 Rt eq_refl)) as Hconsent.
  assert (Hno : last (consents l1) <> Some (Ok false)).
  { intros H. apply Rf in H. discriminate H. }
  pose proof (choose_config_facts final (file_exists "awd.yml" w1) force yes
                w2) as F2.
  cbv zeta in F2.
  destruct (choose_config final (file_exists "awd.yml" w1) force yes w2)
    as [[o2 w3] l2].
  cbn [result world log fst snd] in *.
  destruct F2 as (W2 & L2 & C2 & Q2 & X2 & D2).
  destruct o2 as [config|e|c].
  2:{ rewrite Hc. init_norm.
      rewrite ?W0, ?L0, ?Q0, ?C0, ?W1, ?L1, ?W2, ?L2, ?C2.
      cbn [app]. rewrite ?app_nil_r. init_fin. }
  2:{ destruct (X2 c eq_refl) as (-> & Hy & _).
      rewrite Hc. init_norm.
      rewrite ?W0, ?L0, ?Q0, ?C0, ?W1, ?L1, ?W2, ?L2, ?C2.
      cbn [app]. rewrite ?app_nil_r. init_fin. }
  destruct (D2 config eq_refl) as (d & -> & Hkeys).
  destruct (config_has_name d Hkeys) as (name & Hname).
  rewrite Hname in Hc.
  pose proof (create_project_files_facts (PDict d) w3) as F3.
  cbv zeta in F3.
  destruct (create_project_files (PDict d) w3) as [[o3 w4] l3].
  cbn [result world log fst snd] in *.
  destruct F3 as (X3 & Q3 & C3 & P3 & _ & A3).
  destruct o3 as [[]|e|c]; [| |destruct (X3 c eq_refl)].
  - rewrite Hc. init_norm.
    rewrite ?W0, ?L0, ?Q0, ?C0, ?W1, ?L1, ?W2, ?L2, ?C2, ?Q3, ?C3,
      ?Wc, ?Lc, ?Qc, ?Cc.
    cbn [app]. rewrite ?app_nil_r. init_fin.
  - rewrite Hc. init_norm.
    rewrite ?W0, ?L0, ?Q0, ?C0, ?W1, ?L1, ?W2, ?L2, ?C2, ?Q3, ?C3.
    cbn [app]. rewrite ?app_nil_r. init_fin.
Qed.

Lemma summaries_app l1 l2 :
  summaries (l1 ++ l2) = summaries l1 ++ summaries l2.
Proof.
  induction l1 as [|e l1 IH]; [reflexivity|].
  destruct e; cbn; rewrite IH; try reflexivity;
    destruct (String.eqb _ _); reflexivity.
Qed.

Lemma summaries_out (l : list Cli.event) : summaries (map Out l) = [].
Proof. induction l as [|e l IH]; [reflexivity | exact IH]. Qed.

Lemma not_the_summary_question :
  String.eqb overwrite_text summary_text = false.
Proof. vm_compute. reflexivity. Qed.

Lemma summary_text_refl : String.eqb (nl +:+ "Is this OK?") summary_text = true.
Proof. vm_compute. reflexivity. Qed.

Lemma enter_project_summaries project_name w :
  summaries (log (CliInit.enter_project W mkdir chdir cwd_name
                    project_name w)) = [].
Proof.
  unfold CliInit.enter_project.
  assert (Hcwd : summaries (log (call CwdName cwd_name w)) = []).
  { unfold call. destruct (cwd_name w) as [[n|e] w1]; reflexivity. }
  destruct project_name as [d|]; [|exact Hcwd].
  destruct (truthy (PStr d)); [|exact Hcwd].
  unfold bind, call, out, Cli.rich_info, Cli.rich_echo, tell, ret.
  destruct (mkdir d w) as [[[]|e] w1]; cbn; [|reflexivity].
  destruct (chdir d w1) as [[[]|e] w2]; reflexivity.
Qed.

Lemma handle_existing_summaries existing force yes w :
  summaries (log (CliInit.handle_existing W rich_prompt_importable
                    confirm_ask click_confirm existing force yes w)) = [].
Proof.
  unfold CliInit.handle_existing.
  destruct (truthy (PList (map PStr existing)) && negb force);
    [|reflexivity].
  unfold ask_overwrite.
  unfold bind, try_except, call, out, tell_all.
  unfold Cli.rich_warning, Cli.rich_info, Cli.rich_blank_line, Cli.rich_echo.
  unfold tell, ret.
  destruct yes; [|destruct rich_prompt_importable];
    cbn [negb result world log fst snd];
    try (destruct (confirm_ask overwrite_text w) as [[[]|e] w1];
         cbn [of_answer negb result world log fst snd]);
    try match goal with
        | |- context [click_confirm overwrite_text ?w'] =>
            destruct (click_confirm overwrite_text w') as [[[]|e'] w2];
            cbn [of_answer negb result world log fst snd]
        end;
    cbn [map app];
    rewrite ?summaries_app, ?summaries_out;
    cbn [summaries app];
    rewrite ?summaries_app, ?summaries_out, ?not_the_summary_question;
    cbn [summaries app];
    rewrite ?summaries_out; reflexivity.
Qed.

Lemma interactive_project_setup_summaries default_name w :
  let r := interactive_project_setup W click_confirm click_prompt
             default_name w in
  result r = Exit 0 <-> summaries (log r) = [Ok false].
Proof.
  intros r. subst r. unfold CliInit.interactive_project_setup, prompt.
  unfold bind, call, out, tell_all, Cli.rich_info, Cli.rich_echo.
  unfold tell, ret, sys_exit.
  cbn [result world log fst snd map app].
  destruct (click_prompt "Project name" default_name w) as [[n|e] w1];
    cbn [of_answer result world log fst snd map app summaries];
    [|split; intros [=]].
  destruct (click_prompt "Version" "1.0.0" w1) as [[v|e] w2];
    cbn [of_answer result world log fst snd map app summaries];
    [|split; intros [=]].
  destruct (click_prompt "Description" _ w2) as [[ds|e] w3];
    cbn [of_answer result world log fst snd map app summaries];
    [|split; intros [=]].
  destruct (click_prompt "Author" "Your Name" w3) as [[a|e] w4];
    cbn [of_answer result world log fst snd map app summaries];
    [|split; intros [=]].
  destruct (click_confirm (nl +:+ "Is this OK?") w4) as [[[]|e] w5];
    cbn [of_answer negb result world log fst snd map app summaries];
    rewrite ?summary_text_refl; cbn [summaries];
    split; intros [=]; reflexivity.
Qed.

Lemma choose_config_summaries final ae force yes w :
  let r := CliInit.choose_config W manifest click_confirm click_prompt
             final ae force yes w in
  result r = Exit 0 <-> summaries (log r) = [Ok false].
Proof.
  intros r. subst r. unfold CliInit.choose_config.
  destruct (negb yes && negb ae);
    [apply interactive_project_setup_summaries|].
  destruct (ae && negb force).
  - unfold out. cbn [result log fst snd]. rewrite summaries_out.
    rewrite merge_existing_config_run.
    destruct (manifest w) as [|e|c]; try destruct (truthy c);
      try destruct c; cbn; split; intros [=].
  - cbn. split; intros [=].
Qed.

Lemma create_project_files_summaries config w :
  summaries (log (CliInit.create_project_files W load_template_file
                    write_file config w)) = [].
Proof.
  unfold CliInit.create_project_files.
  unfold template_value, create_file, out, Cli.py_getitem.
  destruct config as [| | | | |d]; try reflexivity.
  destruct (dict_get "name" d) as [name|]; [|reflexivity].
  unfold bind, call, ret, raise.
  cbn [result world log fst snd map app].
  match goal with
  | |- context [load_template_file "hello-world" "awd.yml" ?v w] =>
      destruct (load_template_file "hello-world" "awd.yml" v w)
        as [[c1|e] w1]
  end; cbn [of_answer result world log fst snd map app]; [|reflexivity].
  destruct (write_file "awd.yml" c1 w1) as [[[]|e] w2];
    cbn [of_answer result world log fst snd map app]; [|reflexivity].
  match goal with
  | |- context [load_template_file "hello-world" "hello-world.prompt.md"
                  ?v w2] =>
      destruct (load_template_file "hello-world" "hello-world.prompt.md"
                  v w2) as [[c2|e] w3]
  end; cbn [of_answer result world log fst snd map app]; [|reflexivity].
  destruct (write_file "hello-world.prompt.md" c2 w3) as [[[]|e] w4];
    cbn [of_answer result world log fst snd map app]; [|reflexivity].
  match goal with
  | |- context [load_template_file "hello-world" "README.md" ?v w4] =>
      destruct (load_template_file "hello-world" "README.md" v w4)
        as [[c3|e] w5]
  end; cbn [of_answer result world log fst snd map app]; [|reflexivity].
  destruct (write_file "README.md" c3 w5) as [[[]|e] w6]; reflexivity.
Qed.

Lemma closing_summaries : summaries (closing rich) = [].
Proof. destruct rich as [|[]]; reflexivity. Qed.

(** [init] ends with status 0 exactly when the summary of the interactive
    setup was shown and declined. *)
Lemma init_exit_zero project_name force yes w :
  let r := CliInit.init W rich mkdir chdir cwd_name file_exists manifest
             rich_prompt_importable confirm_ask click_confirm click_prompt
             load_template_file write_file project_name force yes w in
  result r = Exit 0 <-> summaries (log r) = [Ok false].
Proof.
  cbv zeta.
  pose proof (init_cases project_name force yes w) as Hc.
  cbv zeta in Hc.
  pose proof (enter_project_facts (normalise project_name) w) as F0.
  cbv zeta in F0. destruct F0 as (X0 & _).
  pose proof (enter_project_summaries (normalise project_name) w) as S0.
  destruct (CliInit.enter_project W mkdir chdir cwd_name
              (normalise project_name) w) as [[o0 w1] l0].
  cbn [result world log fst snd] in *.
  destruct o0 as [final|e|c]; [| |destruct (X0 c eq_refl)].
  2:{ rewrite Hc. cbn [result log fst snd].
      rewrite summaries_app, S0. cbn. split; intros [=]. }
  pose proof (handle_existing_facts (existing_files W file_exists w1) force yes w1) as F1.
  cbv zeta in F1. destruct F1 as (X1 & _).
  pose proof (handle_existing_summaries (existing_files W file_exists w1)
                force yes w1) as S1.
  destruct (CliInit.handle_existing W rich_prompt_importable confirm_ask
              click_confirm (existing_files W file_exists w1) force yes w1)
    as [[o1 w2] l1].
  cbn [result world log fst snd] in *.
  destruct o1 as [[]|e|c]; [| | |destruct (X1 c eq_refl)].
  2:{ rewrite Hc. cbn [result log fst snd].
      rewrite !summaries_app, S0, S1. cbn. split; intros [=]. }
  2:{ rewrite Hc. cbn [result log fst snd].
      rewrite !summaries_app, S0, S1. cbn. split; intros [=]. }
  pose proof (choose_config_summaries final (file_exists "awd.yml" w1)
                force yes w2) as S2.
  cbv zeta in S2.
  pose proof (choose_config_facts final (file_exists "awd.yml" w1) force yes w2) as F2.
  cbv zeta in F2. destruct F2 as (_ & _ & _ & _ & X2 & D2).
  destruct (CliInit.choose_config W manifest click_confirm click_prompt
              final (file_exists "awd.yml" w1) force yes w2)
    as [[o2 w3] l2].
  cbn [result world log fst snd] in *.
  destruct o2 as [config|e|c].
  2:{ rewrite Hc. cbn [result log fst snd].
      rewrite !summaries_app, S0, S1. cbn [app summaries].
      rewrite app_nil_r. split; [intros [=]|].
      intros H. apply S2 in H. discriminate H. }
  2:{ destruct (X2 c eq_refl) as (-> & _).
      rewrite Hc. cbn [result log fst snd].
      rewrite !summaries_app, S0, S1. cbn [app].
      split; [intros _; apply S2; reflexivity | reflexivity]. }
  destruct (D2 config eq_refl) as (d & -> & Hkeys).
  destruct (config_has_name d Hkeys) as (name & Hname).
  rewrite Hname in Hc.
  pose proof (create_project_files_facts (PDict d) w3) as F3.
  cbv zeta in F3. destruct F3 as (X3 & _).
  pose proof (create_project_files_summaries (PDict d) w3) as S3.
  destruct (CliInit.create_project_files W load_template_file write_file
              (PDict d) w3) as [[o3 w4] l3].
  cbn [result world log fst snd] in *.
  destruct o3 as [[]|e|c]; [| |destruct (X3 c eq_refl)];
    rewrite Hc; cbn [result log fst snd];
    rewrite !summaries_app, S0, S1; cbn [app summaries];
    rewrite !summaries_app, S3, ?closing_summaries; cbn [app summaries];
    rewrite ?app_nil_r;
    (split; [intros [=]|]);
    intros H; apply S2 in H; discriminate H.
Qed.

End InitFacts.

Lemma choose_config_forced (W : Type)
  (manifest manifest' : W -> Cli.manifest_file)
  (click_confirm : string -> W -> answer bool * W)
  (click_prompt : string -> string -> W -> answer string * W)
  (final : string) (awd_yml_exists yes : bool) (w : W) :
  CliInit.choose_config W manifest click_confirm click_prompt final
    awd_yml_exists true yes w =
  CliInit.choose_config W manifest' click_confirm click_prompt final
    awd_yml_exists true yes w.
Proof.
  unfold CliInit.choose_config. destruct yes, awd_yml_exists; reflexivity.
Qed.

(** X23: when the question before overwriting is answered with no, [init]
    returns normally and has neither loaded a template nor written a
    file. *)
Theorem init_declined_writes_nothing (W : Type) (rich : Cli.rich_mode)
  (mkdir chdir : string -> W -> answer unit * W)
  (cwd_name : W -> answer string * W)
  (file_exists : string -> W -> bool)
  (manifest : W -> Cli.manifest_file)
  (rich_prompt_importable : bool)
  (confirm_ask click_confirm : string -> W -> answer bool * W)
  (click_prompt : string -> string -> W -> answer string * W)
  (load_template_file :
     string -> string -> dict (list Cli.fragment) -> W -> answer string * W)
  (write_file : string -> string -> W -> answer unit * W)
  (project_name : option string) (force yes : bool) (w : W) :
  let r := CliInit.init W rich mkdir chdir cwd_name file_exists manifest
             rich_prompt_importable confirm_ask click_confirm click_prompt
             load_template_file write_file project_name force yes w in
  last (InitSpec.consents (log r)) = Some (Ok false) ->
  result r = Ret tt /\ InitSpec.writes (log r) = [] /\
  InitSpec.loads (log r) = [].
Proof.
  intros r. subst r.
  exact (proj1 (proj2 (proj2 (proj2
           (init_summary W rich mkdir chdir cwd_name file_exists manifest
              rich_prompt_importable confirm_ask click_confirm click_prompt
              load_template_file write_file project_name force yes w))))).
Qed.

Lemma init_declined_writes_nothing_witness :
  let r := CliInit.init (list string) Cli.NoRich InitExamples.mkdir_ok
             InitExamples.chdir_ok InitExamples.cwd_demo InitExamples.has
             InitExamples.some_manifest false (InitExamples.say false)
             (InitExamples.say false) InitExamples.take_default
             InitExamples.template_ok InitExamples.write_ok
             None false false ["README.md"] in
  result r = Ret tt /\ InitSpec.writes (log r) = [] /\
  InitSpec.loads (log r) = [].
Proof.
  apply (init_declined_writes_nothing (list string) Cli.NoRich
           InitExamples.mkdir_ok InitExamples.chdir_ok
           InitExamples.cwd_demo InitExamples.has
           InitExamples.some_manifest false (InitExamples.say false)
           (InitExamples.say false) InitExamples.take_default
           InitExamples.template_ok InitExamples.write_ok
           None false false ["README.md"]).
  vm_compute. reflexivity.
Defined.

(** X24: [init] writes a file only with consent: none of the three files
    was there when the project directory was entered, or [--force] or
    [--yes] was given, or the question before overwriting was answered
    with yes. *)
Theorem init_overwrite_needs_consent (W : Type) (rich : Cli.rich_mode)
  (mkdir chdir : string -> W -> answer unit * W)
  (cwd_name : W -> answer string * W)
  (file_exists : string -> W -> bool)
  (manifest : W -> Cli.manifest_file)
  (rich_prompt_importable : bool)
  (confirm_ask click_confirm : string -> W -> answer bool * W)
  (click_prompt : string -> string -> W -> answer string * W)
  (load_template_file :
     string -> string -> dict (list Cli.fragment) -> W -> answer string * W)
  (write_file : string -> string -> W -> answer unit * W)
  (project_name : option string) (force yes : bool) (w : W) :
  let r := CliInit.init W rich mkdir chdir cwd_name file_exists manifest
             rich_prompt_importable confirm_ask click_confirm click_prompt
             load_template_file write_file project_name force yes w in
  let w1 := world (CliInit.enter_project W mkdir chdir cwd_name
                     (CliInit.normalise project_name) w) in
  InitSpec.writes (log r) <> [] ->
  CliInit.existing_files W file_exists w1 = [] \/ force = true \/
  yes = true \/ last (InitSpec.consents (log r)) = Some (Ok true).
Proof.
  intros r w1. subst r w1.
  exact (proj1 (proj2 (proj2
           (init_summary W rich mkdir chdir cwd_name file_exists manifest
              rich_prompt_importable confirm_ask click_confirm click_prompt
              load_template_file write_file project_name force yes w)))).
Qed.

Lemma init_overwrite_needs_consent_witness :
  let r := CliInit.init (list string) Cli.NoRich InitExamples.mkdir_ok
             InitExamples.chdir_ok InitExamples.cwd_demo InitExamples.has
             InitExamples.some_manifest true (InitExamples.say true)
             (InitExamples.say false) InitExamples.take_default
             InitExamples.template_ok InitExamples.write_ok
             (Some "demo") false false ["awd.yml"] in
  CliInit.existing_files (list string) InitExamples.has ["awd.yml"] = [] \/
  false = true \/ false = true \/
  last (InitSpec.consents (log r)) = Some (Ok true).
Proof.
  apply (init_overwrite_needs_consent (list string) Cli.NoRich
           InitExamples.mkdir_ok InitExamples.chdir_ok
           InitExamples.cwd_demo InitExamples.has
           InitExamples.some_manifest true (InitExamples.say true)
           (InitExamples.say false) InitExamples.take_default
           InitExamples.template_ok InitExamples.write_ok
           (Some "demo") false false ["awd.yml"]).
  vm_compute. intros [=].
Defined.

(** X25: with [--yes], [init] puts no question to the user: no prompt and
    no confirmation, whatever is in the directory. *)
Theorem init_yes_asks_nothing (W : Type) (rich : Cli.rich_mode)
  (mkdir chdir : string -> W -> answer unit * W)
  (cwd_name : W -> answer string * W)
  (file_exists : string -> W -> bool)
  (manifest : W -> Cli.manifest_file)
  (rich_prompt_importable : bool)
  (confirm_ask click_confirm : string -> W -> answer bool * W)
  (click_prompt : string -> string -> W -> answer string * W)
  (load_template_file :
     string -> string -> dict (list Cli.fragment) -> W -> answer string * W)
  (write_file : string -> string -> W -> answer unit * W)
  (project_name : option string) (force yes : bool) (w : W) :
  yes = true ->
  InitSpec.questions
    (log (CliInit.init W rich mkdir chdir cwd_name file_exists manifest
            rich_prompt_importable confirm_ask click_confirm click_prompt
            load_template_file write_file project_name force yes w)) = [].
Proof.
  exact (proj1 (proj2
           (init_summary W rich mkdir chdir cwd_name file_exists manifest
              rich_prompt_importable confirm_ask click_confirm click_prompt
              load_template_file write_file project_name force yes w))).
Qed.

Lemma init_yes_asks_nothing_witness :
  InitSpec.questions
    (log (CliInit.init (list string) Cli.NoRich InitExamples.mkdir_ok
            InitExamples.chdir_ok InitExamples.cwd_demo InitExamples.has
            InitExamples.some_manifest true (InitExamples.say false)
            (InitExamples.say false) InitExamples.take_default
            InitExamples.template_ok InitExamples.write_ok
            None false true ["awd.yml"])) = [].
Proof.
  apply (init_yes_asks_nothing (list string) Cli.NoRich
           InitExamples.mkdir_ok InitExamples.chdir_ok
           InitExamples.cwd_demo InitExamples.has
           InitExamples.some_manifest true (InitExamples.say false)
           (InitExamples.say false) InitExamples.take_default
           InitExamples.template_ok InitExamples.write_ok
           None false true ["awd.yml"] eq_refl).
Defined.

(** X26: [init] never raises: it returns normally or exits with status 0
    or 1.  The files it writes are, in this order, [awd.yml],
    [hello-world.prompt.md] and [README.md], up to the first step that
    fails; after a normal return it has written all three or none; and it
    exits with status 0 exactly when the question that closes the
    interactive setup, "Is this OK?", was put once and answered no, which
    happens without [--yes] only and with nothing written. *)
Theorem init_outcomes (W : Type) (rich : Cli.rich_mode)
  (mkdir chdir : string -> W -> answer unit * W)
  (cwd_name : W -> answer string * W)
  (file_exists : string -> W -> bool)
  (manifest : W -> Cli.manifest_file)
  (rich_prompt_importable : bool)
  (confirm_ask click_confirm : string -> W -> answer bool * W)
  (click_prompt : string -> string -> W -> answer string * W)
  (load_template_file :
     string -> string -> dict (list Cli.fragment) -> W -> answer string * W)
  (write_file : string -> string -> W -> answer unit * W)
  (project_name : option string) (force yes : bool) (w : W) :
  let r := CliInit.init W rich mkdir chdir cwd_name file_exists manifest
             rich_prompt_importable confirm_ask click_confirm click_prompt
             load_template_file write_file project_name force yes w in
  (result r = Ret tt \/ result r = Exit 0 \/ result r = Exit 1) /\
  map InitSpec.written_name (InitSpec.writes (log r))
    `prefix_of` CliInit.project_files /\
  (result r = Ret tt ->
   InitSpec.writes (log r) = [] \/
   (map InitSpec.written_name (InitSpec.writes (log r))
      = CliInit.project_files /\
    Forall (fun x => exists u, x.2 = Ok u) (InitSpec.writes (log r)))) /\
  (result r = Exit 0 <-> InitSpec.summaries (log r) = [Ok false]) /\
  (result r = Exit 0 -> InitSpec.writes (log r) = [] /\ yes = false).
Proof.
  intros r. subst r.
  destruct (init_summary W rich mkdir chdir cwd_name file_exists manifest
              rich_prompt_importable confirm_ask click_confirm click_prompt
              load_template_file write_file project_name force yes w)
    as (H1 & _ & _ & _ & H5 & H6 & H7).
  split; [exact H1|]. split; [exact H5|]. split; [exact H6|].
  split; [apply init_exit_zero | exact H7].
Qed.

(** X27: with [--force] the existing [awd.yml] is not consulted: whatever
    it holds, [init] does the same. *)
Theorem init_force_ignores_manifest (W : Type) (rich : Cli.rich_mode)
  (mkdir chdir : string -> W -> answer unit * W)
  (cwd_name : W -> answer string * W)
  (file_exists : string -> W -> bool)
  (manifest manifest' : W -> Cli.manifest_file)
  (rich_prompt_importable : bool)
  (confirm_ask click_confirm : string -> W -> answer bool * W)
  (click_prompt : string -> string -> W -> answer string * W)
  (load_template_file :
     string -> string -> dict (list Cli.fragment) -> W -> answer string * W)
  (write_file : string -> string -> W -> answer unit * W)
  (project_name : option string) (force yes : bool) (w : W) :
  force = true ->
  CliInit.init W rich mkdir chdir cwd_name file_exists manifest
    rich_prompt_importable confirm_ask click_confirm click_prompt
    load_template_file write_file project_name force yes w =
  CliInit.init W rich mkdir chdir cwd_name file_exists manifest'
    rich_prompt_importable confirm_ask click_confirm click_prompt
    load_template_file write_file project_name force yes w.
Proof.
  intros ->.
  pose proof (init_cases W rich mkdir chdir cwd_name file_exists manifest
                rich_prompt_importable confirm_ask click_confirm
                click_prompt load_template_file write_file project_name
                true yes w) as H1.
  pose proof (init_cases W rich mkdir chdir cwd_name file_exists manifest'
                rich_prompt_importable confirm_ask click_confirm
                click_prompt load_template_file write_file project_name
                true yes w) as H2.
  cbv zeta in H1, H2.
  destruct (result (CliInit.enter_project W mkdir chdir cwd_name
                      (CliInit.normalise project_name) w))
    as [final|e|c]; [|congruence|congruence].
  destruct (result (CliInit.handle_existing W rich_prompt_importable
                      confirm_ask click_confirm _ true yes _))
    as [[]|e|c]; [|congruence|congruence|congruence].
  rewrite (choose_config_forced W manifest manifest') in H1.
  destruct (result (CliInit.choose_config W manifest' click_confirm
                      click_prompt final _ true yes _))
    as [[| | | | |d]|e|c]; try congruence.
  destruct (dict_get "name" d) as [name|]; [|congruence].
  destruct (result (CliInit.create_project_files W load_template_file
                      write_file (PDict d) _)) as [u|e|c]; congruence.
Qed.

Lemma init_force_ignores_manifest_witness :
  CliInit.init (list string) Cli.NoRich InitExamples.mkdir_ok
    InitExamples.chdir_ok InitExamples.cwd_demo InitExamples.has
    InitExamples.some_manifest false (InitExamples.say false)
    (InitExamples.say false) InitExamples.take_default
    InitExamples.template_ok InitExamples.write_ok
    None true true ["awd.yml"] =
  CliInit.init (list string) Cli.NoRich InitExamples.mkdir_ok
    InitExamples.chdir_ok InitExamples.cwd_demo InitExamples.has
    InitExamples.no_manifest false (InitExamples.say false)
    (InitExamples.say false) InitExamples.take_default
    InitExamples.template_ok InitExamples.write_ok
    None true true ["awd.yml"].
Proof.
  apply (init_force_ignores_manifest (list string) Cli.NoRich
           InitExamples.mkdir_ok InitExamples.chdir_ok
           InitExamples.cwd_demo InitExamples.has
           InitExamples.some_manifest InitExamples.no_manifest false
           (InitExamples.say false) (InitExamples.say false)
           InitExamples.take_default InitExamples.template_ok
           InitExamples.write_ok None true true ["awd.yml"] eq_refl).
Defined.
